(** * Horta Escolar: the filtering-and-aggregation pipeline

    A shallow embedding of the three revisions of the dashboard
    ([app.py], [app2.py], [app_enhanced.py]): the tables they read, the
    normalisation of identifier and quantity columns, the selection of
    plantings, its propagation to the child tables and the metrics shown
    on the dashboard.

    Conventions.
    - A pandas cell is a [cell]; a missing value (NaN, NaT, <NA>, None) is
      [CNaN].  A float is an exact rational: the rounding of the
      floating-point unit is not modelled (a ratio of two counts below
      10^15 compares with 0.6 and 0.25 as the exact ratio does; sums and
      casts are stated where float64 and int64 are exact), and an
      infinite float appears only as the reading of a text cell.
    - A column is as [read_csv] makes it: numbers and missing values, or
      strings and missing values, or timestamps.
    - A timestamp cell keeps its calendar day only (the code always goes
      through [.dt.date]); a day is the number of days since 1970-01-01.
    - What the libraries do with one string is a parameter of the
      development ([Pandas]): the number or the date read out of a string
      cell, the search of a regular expression, and the lower case and
      the stripping of a Unicode string.  A string is the UTF-8 encoding
      of a Python [str]. *)

From Stdlib Require Import ZArith QArith Qround Lqa String Ascii List Lia Bool.
From stdpp Require Import base decidable option list sorting gmap strings.

Local Open Scope string_scope.
Local Open Scope list_scope.
Local Open Scope Z_scope.

(** ** Cells, series and tables *)

Inductive cell : Type :=
| CInt (z : Z)
| CFloat (q : Q)
| CStr (s : string)
| CDate (d : Z)
| CNaN.

(** A numeric value of a float column: [None] is NaN. *)
Abbreviation num := (option Q).

(** ** Exceptions *)

Inductive exn : Type :=
| KeyError (label : string)
| TypeError
| ValueError
| AttributeError
| FileNotFoundError (name : string).

Inductive result (A : Type) : Type :=
| Ok (a : A)
| Raise (e : exn).
Arguments Ok {A} a.
Arguments Raise {A} e.

#[global] Instance result_ret : MRet result := fun A a => Ok a.

#[global] Instance result_bind : MBind result := fun A B k r =>
  match r with
  | Ok a => k a
  | Raise e => Raise e
  end.

Fixpoint mapM_result {A B : Type} (f : A -> result B) (l : list A) : result (list B) :=
  match l with
  | [] => Ok []
  | a :: l' => b ← f a; bs ← mapM_result f l'; Ok (b :: bs)
  end.

(** What the libraries do with one string: [pandas.to_numeric] and
    [pandas.to_datetime] on a string cell, [re.search(pat, text)] for
    a pattern that has a regular-expression metacharacter, whether
    [pandas.to_numeric] reads the string as an infinite float ([inf],
    [-inf], [Infinity]), and Python's [str.lower()] and [str.strip()]. *)
Class Pandas : Type := {
  str_to_number : string -> num;
  str_to_date : string -> option Z;
  re_search : string -> string -> result bool;
  str_is_inf : string -> bool;
  lower : string -> string;
  strip : string -> string
}.

Definition ns_per_day : Z := 86400000000000.

(** [pd.to_numeric(x, errors='coerce')] on one cell.  A timestamp is
    viewed as its count of nanoseconds. *)
Definition to_numeric {P : Pandas} (c : cell) : num :=
  match c with
  | CInt z => Some (inject_Z z)
  | CFloat q => Some q
  | CStr s => str_to_number s
  | CDate d => Some (inject_Z (d * ns_per_day))
  | CNaN => None
  end.

(** [Series.fillna(v)] on a numeric cell. *)
Definition fillna (v : Q) (x : num) : Q :=
  match x with Some q => q | None => v end.

(** [astype(int)]: truncation toward zero, of a number within the range
    of int64. *)
Definition astype_int (q : Q) : Z := Z.quot (Qnum q) (Zpos (Qden q)).

(** The range of int64. *)
Definition int64_min : Z := - 2 ^ 63.
Definition int64_max : Z := 2 ^ 63 - 1.

Definition in_int64 (z : Z) : bool := (int64_min <=? z) && (z <=? int64_max).

(** [astype(int)] of a finite float64: truncation toward zero; a number
    beyond the range of int64 is cast to the least int64 (what the
    conversion of the x86-64 processors gives; numpy warns and goes
    on). *)
Definition astype_int64 (q : Q) : Z :=
  if in_int64 (astype_int q) then astype_int q else int64_min.

(** The cell reads as an infinite float.  A float cell holds a finite
    number; only a text cell can read as an infinity. *)
Definition reads_inf {P : Pandas} (c : cell) : bool :=
  match c with
  | CStr s => str_is_inf s
  | _ => false
  end.

(** [Series.round()]: to the nearest integer, ties to the even one. *)
Definition round_half_even (q : Q) : Q :=
  let f := Qfloor q in
  let r := (q - inject_Z f)%Q in
  match (r ?= 1 # 2)%Q with
  | Lt => inject_Z f
  | Gt => inject_Z (f + 1)
  | Eq => if Z.even f then inject_Z f else inject_Z (f + 1)
  end.

(** [normalize_dataframes], the [quantidade_colhida] column:
    [pd.to_numeric(col, errors='coerce').fillna(0).round().astype(int)].
    The cast refuses an infinite value ([IntCastingNaNError], a
    [ValueError]). *)
Definition coerce_quantidade {P : Pandas} (c : cell) : result Z :=
  if reads_inf c then Raise ValueError
  else Ok (astype_int64 (round_half_even (fillna 0 (to_numeric c)))).

(** A table: the column labels and the rows, each row holding one cell per
    column, in the order of the labels. *)
Record DataFrame : Type := mkDataFrame {
  columns : list string;
  rows : list (list cell)
}.

(** [pd.DataFrame()]: no column, no row. *)
Definition pd_DataFrame : DataFrame := {| columns := []; rows := [] |}.

(** [df.empty]: some axis has length 0. *)
Definition df_empty (df : DataFrame) : bool :=
  match columns df, rows df with
  | [], _ => true
  | _, [] => true
  | _, _ => false
  end.

(** ['name' in df.columns]. *)
Definition has_column (name : string) (df : DataFrame) : bool :=
  bool_decide (name ∈ columns df).

Fixpoint index_of (name : string) (cols : list string) : option nat :=
  match cols with
  | [] => None
  | c :: cols' =>
      if String.eqb name c then Some O else S <$> index_of name cols'
  end.

(** The cell of row [r] under the label [name]. *)
Definition cell_of (df : DataFrame) (name : string) (r : list cell) : cell :=
  match index_of name (columns df) with
  | Some i => nth i r CNaN
  | None => CNaN
  end.

(** [df[name]], for a label the table has. *)
Definition series (name : string) (df : DataFrame) : list cell :=
  map (cell_of df name) (rows df).

(** Boolean indexing: the rows whose mask entry is [True]. *)
Fixpoint loc_rows (mask : list bool) (rs : list (list cell)) : list (list cell) :=
  match mask, rs with
  | b :: mask', r :: rs' =>
      if b then r :: loc_rows mask' rs' else loc_rows mask' rs'
  | _, _ => []
  end.

Definition loc (df : DataFrame) (mask : list bool) : DataFrame :=
  {| columns := columns df; rows := loc_rows mask (rows df) |}.

(** [df.copy()]. *)
Definition copy (df : DataFrame) : DataFrame := df.

(** ** Propagation of the selection ([app_enhanced.py]) *)

(** [plantio_ids]: the planting ids visible in the selection,
    [set(pd.to_numeric(col, errors='coerce').dropna().astype(int).tolist())]. *)
Definition plantio_ids_of {P : Pandas} (plantios_f : DataFrame) : gset Z :=
  if negb (df_empty plantios_f) && has_column "plantio_id" plantios_f
  then list_to_set
         (omap (fun c => astype_int <$> to_numeric c)
               (series "plantio_id" plantios_f))
  else ∅.

(** [filter_by_plantios_table(df)]; [None] is Python's [None]. *)
Definition filter_by_plantios_table {P : Pandas}
    (plantio_ids : gset Z) (df : option DataFrame) : DataFrame :=
  match df with
  | None => pd_DataFrame
  | Some df =>
      if df_empty df then pd_DataFrame
      else if has_column "plantio_id" df then
        let coerced := map (fun c => fillna (-1) (to_numeric c)) (series "plantio_id" df) in
        let mask :=
          if bool_decide (plantio_ids ≠ ∅)
          then map (fun q => bool_decide (astype_int q ∈ plantio_ids)) coerced
          else repeat false (length (rows df)) in
        copy (loc df mask)
      else copy df
  end.

(** ** Keys: how pandas compares cells

    Grouping, [nunique], [isin] and [merge] compare cells by value: two
    numbers are the same key when they are equal as numbers (1 and 1.0),
    strings are compared as strings, and a missing value has no key. *)

Inductive key : Type :=
| KNum (n : Z) (d : positive)
| KStr (s : string)
| KDate (d : Z).

#[global] Instance key_eq_dec : EqDecision key.
Proof. solve_decision. Defined.

Definition cell_key (c : cell) : option key :=
  match c with
  | CInt z => Some (KNum z 1)
  | CFloat q => Some (KNum (Qnum (Qred q)) (Qden (Qred q)))
  | CStr s => Some (KStr s)
  | CDate d => Some (KDate d)
  | CNaN => None
  end.

(** [merge] and [isin] match two cells with the same key; they also match
    a missing value with a missing value. *)
Definition key_match (a b : cell) : bool :=
  bool_decide (cell_key a = cell_key b).

(** [Series.isin(values)]. *)
Definition isin (values : list cell) (c : cell) : bool :=
  existsb (key_match c) values.

(** [Series.nunique()]: the number of distinct values, missing ones left
    out. *)
Definition nunique (s : list cell) : nat :=
  length (remove_dups (omap cell_key s)).

(** [Series.unique()]: the values in order of first appearance, one per
    key (a missing value included once). *)
Fixpoint unique_from (seen : list (option key)) (l : list cell) : list cell :=
  match l with
  | [] => []
  | c :: l' =>
      if bool_decide (cell_key c ∈ seen) then unique_from seen l'
      else c :: unique_from (cell_key c :: seen) l'
  end.

Definition unique (s : list cell) : list cell := unique_from [] s.

(** [series == text]: comparison of a cell with a Python string. *)
Definition eq_str (text : string) (c : cell) : bool :=
  match c with
  | CStr s => String.eqb s text
  | _ => false
  end.

(** ** Column selection, renaming and merging *)

(** [df[[c1; ...; cn]]]. *)
Definition select (cols : list string) (df : DataFrame) : result DataFrame :=
  match filter (fun c => negb (has_column c df)) cols with
  | c :: _ => Raise (KeyError c)
  | [] => Ok {| columns := cols;
                rows := map (fun r => map (fun c => cell_of df c r) cols) (rows df) |}
  end.

(** [df.rename(columns={old: new})]. *)
Definition rename (old new : string) (df : DataFrame) : DataFrame :=
  {| columns := map (fun c => if String.eqb c old then new else c) (columns df);
     rows := rows df |}.

(** A key column holds text when one of its cells does (dtype [object]). *)
Definition is_object (s : list cell) : bool :=
  existsb (fun c => match c with CStr _ => true | _ => false end) s.

Inductive how : Type := Left | Inner.

(** The row of [df] without its [on] cell. *)
Definition drop_cell (df : DataFrame) (on : string) (r : list cell) : list cell :=
  match index_of on (columns df) with
  | Some i => take i r ++ drop (S i) r
  | None => r
  end.

(** [left.merge(right, on=on, how=h)].  A label both tables have, other
    than [on], gets the suffixes [_x] and [_y]; a merge of a text key
    with a numeric key raises (the dtype of a column with no row is not
    modelled: no such check is made when a table has no row). *)
Definition df_merge (h : how) (on : string) (left right : DataFrame) : result DataFrame :=
  if negb (has_column on left && has_column on right) then Raise (KeyError on)
  else if negb (eqb (is_object (series on left)) (is_object (series on right)))
       && negb (df_empty left) && negb (df_empty right)
  then Raise ValueError
  else
    let rcols := filter (fun c => negb (String.eqb c on)) (columns right) in
    let lname c := if bool_decide (c ∈ rcols) then c +:+ "_x" else c in
    let rname c := if bool_decide (c ∈ columns left) then c +:+ "_y" else c in
    let blank := map (fun _ => CNaN) rcols in
    let join r :=
      match filter (fun r' => key_match (cell_of left on r) (cell_of right on r'))
                   (rows right) with
      | [] => match h with Left => [r ++ blank] | Inner => [] end
      | ms => map (fun r' => r ++ drop_cell right on r') ms
      end in
    Ok {| columns := map lname (columns left) ++ map rname rcols;
          rows := flat_map join (rows left) |}.

(** ** The selection of plantings ([app_enhanced.py]) *)

(** The value of the period widget: one date, or a sequence of dates. *)
Inductive date_input : Type :=
| OneDate (d : Z)
| DateSeq (ds : list Z).

Record Criteria : Type := mkCriteria {
  date_range : date_input;
  especie_sel : string;
  canteiro_sel : string;
  responsavel_sel : string
}.

(** [pd.to_datetime(x, errors='coerce').date]: the day of one cell.  A
    number is a count of nanoseconds since 1970-01-01. *)
Definition to_datetime {P : Pandas} (c : cell) : option Z :=
  match c with
  | CDate d => Some d
  | CStr s => str_to_date s
  | CInt z => Some (z `div` ns_per_day)
  | CFloat q => Some (Qfloor q `div` ns_per_day)
  | CNaN => None
  end.

(** The start and the end [filter_plantios] reads from the period.  On a
    sequence that is not a pair it takes the sequence itself as both, and
    [pd.to_datetime(seq).date()] then calls an array: [TypeError]. *)
Definition date_bounds (dr : date_input) : result (Z * Z) :=
  match dr with
  | DateSeq [s; e] => Ok (s, e)
  | DateSeq _ => Raise TypeError
  | OneDate d => Ok (d, d)
  end.

(** [(day >= s) & (day <= e)]; a comparison with a missing day is false. *)
Definition in_period {P : Pandas} (s e : Z) (c : cell) : bool :=
  match to_datetime c with
  | Some d => (s <=? d) && (d <=? e)
  | None => false
  end.

(** [df[df[label] == text]], applied when [sel] is not the label of "no
    filter" and the table has the column. *)
Definition filter_eq (all_label sel label : string) (df : DataFrame) : DataFrame :=
  if negb (String.eqb sel all_label) && has_column label df
  then loc df (map (eq_str sel) (series label df))
  else df.

(** [filter_plantios(df)]: the global filters on the planting table. *)
Definition filter_plantios {P : Pandas} (crit : Criteria) (df : DataFrame) : result DataFrame :=
  if df_empty df then Ok df
  else
    '(s, e) ← date_bounds (date_range crit);
    if negb (has_column "data_plantio" df) then Ok df
    else
      let df := loc df (map (in_period s e) (series "data_plantio" df)) in
      let df := filter_eq "Todas" (especie_sel crit) "especie_nome" df in
      let df := filter_eq "Todos" (canteiro_sel crit) "canteiro_nome" df in
      let df := filter_eq "Todos" (responsavel_sel crit) "responsavel" df in
      Ok df.

(** ** The store, its joins and its normalisation ([app_enhanced.py]) *)

Record Store : Type := mkStore {
  canteiros : DataFrame;
  especies : DataFrame;
  plantios : DataFrame;
  observ : DataFrame;
  colheitas : DataFrame;
  eventos : DataFrame
}.

(** "Basic joins": the planting table gets the name of its bed and of its
    species, by a left merge. *)
Definition add_name (key name new : string) (names df : DataFrame) : result DataFrame :=
  if negb (df_empty df) && has_column key df && negb (df_empty names)
  then
    right ← select [key; name] names;
    df_merge Left key df (rename name new right)
  else Ok df.

Definition enrich (st : Store) : result Store :=
  p1 ← add_name "canteiro_id" "nome" "canteiro_nome" (canteiros st) (plantios st);
  p2 ← add_name "especie_id" "nome_comum" "especie_nome" (especies st) p1;
  Ok (mkStore (canteiros st) (especies st) p2 (observ st) (colheitas st) (eventos st)).

(** [pd.to_numeric(x, errors='coerce').astype('Int64')]: a number that is
    infinite, or is not whole, or is beyond the range of int64, cannot be
    cast. *)
Definition to_Int64 {P : Pandas} (c : cell) : result cell :=
  if reads_inf c then Raise TypeError
  else
    match to_numeric c with
    | None => Ok CNaN
    | Some q =>
        if (Z.rem (Qnum q) (Zpos (Qden q)) =? 0) && in_int64 (astype_int q)
        then Ok (CInt (astype_int q))
        else Raise TypeError
    end.

(** [df[label] = f(df[label])], when the table has rows and the column. *)
Definition map_column (label : string) (f : cell -> result cell) (df : DataFrame)
    : result DataFrame :=
  if negb (df_empty df) && has_column label df
  then
    match index_of label (columns df) with
    | Some i =>
        rs ← mapM_result (fun r => c ← f (nth i r CNaN); Ok (<[i := c]> r)) (rows df);
        Ok {| columns := columns df; rows := rs |}
    | None => Ok df
    end
  else Ok df.

Definition normalize_dataframes {P : Pandas} (st : Store) : result Store :=
  p ← map_column "plantio_id" to_Int64 (plantios st);
  p ← map_column "canteiro_id" to_Int64 p;
  p ← map_column "especie_id" to_Int64 p;
  c ← map_column "plantio_id" to_Int64 (colheitas st);
  c ← map_column "quantidade_colhida" (fun x => z ← coerce_quantidade x; Ok (CInt z)) c;
  o ← map_column "plantio_id" to_Int64 (observ st);
  e ← map_column "plantio_id" to_Int64 (eventos st);
  b ← map_column "canteiro_id" to_Int64 (canteiros st);
  s ← map_column "especie_id" to_Int64 (especies st);
  Ok (mkStore b s p o c e).

(** The filtered views every page reads. *)
Record Views : Type := mkViews {
  plantios_f : DataFrame;
  plantio_ids : gset Z;
  colheitas_f : DataFrame;
  observ_f : DataFrame;
  eventos_f : DataFrame
}.

Definition views {P : Pandas} (crit : Criteria) (st : Store) : result Views :=
  pf ← filter_plantios crit (plantios st);
  let ids := plantio_ids_of pf in
  Ok (mkViews pf ids
        (filter_by_plantios_table ids (Some (colheitas st)))
        (filter_by_plantios_table ids (Some (observ st)))
        (filter_by_plantios_table ids (Some (eventos st)))).

(** ** Numbers of the dashboards *)

(** A Python number as the metrics produce it: an [int], a [float], or
    the float [nan] the code uses for a ratio it cannot compute
    ([np.nan]). *)
Inductive pynum : Type :=
| PyInt (z : Z)
| PyFloat (q : Q)
| PyNaN.

(** [v >= q]; a comparison with [nan] is false. *)
Definition pynum_ge (v : pynum) (q : Q) : bool :=
  match v with
  | PyInt z => Qle_bool q (inject_Z z)
  | PyFloat x => Qle_bool q x
  | PyNaN => false
  end.

(** [a / b]: true division. *)
Definition truediv (a b : Z) : Q := (inject_Z a / inject_Z b)%Q.

(** [Series.sum()] of a numeric series: missing values are skipped. *)
Definition series_sum (s : list num) : Q :=
  fold_right Qplus 0%Q (map (fillna 0) s).

(** The value of a cell of a numeric column (int64 or float64). *)
Definition as_number (c : cell) : num :=
  match c with
  | CInt z => Some (inject_Z z)
  | CFloat q => Some q
  | _ => None
  end.

(** [app.py], [app2.py]: [(plantios_colhidos / num_plantios) if num_plantios>0 else 0]. *)
Definition taxa_sucesso (plantios_colhidos num_plantios : Z) : pynum :=
  if 0 <? num_plantios then PyFloat (truediv plantios_colhidos num_plantios)
  else PyInt 0.

(** [app2.py], success rate by species, one group:
    [(df['_merge']=="both").sum() / df.shape[0] if df.shape[0]>0 else np.nan]. *)
Definition sucesso_rate (both size : Z) : pynum :=
  if 0 <? size then PyFloat (truediv both size) else PyNaN.

(** [app_enhanced.py], bed cards: [harvested_cnt / total if total > 0 else 0]. *)
Definition rate (harvested_cnt total : Z) : pynum :=
  if 0 <? total then PyFloat (truediv harvested_cnt total) else PyInt 0.

(** The colour of a bed card in [app_enhanced.py]. *)
Definition color (r : pynum) : string :=
  if pynum_ge r (6 # 10) then "#1B5E20"
  else if pynum_ge r (25 # 100) then "#F57F17"
  else "#B71C1C".

(** The colour of a bed card in [app2.py]. *)
Definition color_app2 (r : pynum) : string :=
  if pynum_ge r (6 # 10) then "#2ECC71"
  else if pynum_ge r (25 # 100) then "#F1C40F"
  else "#E74C3C".

(** The legends of the two maps: green is a good success rate ("boa taxa
    de sucesso", ">= 60%"), yellow asks for attention ("atenção",
    "25-60%"), red needs action ("precisa ação", "< 25%"). *)
Inductive status : Type := Good | Attention | CriticalStatus.

Definition legend (c : string) : option status :=
  if String.eqb c "#1B5E20" || String.eqb c "#2ECC71" then Some Good
  else if String.eqb c "#F57F17" || String.eqb c "#F1C40F" then Some Attention
  else if String.eqb c "#B71C1C" || String.eqb c "#E74C3C" then Some CriticalStatus
  else None.

(** ** The dashboard of [app_enhanced.py] *)

Record Kpis : Type := mkKpis {
  total_colhido : Q;
  total_plantios : nat;
  plantios_colhidos : nat;
  num_observ : nat
}.

Definition dashboard_kpis {P : Pandas} (v : Views) : Kpis :=
  let cf := colheitas_f v in
  {| total_colhido :=
       if negb (df_empty cf)
       then series_sum
              (if has_column "quantidade_colhida" cf
               then map to_numeric (series "quantidade_colhida" cf)
               else [])
       else 0%Q;
     total_plantios :=
       if negb (df_empty (plantios_f v)) then length (rows (plantios_f v)) else O;
     plantios_colhidos :=
       if negb (df_empty cf) && has_column "plantio_id" cf
       then nunique (series "plantio_id" cf) else O;
     num_observ :=
       if negb (df_empty (observ_f v)) then length (rows (observ_f v)) else O |}.

(** [df.groupby(grp)[val].nunique().to_dict()]: a group per key of [grp]
    (rows with a missing key are left out). *)
Definition groupby_nunique (grp val : string) (df : DataFrame) : result (list (key * nat)) :=
  if negb (has_column grp df) then Raise (KeyError grp)
  else if negb (has_column val df) then Raise AttributeError
  else
    Ok (map (fun k =>
               (k, nunique (map (cell_of df val)
                              (filter (fun r => bool_decide (cell_key (cell_of df grp r) = Some k))
                                      (rows df)))))
            (remove_dups (omap cell_key (series grp df)))).

(** [d.get(k, 0)]; the key of a missing value is in no dictionary. *)
Definition dict_get (d : list (key * nat)) (k : option key) : nat :=
  match k with
  | Some k => default O (snd <$> find (fun kv => bool_decide (kv.1 = k)) d)
  | None => O
  end.

Record Card : Type := mkCard {
  card_nome : cell;
  card_total : Z;
  card_harvested : Z;
  card_rate : pynum;
  card_color : string
}.

(** "Mapa esquemático (status por canteiro)". *)
Definition bed_cards (beds : DataFrame) (v : Views) : result (list Card) :=
  if df_empty beds then Ok []
  else
    let pf := plantios_f v in
    let cf := colheitas_f v in
    totals ←
      (if negb (df_empty pf) && has_column "canteiro_id" pf
       then groupby_nunique "canteiro_id" "plantio_id" pf
       else Ok []);
    harvested ←
      (if negb (df_empty cf) && has_column "plantio_id" cf
          && negb (df_empty pf) && has_column "plantio_id" pf
       then
         right ← select ["plantio_id"; "canteiro_id"] pf;
         merged ← df_merge Inner "plantio_id" cf right;
         groupby_nunique "canteiro_id" "plantio_id" merged
       else Ok []);
    Ok (map (fun c =>
               let cid := cell_of beds "canteiro_id" c in
               let total := Z.of_nat (dict_get totals (cell_key cid)) in
               let harvested_cnt := Z.of_nat (dict_get harvested (cell_key cid)) in
               let r := rate harvested_cnt total in
               mkCard (if has_column "nome" beds then cell_of beds "nome" c else CStr "-")
                      total harvested_cnt r (color r))
            (rows beds)).

(** One run of [app_enhanced.py] up to the dashboard: joins,
    normalisation, selection, propagation, metrics. *)
Record Dashboard : Type := mkDashboard {
  dash_views : Views;
  dash_kpis : Kpis;
  dash_cards : list Card
}.

Definition dashboard {P : Pandas} (crit : Criteria) (loaded : Store) : result Dashboard :=
  st ← enrich loaded;
  st ← normalize_dataframes st;
  v ← views crit st;
  cards ← bed_cards (canteiros st) v;
  Ok (mkDashboard v (dashboard_kpis v) cards).

(** ** Loading the six sources *)

(** A CSV file of the data directory, as [pd.read_csv] reads it: with the
    date columns parsed, and without date parsing. *)
Record csv_file : Type := mkCsv {
  read_parsed : result DataFrame;
  read_plain : result DataFrame
}.

(** The data directory: the files it holds, by name. *)
Abbreviation data_dir := (gmap string csv_file).

(** What the page reports to the user. *)
Inductive severity : Type := Error | Warning.

Inductive message : Type :=
| Arquivo_ausente (name : string)      (* st.error("Arquivo ausente: ...") *)
| Erro_ao_ler (name : string)          (* st.warning("Erro ao ler ...") *)
| Falha_ao_carregar (name : string).   (* st.error("Falha ao carregar ...") *)

Definition level (m : message) : severity :=
  match m with
  | Arquivo_ausente _ => Error
  | Erro_ao_ler _ => Warning
  | Falha_ao_carregar _ => Error
  end.

(** [safe_load(name)] of [app_enhanced.py]: the table and the messages
    reported on the way. *)
Definition safe_load (dir : data_dir) (name : string) : DataFrame * list message :=
  match dir !! name with
  | None => (pd_DataFrame, [Arquivo_ausente name])
  | Some f =>
      match read_parsed f with
      | Ok df => (df, [])
      | Raise _ =>
          match read_plain f with
          | Ok df => (df, [Erro_ao_ler name])
          | Raise _ => (pd_DataFrame, [Erro_ao_ler name; Falha_ao_carregar name])
          end
      end
  end.

Definition sources : list string :=
  ["canteiros.csv"; "especies.csv"; "plantios.csv"; "observacoes.csv";
   "colheitas.csv"; "eventos_manejo.csv"].

(** The six [safe_load] calls at the top of [app_enhanced.py]. *)
Definition load_enhanced (dir : data_dir) : Store * list message :=
  let '(b, m1) := safe_load dir "canteiros.csv" in
  let '(s, m2) := safe_load dir "especies.csv" in
  let '(p, m3) := safe_load dir "plantios.csv" in
  let '(o, m4) := safe_load dir "observacoes.csv" in
  let '(c, m5) := safe_load dir "colheitas.csv" in
  let '(e, m6) := safe_load dir "eventos_manejo.csv" in
  (mkStore b s p o c e, m1 ++ m2 ++ m3 ++ m4 ++ m5 ++ m6).

(** [pd.read_csv(path)] as [app.py] and [app2.py] call it: a file that is
    not there raises. *)
Definition read_csv (dir : data_dir) (parse_dates : bool) (name : string) : result DataFrame :=
  match dir !! name with
  | None => Raise (FileNotFoundError name)
  | Some f => if parse_dates then read_parsed f else read_plain f
  end.

Definition read_all (dir : data_dir) : result Store :=
  b ← read_csv dir false "canteiros.csv";
  s ← read_csv dir false "especies.csv";
  p ← read_csv dir true "plantios.csv";
  o ← read_csv dir true "observacoes.csv";
  c ← read_csv dir true "colheitas.csv";
  e ← read_csv dir true "eventos_manejo.csv";
  Ok (mkStore b s p o c e).

(** ** Text *)

(** [pat in text]. *)
Fixpoint is_substring (pat text : string) : bool :=
  String.prefix pat text ||
  match text with
  | String _ text' => is_substring pat text'
  | EmptyString => false
  end.

(** A pattern with none of the characters the [re] module gives a meaning
    to: it matches itself. *)
Definition regex_literal (pat : string) : bool :=
  forallb (fun a => negb (bool_decide (a ∈ list_ascii_of_string ".^$*+?{}[]\|()")))
          (list_ascii_of_string pat).

(** [Series.str.contains(pat)] on one string: a regular-expression
    search. *)
Definition str_contains {P : Pandas} (pat text : string) : result bool :=
  if regex_literal pat then Ok (is_substring pat text) else re_search pat text.

Definition is_missing (c : cell) : bool :=
  match c with CNaN => true | _ => false end.

(** A string, or a missing value that [fillna('')] makes a string. *)
Definition is_text (c : cell) : bool :=
  match c with
  | CStr _ | CNaN => true
  | _ => false
  end.

(** The dtype of a column as [read_csv] makes it is [object] when the
    column holds a text cell, or no cell at all. *)
Definition object_dtype (col : list cell) : bool :=
  bool_decide (col = []) || is_object col.

(** [col.fillna('').str], where [col] keeps some rows of the column
    [origin] of a table as loaded (and so has its dtype).  The accessor is
    refused unless the filled column has the dtype [object] (the column
    as loaded has it, or a missing cell was filled with the empty
    string) and holds no value, or a string among its values. *)
Definition str_accessor (origin col : list cell) : result unit :=
  if (object_dtype origin || existsb is_missing col)
     && (bool_decide (col = []) || existsb is_text col)
  then Ok tt
  else Raise AttributeError.

(** [df[label]]. *)
Definition column (label : string) (df : DataFrame) : result (list cell) :=
  if has_column label df then Ok (series label df) else Raise (KeyError label).

(** The numbers of a column [Series.sum()] adds up: a column of text is
    not summed to a number. *)
Definition numeric_cell (c : cell) : result num :=
  match c with
  | CInt _ | CFloat _ | CNaN => Ok (as_number c)
  | _ => Raise TypeError
  end.

(** ** The grouped sums *)

(** [rows.groupby(grp, dropna=...)[val].sum().reset_index()]: a pair
    (group, sum) per key of [grp]; with [dropna=False] the rows with a
    missing key make a group of their own ([None]), otherwise they are
    left out. *)
Definition group_keys (dropna : bool) (grp : string) (df : DataFrame) : list (option key) :=
  remove_dups
    (filter (fun k => negb dropna || bool_decide (k ≠ None))
            (map cell_key (series grp df))).

Definition group_rows (grp : string) (df : DataFrame) (k : option key) : list (list cell) :=
  filter (fun r => bool_decide (cell_key (cell_of df grp r) = k)) (rows df).

Definition groupby_sum (dropna : bool) (grp val : string) (df : DataFrame)
    : result (list (option key * Q)) :=
  if negb (has_column grp df) then Raise (KeyError grp)
  else if negb (has_column val df) then Raise AttributeError
  else
    mapM_result
      (fun k =>
         vs ← mapM_result (fun r => numeric_cell (cell_of df val r)) (group_rows grp df k);
         Ok (k, series_sum vs))
      (group_keys dropna grp df).

(** The order of [sort_values(val, ascending=False)]. *)
Definition sum_ge (a b : option key * Q) : Prop := (a.2 >= b.2)%Q.

#[global] Instance sum_ge_dec a b : Decision (sum_ge a b).
Proof.
  unfold sum_ge. destruct (Qlt_le_dec a.2 b.2) as [Hlt | Hle].
  - right. intros Hge. exact (Qlt_not_le _ _ Hlt Hge).
  - left. exact Hle.
Defined.

(** [sort_values(val, ascending=False)].  The order among equal sums is
    that of a stable sort; pandas does not fix it. *)
Definition sort_values_desc (l : list (option key * Q)) : list (option key * Q) :=
  merge_sort sum_ge l.

(** The grouped sum of a view: groups, sums, descending order. *)
Definition grouped_sum (dropna : bool) (grp val : string) (df : DataFrame)
    : result (list (option key * Q)) :=
  g ← groupby_sum dropna grp val df;
  Ok (sort_values_desc g).

(** [sum] of a list of Python numbers. *)
Definition sumQ (l : list Q) : Q := fold_right Qplus 0%Q l.

(** ** [app.py] *)

Module App.

(** [load]: the six files are read; nothing is checked. *)
Definition load (dir : data_dir) : result Store := read_all dir.

Record Kpis : Type := mkKpis {
  total_colhido : Q;
  num_plantios : nat;
  plantios_colhidos : nat;
  taxa : pynum
}.

(** The KPIs at the top of the page. *)
Definition kpis (st : Store) : result Kpis :=
  total ←
    (if negb (df_empty (colheitas st))
     then col ← column "quantidade_colhida" (colheitas st);
          vs ← mapM_result numeric_cell col;
          Ok (series_sum vs)
     else Ok 0%Q);
  ids ← column "plantio_id" (colheitas st);
  let n := length (rows (plantios st)) in
  let h := nunique ids in
  Ok (mkKpis total n h (taxa_sucesso (Z.of_nat h) (Z.of_nat n))).

(** "Produção por espécie": [prod_sum], grouped with [dropna=False]. *)
Definition prod_sum (especie_sel : string) (st : Store) : result (list (option key * Q)) :=
  m ← df_merge Left "plantio_id" (colheitas st) (plantios st);
  prod ← df_merge Left "especie_id" m (especies st);
  prod ←
    (if negb (String.eqb especie_sel "Todas")
     then col ← column "nome_comum" prod; Ok (loc prod (map (eq_str especie_sel) col))
     else Ok prod);
  grouped_sum false "nome_comum" "quantidade_colhida" prod.

End App.

(** ** [app2.py] *)

Module App2.

(** [load_data]: every missing file is reported, then all six are read. *)
Definition load_data (dir : data_dir) : list message * result Store :=
  (map Arquivo_ausente (filter (fun name => bool_decide (dir !! name = None)) sources),
   read_all dir).

(** "Join helpers": unguarded left merges. *)
Definition join_helpers (st : Store) : result Store :=
  b ← select ["canteiro_id"; "nome"] (canteiros st);
  p ← df_merge Left "canteiro_id" (plantios st) (rename "nome" "canteiro_nome" b);
  s ← select ["especie_id"; "nome_comum"] (especies st);
  p ← df_merge Left "especie_id" p (rename "nome_comum" "especie_nome" s);
  Ok (mkStore (canteiros st) (especies st) p (observ st) (colheitas st) (eventos st)).

Record Criteria : Type := mkCriteria {
  period : date_input;
  especie_sel : string;
  canteiro_sel : string;
  responsavel_sel : string;
  metodo_sel : string;
  only_active : bool;
  search_text : string
}.

(** [start_date, end_date = period]. *)
Definition unpack (p : date_input) : result (Z * Z) :=
  match p with
  | DateSeq [s; e] => Ok (s, e)
  | DateSeq _ => Raise ValueError
  | OneDate _ => Raise TypeError
  end.

(** [pd.to_datetime(col)], errors raised: a string that is no date
    raises. *)
Definition to_datetime_raise {P : Pandas} (c : cell) : result (option Z) :=
  match c with
  | CStr s =>
      match str_to_date s with
      | Some d => Ok (Some d)
      | None => Raise ValueError
      end
  | _ => Ok (to_datetime c)
  end.

(** [p[p[label] == sel]], unless [sel] is the label of "no filter". *)
Definition filter_eq (all_label sel label : string) (p : DataFrame) : result DataFrame :=
  if negb (String.eqb sel all_label)
  then col ← column label p; Ok (loc p (map (eq_str sel) col))
  else Ok p.

(** The selection before the text search. *)
Definition filtra {P : Pandas} (crit : Criteria) (st : Store) : result DataFrame :=
  '(s, e) ← unpack (period crit);
  col ← column "data_plantio" (plantios st);
  days ← mapM_result to_datetime_raise col;
  let mask := map (fun d => match d with
                            | Some d => (s <=? d) && (d <=? e)
                            | None => false
                            end) days in
  let p := copy (loc (plantios st) mask) in
  p ← filter_eq "Todas" (especie_sel crit) "especie_nome" p;
  p ← filter_eq "Todos" (canteiro_sel crit) "canteiro_nome" p;
  p ← filter_eq "Todos" (responsavel_sel crit) "responsavel" p;
  p ← filter_eq "Todos" (metodo_sel crit) "metodo" p;
  if only_active crit
  then
    harvested_ids ← column "plantio_id" (colheitas st);
    ids ← column "plantio_id" p;
    Ok (loc p (map (fun c => negb (isin (unique harvested_ids) c)) ids))
  else Ok p.

(** One value of [col.fillna('').str.lower().str.contains(s)]: a string
    is searched, a missing value is the empty string, and a value that is
    no string (a number, a date) gives NaN, here [None]. *)
Definition contains_cell {P : Pandas} (s : string) (c : cell) : result (option bool) :=
  match c with
  | CStr t => b ← str_contains s (lower t); Ok (Some b)
  | CNaN => b ← str_contains s (lower EmptyString); Ok (Some b)
  | _ => Ok None
  end.

(** [col.fillna('').str.lower().str.contains(s)]. *)
Definition contains_mask {P : Pandas} (origin : list cell) (s : string) (col : list cell)
    : result (list (option bool)) :=
  _ ← str_accessor origin col;
  mapM_result (contains_cell s) col.

(** [observ.loc[obs_mask, ...]]: a mask that holds NaN is refused. *)
Definition bool_mask (mask : list (option bool)) : result (list bool) :=
  mapM_result (fun m => match m with Some b => Ok b | None => Raise ValueError end) mask.

(** [p_mask | other], one entry: a NaN of [p_mask] counts as [False]
    whatever the other side. *)
Definition mask_or (m : option bool) (b : bool) : bool :=
  match m with
  | Some a => a || b
  | None => false
  end.

(** The text search: planting notes, or the comments of an
    observation of the planting.  [p] keeps some rows of [plantios], the
    planting table as loaded and joined, and has the dtypes of its
    columns. *)
Definition busca {P : Pandas} (search_text : string) (observ plantios p : DataFrame)
    : result DataFrame :=
  if negb (String.eqb (strip search_text) EmptyString)
  then
    let s := lower (strip search_text) in
    notas ← column "notas" p;
    p_mask ← contains_mask (series "notas" plantios) s notas;
    comentarios ← column "comentarios" observ;
    obs_mask ← contains_mask comentarios s comentarios;
    obs_ids ← column "plantio_id" observ;
    obs_mask ← bool_mask obs_mask;
    let plantios_with_obs := unique (map (cell_of observ "plantio_id") (loc_rows obs_mask (rows observ))) in
    ids ← column "plantio_id" p;
    Ok (loc p (zip_with mask_or p_mask (map (isin plantios_with_obs) ids)))
  else Ok p.

(** The filtered plantings [p]. *)
Definition seleciona {P : Pandas} (crit : Criteria) (st : Store) : result DataFrame :=
  p ← filtra crit st;
  busca (search_text crit) (observ st) (plantios st) p.

(** "Mapa esquemático", the rate of a bed:
    [taxa = (colh_cnt / total) if total>0 else 0]. *)
Definition taxa_canteiro (colh_cnt total : Z) : pynum :=
  if 0 <? total then PyFloat (truediv colh_cnt total) else PyInt 0.

Record Kpis : Type := mkKpis {
  total_colhido : Q;
  num_plantios : nat;
  plantios_com_colheita : nat;
  taxa : pynum
}.

(** "Top KPIs": computed from the tables as loaded and joined, whatever
    the filters. *)
Definition kpis (st : Store) : result Kpis :=
  total ←
    (if negb (df_empty (colheitas st))
     then col ← column "quantidade_colhida" (colheitas st);
          vs ← mapM_result numeric_cell col;
          Ok (series_sum vs)
     else Ok 0%Q);
  h ←
    (if negb (df_empty (colheitas st))
     then ids ← column "plantio_id" (colheitas st); Ok (nunique ids)
     else Ok O);
  let n := length (rows (plantios st)) in
  Ok (mkKpis total n h (taxa_sucesso (Z.of_nat h) (Z.of_nat n))).

(** "Produção por espécie": [prod_sum], grouped with the default
    [dropna=True]. *)
Definition prod_sum (especie_sel : string) (st : Store) : result (list (option key * Q)) :=
  ps ← select ["plantio_id"; "especie_id"] (plantios st);
  m ← df_merge Left "plantio_id" (colheitas st) ps;
  es ← select ["especie_id"; "nome_comum"] (especies st);
  prod ← df_merge Left "especie_id" m es;
  prod ←
    (if negb (String.eqb especie_sel "Todas")
     then col ← column "nome_comum" prod; Ok (loc prod (map (eq_str especie_sel) col))
     else Ok prod);
  grouped_sum true "nome_comum" "quantidade_colhida" prod.

(** "Observações & Colheitas": [child[child['plantio_id'].isin(p['plantio_id'])]]. *)
Definition relacionadas (p child : DataFrame) : result DataFrame :=
  ids ← column "plantio_id" child;
  sel ← column "plantio_id" p;
  Ok (loc child (map (isin sel) ids)).

End App2.

(** ** A reading of decimal and ISO literals, and the scenario of the
    specification *)

Definition digit_of (a : ascii) : option Z :=
  let n := nat_of_ascii a in
  if ((48 <=? n) && (n <=? 57))%nat then Some (Z.of_nat n - 48) else None.

Fixpoint digits_acc (acc : Z) (s : string) : option Z :=
  match s with
  | EmptyString => Some acc
  | String a s' =>
      match digit_of a with
      | Some d => digits_acc (10 * acc + d) s'
      | None => None
      end
  end.

Definition digits (s : string) : option Z :=
  match s with
  | EmptyString => None
  | _ => digits_acc 0 s
  end.

(** A whole number written in decimal, with an optional minus sign. *)
Definition decimal_number (s : string) : num :=
  match s with
  | String "-" s' => (fun z => inject_Z (- z)) <$> digits s'
  | _ => inject_Z <$> digits s
  end.

(** The day number of a civil date (days since 1970-01-01). *)
Definition ymd (y m d : Z) : Z :=
  let y' := if m <=? 2 then y - 1 else y in
  let era := y' `div` 400 in
  let yoe := y' - era * 400 in
  let mp := if 2 <? m then m - 3 else m + 9 in
  let doy := (153 * mp + 2) `div` 5 + d - 1 in
  let doe := yoe * 365 + yoe `div` 4 - yoe `div` 100 + doy in
  era * 146097 + doe - 719468.

(** A date written YYYY-MM-DD. *)
Definition iso_date (s : string) : option Z :=
  if bool_decide (String.length s = 10%nat)
     && String.eqb (substring 4 1 s) "-" && String.eqb (substring 7 1 s) "-"
  then
    y ← digits (substring 0 4 s);
    m ← digits (substring 5 2 s);
    d ← digits (substring 8 2 s);
    if (1 <=? m) && (m <=? 12) && (1 <=? d) && (d <=? 31) then Some (ymd y m d) else None
  else None.

(** [str.isspace] on the ASCII range. *)
Definition is_space (a : ascii) : bool :=
  let n := nat_of_ascii a in
  ((9 <=? n) && (n <=? 13) || (28 <=? n) && (n <=? 32))%nat.

(** The second byte of the white space U+0085 and U+00A0, whose first
    byte is 194. *)
Definition is_space_latin1 (b : ascii) : bool :=
  let n := nat_of_ascii b in ((n =? 133) || (n =? 160))%nat.

Fixpoint lstrip_text (s : string) : string :=
  match s with
  | String a s' =>
      if is_space a then lstrip_text s'
      else if (nat_of_ascii a =? 194)%nat then
        match s' with
        | String b s'' => if is_space_latin1 b then lstrip_text s'' else s
        | EmptyString => s
        end
      else s
  | EmptyString => EmptyString
  end.

(** The same on the reversed bytes, where the second byte comes first. *)
Fixpoint lstrip_reversed (s : string) : string :=
  match s with
  | String a s' =>
      if is_space a then lstrip_reversed s'
      else if is_space_latin1 a then
        match s' with
        | String b s'' => if (nat_of_ascii b =? 194)%nat then lstrip_reversed s'' else s
        | EmptyString => s
        end
      else s
  | EmptyString => EmptyString
  end.

Fixpoint string_rev (s : string) : string :=
  match s with
  | String a s' => string_rev s' +:+ String a EmptyString
  | EmptyString => EmptyString
  end.

(** [str.strip()] on text whose white space is ASCII, U+0085 or U+00A0. *)
Definition strip_text (s : string) : string :=
  string_rev (lstrip_reversed (string_rev (lstrip_text s))).

Definition lower_ascii (a : ascii) : ascii :=
  let n := nat_of_ascii a in
  if ((65 <=? n) && (n <=? 90))%nat then ascii_of_nat (n + 32) else a.

(** The second byte of a capital letter of U+00C0..U+00DE (the sign
    U+00D7 is no letter), whose first byte is 195, made small. *)
Definition lower_latin1 (b : ascii) : ascii :=
  let n := nat_of_ascii b in
  if ((128 <=? n) && (n <=? 158) && negb (n =? 151))%nat then ascii_of_nat (n + 32) else b.

(** [str.lower()] on text whose letters are ASCII or Latin-1. *)
Fixpoint lower_text (s : string) : string :=
  match s with
  | String a s' =>
      if (nat_of_ascii a =? 195)%nat then
        match s' with
        | String b s'' => String a (String (lower_latin1 b) (lower_text s''))
        | EmptyString => String a EmptyString
        end
      else String (lower_ascii a) (lower_text s')
  | EmptyString => EmptyString
  end.

(** The strings [pandas.to_numeric] reads as an infinite float. *)
Definition infinity_literal (s : string) : bool :=
  bool_decide (lower_text (strip_text s)
               ∈ ["inf"; "+inf"; "-inf"; "infinity"; "+infinity"; "-infinity"]).

(** The readings used in the examples: decimal numbers, ISO dates, no
    regular expression beyond the literal ones, and the lower case and
    the white space of ASCII and Latin-1 text. *)
Definition literal_readings : Pandas :=
  {| str_to_number := decimal_number;
     str_to_date := iso_date;
     re_search := fun _ _ => Raise ValueError;
     str_is_inf := infinity_literal;
     lower := lower_text;
     strip := strip_text |}.

(** The end-to-end scenario: one bed "A", one species "Tomato", one
    planting (id 100, bed 1, species 1, 2025-01-01) and one harvest
    (planting 100, 2025-03-01, quantity 5); no observation, no event. *)
Definition cenario : Store :=
  {| canteiros := mkDataFrame ["canteiro_id"; "nome"; "area_m2"]
                    [[CInt 1; CStr "A"; CInt 10]];
     especies := mkDataFrame ["especie_id"; "nome_comum"] [[CInt 1; CStr "Tomato"]];
     plantios := mkDataFrame
                   ["plantio_id"; "canteiro_id"; "especie_id"; "data_plantio";
                    "responsavel"; "metodo"; "notas"]
                   [[CInt 100; CInt 1; CInt 1; CDate (ymd 2025 1 1); CNaN; CNaN; CNaN]];
     observ := mkDataFrame
                 ["observacao_id"; "plantio_id"; "data_observacao"; "altura_cm";
                  "pragas_observadas"; "comentarios"] [];
     colheitas := mkDataFrame ["plantio_id"; "data_colheita"; "quantidade_colhida"]
                    [[CInt 100; CDate (ymd 2025 3 1); CInt 5]];
     eventos := mkDataFrame ["evento_id"; "plantio_id"; "data_evento"; "tipo_evento"] [] |}.

(** The filters of [app_enhanced.py] left at "no filter" over the whole
    year 2025, and the same with the species "Basil". *)
Definition sem_filtro : Criteria :=
  mkCriteria (DateSeq [ymd 2025 1 1; ymd 2025 12 31]) "Todas" "Todos" "Todos".

Definition so_basil : Criteria :=
  mkCriteria (DateSeq [ymd 2025 1 1; ymd 2025 12 31]) "Basil" "Todos" "Todos".

(** ** Vocabulary of the statements *)

(** Two tables of the same shape: the same labels, as many rows. *)
Definition same_shape (a b : DataFrame) : Prop :=
  columns a = columns b /\ length (rows a) = length (rows b).

(** The mask entry of one [plantio_id] cell in the propagation: the cell
    read as a number, a missing reading replaced by -1, cast to a whole
    number, is a selected id. *)
Definition id_in_selection {P : Pandas} (plantio_ids : gset Z) (c : cell) : bool :=
  bool_decide (astype_int (fillna (-1) (to_numeric c)) ∈ plantio_ids).

(** A ratio is undefined when it is the float [nan]. *)
Definition undefined (v : pynum) : Prop := v = PyNaN.

(** Every harvest with a planting id refers to a planting of the table. *)
Definition harvests_refer_to_plantings (st : Store) : Prop :=
  forall k, k ∈ omap cell_key (series "plantio_id" (colheitas st)) ->
            k ∈ omap cell_key (series "plantio_id" (plantios st)).

(** A number that an int64 column and a float64 column both hold as it
    is: its absolute value is at most 2^53. *)
Definition exact_bound : Z := 2 ^ 53.

Definition exactly_held (q : Q) : Prop :=
  (- inject_Z exact_bound <= q)%Q /\ (q <= inject_Z exact_bound)%Q.

(** The text of a cell of a text column, a missing cell being the empty string. *)
Definition text (c : cell) : string :=
  match c with
  | CStr s => s
  | _ => EmptyString
  end.

(** A column of text: strings and missing values. *)
Definition text_column (label : string) (df : DataFrame) : bool :=
  forallb is_text (series label df).

(** A column of numbers (int64 or float64). *)
Definition numeric_column (label : string) (df : DataFrame) : bool :=
  forallb (fun c => match c with CInt _ | CFloat _ | CNaN => true | _ => false end)
          (series label df).

(** What the success rate of a page is, given its two counts. *)
Definition taxa_spec (st : Store) (h n : nat) (t : pynum) : Prop :=
  t = taxa_sucesso (Z.of_nat h) (Z.of_nat n)
  /\ (n = O -> t = PyInt 0 /\ ~ undefined t)
  /\ ((0 < n)%nat ->
      exists q, t = PyFloat q /\ (0 <= q)%Q /\ ((h <= n)%nat -> (q <= 1)%Q))
  /\ (harvests_refer_to_plantings st -> (h <= n)%nat).


(** ** Inputs of the examples *)

(** An event table that has no [plantio_id] column. *)
Definition eventos_sem_plantio_id : DataFrame :=
  mkDataFrame ["evento_id"; "tipo_evento"] [[CInt 1; CStr "rega"]].

(** The scenario with no planting and no harvest. *)
Definition cenario_vazio : Store :=
  mkStore (canteiros cenario) (especies cenario)
    (mkDataFrame (columns (plantios cenario)) [])
    (observ cenario)
    (mkDataFrame (columns (colheitas cenario)) [])
    (eventos cenario).

(** The scenario with a harvest of a planting (200) that is not in the
    planting table. *)
Definition cenario_orfa : Store :=
  mkStore (canteiros cenario) (especies cenario) (plantios cenario) (observ cenario)
    (mkDataFrame ["plantio_id"; "data_colheita"; "quantidade_colhida"]
       [[CInt 200; CDate (ymd 2025 3 1); CInt 5]])
    (eventos cenario).

Definition as_file (df : DataFrame) : csv_file := mkCsv (Ok df) (Ok df).

(** The data directory of the scenario, without [colheitas.csv]. *)
Definition dir_sem_colheitas : data_dir :=
  list_to_map
    [("canteiros.csv", as_file (canteiros cenario));
     ("especies.csv", as_file (especies cenario));
     ("plantios.csv", as_file (plantios cenario));
     ("observacoes.csv", as_file (observ cenario));
     ("eventos_manejo.csv", as_file (eventos cenario))].

(** The period of the scenario, start and end exchanged. *)
Definition periodo_invertido : Criteria :=
  mkCriteria (DateSeq [ymd 2025 12 31; ymd 2025 1 1]) "Todas" "Todos" "Todos".

(** The filters of [app2.py], with the species "Basil". *)
Definition so_basil_app2 : App2.Criteria :=
  App2.mkCriteria (DateSeq [ymd 2025 1 1; ymd 2025 12 31])
    "Basil" "Todos" "Todos" "Todos" false EmptyString.

(** Three plantings and one observation, for the text search. *)
Definition plantios_busca : DataFrame :=
  mkDataFrame ["plantio_id"; "data_plantio"; "notas"]
    [[CInt 100; CDate (ymd 2025 1 1); CStr "Adubo organico"];
     [CInt 101; CDate (ymd 2025 1 2); CNaN];
     [CInt 102; CDate (ymd 2025 1 3); CStr "semregistro"]].

Definition observ_busca : DataFrame :=
  mkDataFrame ["observacao_id"; "plantio_id"; "comentarios"]
    [[CInt 1; CInt 101; CStr "Folhas com PULGAO"]].


(** ** Further code of [app_enhanced.py]: the pages *)

(** A table is well formed when each row has one cell per column. *)
Definition well_formed (df : DataFrame) : bool :=
  forallb (fun r => Nat.eqb (length r) (length (columns df))) (rows df).

(** [child[child['plantio_id'].isin(plantios_f['plantio_id'])]]. *)
Definition isin_plantios (plantios_f child : DataFrame) : DataFrame :=
  loc child (map (isin (series "plantio_id" plantios_f)) (series "plantio_id" child)).

(** Page "Colheitas": the harvests listed. *)
Definition pagina_colheitas (plantios_f colheitas : DataFrame) : DataFrame :=
  let cf := copy colheitas in
  if negb (df_empty cf)
  then
    if has_column "plantio_id" cf && negb (df_empty plantios_f)
       && has_column "plantio_id" plantios_f
    then isin_plantios plantios_f cf
    else cf
  else cf.

(** Page "Manejo": the events listed. *)
Definition pagina_manejo (plantios_f eventos : DataFrame) : DataFrame :=
  let ev := if negb (df_empty eventos) then copy eventos else pd_DataFrame in
  if negb (df_empty ev)
  then
    if has_column "plantio_id" ev && negb (df_empty plantios_f)
       && has_column "plantio_id" plantios_f
    then isin_plantios plantios_f ev
    else ev
  else ev.

(** Page "Observações": the observations listed. *)
Definition pagina_observacoes (plantios_f observ : DataFrame) : DataFrame :=
  let obsf := copy observ in
  if negb (df_empty obsf)
  then
    if has_column "plantio_id" obsf && has_column "plantio_id" plantios_f
    then isin_plantios plantios_f obsf
    else obsf
  else obsf.

(** ** Page "Fotos": the name under which an upload is saved *)

(** A Python string as its code points.  The character classes of the
    code points from 128 on are tables of the Unicode database, taken as
    parameters. *)
Class Unicode : Type := {
  alnum_table : N -> bool;
  space_table : N -> bool
}.

(** [ch.isalnum()]. *)
Definition isalnum {U : Unicode} (ch : N) : bool :=
  if (ch <? 128)%N
  then ((48 <=? ch) && (ch <=? 57) || (65 <=? ch) && (ch <=? 90)
        || (97 <=? ch) && (ch <=? 122))%N
  else alnum_table ch.

(** [ch.isspace()]. *)
Definition isspace {U : Unicode} (ch : N) : bool :=
  if (ch <? 128)%N
  then ((9 <=? ch) && (ch <=? 13) || (28 <=? ch) && (ch <=? 32))%N
  else space_table ch.

(** [str.rstrip()]. *)
Fixpoint rstrip {U : Unicode} (s : list N) : list N :=
  match s with
  | [] => []
  | ch :: s' =>
      match rstrip s' with
      | [] => if isspace ch then [] else [ch]
      | t => ch :: t
      end
  end.

(** The characters kept: [ch.isalnum() or ch in (" ", ".", "_")]. *)
Definition kept {U : Unicode} (ch : N) : bool :=
  isalnum ch || bool_decide (ch ∈ [32; 46; 95]%N).

(** The kept characters of [file.name], joined, then [rstrip()]. *)
Definition safe_name {U : Unicode} (name : list N) : list N :=
  rstrip (filter (fun ch => kept ch) name).

(** ** Vocabulary of the further statements *)

Definition whole_or_missing (c : cell) : bool :=
  match c with
  | CInt _ | CNaN => true
  | _ => false
  end.

(** The column [label] holds whole numbers and missing values only. *)
Definition whole_column (label : string) (df : DataFrame) : Prop :=
  forall r, r ∈ rows df -> whole_or_missing (cell_of df label r) = true.

(** A store as [normalize_dataframes] leaves it. *)
Definition normalized (st : Store) : Prop :=
  whole_column "plantio_id" (plantios st)
  /\ whole_column "canteiro_id" (plantios st)
  /\ whole_column "especie_id" (plantios st)
  /\ whole_column "plantio_id" (colheitas st)
  /\ whole_column "quantidade_colhida" (colheitas st)
  /\ whole_column "plantio_id" (observ st)
  /\ whole_column "plantio_id" (eventos st)
  /\ whole_column "canteiro_id" (canteiros st)
  /\ whole_column "especie_id" (especies st).

(** The test a planting passes to be selected by [filter_plantios], for a
    period from [s] to [e]. *)
Definition passes (crit : Criteria) (s e : Z) {P : Pandas} (df : DataFrame)
    (r : list cell) : Prop :=
  in_period s e (cell_of df "data_plantio" r) = true
  /\ (especie_sel crit = "Todas" \/ has_column "especie_nome" df = false
      \/ cell_of df "especie_nome" r = CStr (especie_sel crit))
  /\ (canteiro_sel crit = "Todos" \/ has_column "canteiro_nome" df = false
      \/ cell_of df "canteiro_nome" r = CStr (canteiro_sel crit))
  /\ (responsavel_sel crit = "Todos" \/ has_column "responsavel" df = false
      \/ cell_of df "responsavel" r = CStr (responsavel_sel crit)).


(** The identifier columns [normalize_dataframes] casts to whole numbers. *)
Definition id_columns (st : Store) : list (DataFrame * string) :=
  [(plantios st, "plantio_id"); (plantios st, "canteiro_id"); (plantios st, "especie_id");
   (colheitas st, "plantio_id"); (observ st, "plantio_id"); (eventos st, "plantio_id");
   (canteiros st, "canteiro_id"); (especies st, "especie_id")].

(** A number that is not whole. *)
Definition fractional (q : Q) : Prop := Z.rem (Qnum q) (Zpos (Qden q)) <> 0.


(** The child tables of a store and their filtered views. *)
Definition child_views (st : Store) (v : Views) : list (DataFrame * DataFrame) :=
  [(colheitas st, colheitas_f v); (observ st, observ_f v); (eventos st, eventos_f v)].

(** The whole number the propagation reads in a [plantio_id] cell, a
    missing or non-numeric cell being read as -1. *)
Definition id_read {P : Pandas} (c : cell) : Z :=
  astype_int (fillna (-1) (to_numeric c)).


(** No two rows of [df] have matching keys under [label] (two missing
    keys match). *)
Definition unique_key (label : string) (df : DataFrame) : Prop :=
  forall c : cell,
    (length (filter (fun r => key_match c (cell_of df label r)) (rows df)) <= 1)%nat.

(** Each row of [a] is the beginning of a row of [b], and each row of [b]
    begins with a row of [a]. *)
Definition extends_rows (a b : DataFrame) : Prop :=
  (forall r, r ∈ rows a -> exists r', r' ∈ rows b /\ r `prefix_of` r')
  /\ (forall r', r' ∈ rows b -> exists r, r ∈ rows a /\ r `prefix_of` r')
  /\ (length (rows a) <= length (rows b))%nat.


(** The rows of [df] whose key under [grp] is not missing. *)
Definition keyed_rows (grp : string) (df : DataFrame) : list (list cell) :=
  filter (fun r => bool_decide (cell_key (cell_of df grp r) ≠ None)) (rows df).


(** The table a store holds for a source file. *)
Definition source_table (st : Store) (name : string) : DataFrame :=
  if String.eqb name "canteiros.csv" then canteiros st
  else if String.eqb name "especies.csv" then especies st
  else if String.eqb name "plantios.csv" then plantios st
  else if String.eqb name "observacoes.csv" then observ st
  else if String.eqb name "colheitas.csv" then colheitas st
  else eventos st.


(** The test a planting passes to be selected by the filters of
    [app2.py], for a period from [s] to [e]. *)
Definition passes_app2 {P : Pandas} (crit : App2.Criteria) (s e : Z) (st : Store)
    (r : list cell) : Prop :=
  (exists d, to_datetime (cell_of (plantios st) "data_plantio" r) = Some d /\ s <= d <= e)
  /\ (App2.especie_sel crit = "Todas"
      \/ cell_of (plantios st) "especie_nome" r = CStr (App2.especie_sel crit))
  /\ (App2.canteiro_sel crit = "Todos"
      \/ cell_of (plantios st) "canteiro_nome" r = CStr (App2.canteiro_sel crit))
  /\ (App2.responsavel_sel crit = "Todos"
      \/ cell_of (plantios st) "responsavel" r = CStr (App2.responsavel_sel crit))
  /\ (App2.metodo_sel crit = "Todos"
      \/ cell_of (plantios st) "metodo" r = CStr (App2.metodo_sel crit))
  /\ (App2.only_active crit = true ->
      isin (series "plantio_id" (colheitas st)) (cell_of (plantios st) "plantio_id" r)
      = false).


(** ** "Mapa esquemático" of [app2.py] *)

(** [series == v], for a scalar [v] read in a row: numbers are equal by
    value, texts as strings, and a missing value equals nothing. *)
Definition eq_scalar (v c : cell) : bool :=
  match cell_key v with
  | Some k => bool_decide (cell_key c = Some k)
  | None => false
  end.

(** [row[label]], for a row of [iterrows]. *)
Definition row_item (df : DataFrame) (label : string) (r : list cell) : result cell :=
  if has_column label df then Ok (cell_of df label r) else Raise (KeyError label).

(** [left.merge(right, on=on, how='right')]: every row of [right] is
    kept, in the order of [right]; a row of [right] with no match gets
    missing values in the columns of [left], its key apart. *)
Definition merge_right (on : string) (left right : DataFrame) : result DataFrame :=
  if negb (has_column on left && has_column on right) then Raise (KeyError on)
  else if negb (eqb (is_object (series on left)) (is_object (series on right)))
       && negb (df_empty left) && negb (df_empty right)
  then Raise ValueError
  else
    let rcols := filter (fun c => negb (String.eqb c on)) (columns right) in
    let lname c := if bool_decide (c ∈ rcols) then c +:+ "_x" else c in
    let rname c := if bool_decide (c ∈ columns left) then c +:+ "_y" else c in
    let key_only r' :=
      map (fun c => if String.eqb c on then cell_of right on r' else CNaN)
          (columns left) in
    let join r' :=
      match filter (fun r => key_match (cell_of left on r) (cell_of right on r'))
                   (rows left) with
      | [] => [key_only r' ++ drop_cell right on r']
      | ms => map (fun r => r ++ drop_cell right on r') ms
      end in
    Ok {| columns := map lname (columns left) ++ map rname rcols;
          rows := flat_map join (rows right) |}.

(** One entry of [status]. *)
Record StatusRow : Type := mkStatusRow {
  status_canteiro : cell;
  status_area : cell;
  status_taxa : pynum;
  status_total : nat;
  status_colh : nat
}.

(** The loop over the beds that fills [status], on the tables as loaded
    and joined. *)
Definition status_df (st : Store) : result (list StatusRow) :=
  mapM_result
    (fun c =>
       cid ← row_item (canteiros st) "canteiro_id" c;
       ids ← column "canteiro_id" (plantios st);
       let total := length (rows (loc (plantios st) (map (eq_scalar cid) ids))) in
       right ← select ["plantio_id"; "canteiro_id"] (plantios st);
       colh ← merge_right "plantio_id" (colheitas st) right;
       beds ← column "canteiro_id" colh;
       pids ← column "plantio_id" (loc colh (map (eq_scalar cid) beds));
       let colh_cnt := nunique pids in
       let taxa := App2.taxa_canteiro (Z.of_nat colh_cnt) (Z.of_nat total) in
       nome ← row_item (canteiros st) "nome" c;
       let area := if has_column "area_m2" (canteiros st)
                   then cell_of (canteiros st) "area_m2" c else CStr EmptyString in
       Ok (mkStatusRow nome area taxa total colh_cnt))
    (rows (canteiros st)).

(** The plantings of the bed [cid]. *)
Definition bed_plantings (st : Store) (cid : cell) : list (list cell) :=
  filter (fun r => eq_scalar cid (cell_of (plantios st) "canteiro_id" r))
         (rows (plantios st)).

(** No planting id is missing and no two plantings have the same id. *)
Definition distinct_ids (df : DataFrame) : Prop :=
  NoDup (map cell_key (series "plantio_id" df))
  /\ forall r, r ∈ rows df -> cell_key (cell_of df "plantio_id" r) <> None.


(** ** The variable [merged] of the dashboard and the chart "Top espécies" *)

(** The value of [merged] when the dashboard reaches "Visões
    adicionais": the left merge of "Produção — visões rápidas" with its
    quantity made numeric, unless the bed map has bound the name again to
    its own inner merge. *)
Definition merged_at_charts {P : Pandas} (beds : DataFrame) (v : Views) : result DataFrame :=
  let pf := plantios_f v in
  let cf := colheitas_f v in
  merged ←
    (if negb (df_empty cf) && negb (df_empty pf)
        && has_column "plantio_id" cf && has_column "plantio_id" pf
     then
       right ← select ["plantio_id"; "especie_nome"; "canteiro_nome"] pf;
       df_merge Left "plantio_id" cf right
     else Ok pd_DataFrame);
  merged ←
    map_column "quantidade_colhida"
      (fun c => Ok (CFloat (fillna 0 (to_numeric c)))) merged;
  _ ← bed_cards beds v;
  if negb (df_empty beds)
     && (negb (df_empty cf) && has_column "plantio_id" cf
         && negb (df_empty pf) && has_column "plantio_id" pf)
  then
    right ← select ["plantio_id"; "canteiro_id"] pf;
    df_merge Inner "plantio_id" cf right
  else Ok merged.

(** "Top espécies por produção": the data of the chart, [None] when no
    chart is drawn; an exception is passed over. *)
Definition top_sp (merged : DataFrame) : option (list (option key * Q)) :=
  if negb (df_empty merged) && has_column "quantidade_colhida" merged
  then
    match grouped_sum true "especie_nome" "quantidade_colhida" merged with
    | Ok g =>
        let top := take 10 g in
        if negb (bool_decide (top = [])) && negb (Qle_bool (sumQ (map snd top)) 0)
        then Some top else None
    | Raise _ => None
    end
  else None.


(** ** The chart "Produtividade por área" *)

(** The cell of a group key, as [reset_index] writes it. *)
Definition key_cell (k : option key) : cell :=
  match k with
  | Some (KNum n d) => CFloat (n # d)
  | Some (KStr s) => CStr s
  | Some (KDate d) => CDate d
  | None => CNaN
  end.

(** [r['quantidade_colhida'] / r['area_m2'] if r['area_m2'] > 0 else np.nan]. *)
Definition kg_m2 (df : DataFrame) (r : list cell) : option Q :=
  match as_number (cell_of df "area_m2" r) with
  | Some a =>
      if negb (Qle_bool a 0)
      then Some (fillna 0 (as_number (cell_of df "quantidade_colhida" r)) / a)%Q
      else None
  | None => None
  end.

(** The order of [sort_values('kg_m2', ascending=False)]. *)
Definition kg_ge (a b : list cell * Q) : Prop := (a.2 >= b.2)%Q.

#[global] Instance kg_ge_dec a b : Decision (kg_ge a b).
Proof.
  unfold kg_ge. destruct (Qlt_le_dec a.2 b.2) as [Hlt | Hle].
  - right. intros Hge. exact (Qlt_not_le _ _ Hlt Hge).
  - left. exact Hle.
Defined.

(** "Produtividade por área": the rows of the chart with their
    [kg_m2], [None] when no chart is drawn; an exception is passed
    over. *)
Definition prod_area {P : Pandas} (beds merged : DataFrame)
    : option (list (list cell * Q)) :=
  if negb (df_empty merged) && negb (df_empty beds) && has_column "area_m2" beds
  then
    let chart :=
      prod ← groupby_sum true "canteiro_nome" "quantidade_colhida" merged;
      let prod :=
        {| columns := ["canteiro_nome"; "quantidade_colhida"];
           rows := map (fun kq => [key_cell kq.1; CFloat kq.2]) prod |} in
      can ← select ["nome"; "area_m2"] beds;
      can ← map_column "area_m2" (fun c => Ok (CFloat (fillna 0 (to_numeric c))))
              (copy (rename "nome" "canteiro_nome" can));
      pa ← df_merge Left "canteiro_nome" prod can;
      Ok (merge_sort kg_ge
            (omap (fun r => x ← kg_m2 pa r; Some (r, x)) (rows pa))) in
    match chart with
    | Ok (r :: rs) => Some (r :: rs)
    | _ => None
    end
  else None.


(** ** Further example inputs *)

(** Two beds, two species, three plantings (two in bed A, one in bed
    B), and two harvests, both of planting 100. *)
Definition horta : Store :=
  {| canteiros := mkDataFrame ["canteiro_id"; "nome"; "area_m2"]
                    [[CInt 1; CStr "A"; CInt 10]; [CInt 2; CStr "B"; CInt 4]];
     especies := mkDataFrame ["especie_id"; "nome_comum"]
                   [[CInt 1; CStr "Tomato"]; [CInt 2; CStr "Basil"]];
     plantios := mkDataFrame
                   ["plantio_id"; "canteiro_id"; "especie_id"; "data_plantio";
                    "responsavel"; "metodo"; "notas"]
                   [[CInt 100; CInt 1; CInt 1; CDate (ymd 2025 1 1); CStr "Ana";
                     CStr "muda"; CNaN];
                    [CInt 101; CInt 1; CInt 2; CDate (ymd 2025 2 1); CStr "Bia";
                     CStr "semente"; CNaN];
                    [CInt 102; CInt 2; CInt 1; CDate (ymd 2025 3 1); CStr "Ana";
                     CStr "muda"; CNaN]];
     observ := mkDataFrame
                 ["observacao_id"; "plantio_id"; "data_observacao"; "altura_cm";
                  "pragas_observadas"; "comentarios"]
                 [[CInt 1; CInt 101; CDate (ymd 2025 2 10); CInt 7; CInt 0; CNaN]];
     colheitas := mkDataFrame ["plantio_id"; "data_colheita"; "quantidade_colhida"]
                    [[CInt 100; CDate (ymd 2025 3 1); CInt 5];
                     [CInt 100; CDate (ymd 2025 4 1); CInt 3]];
     eventos := mkDataFrame ["evento_id"; "plantio_id"; "data_evento"; "tipo_evento"]
                  [[CInt 1; CInt 102; CDate (ymd 2025 3 2); CStr "rega"]] |}.

(** The scenario with a planting id that is not whole. *)
Definition cenario_fracionario : Store :=
  mkStore (canteiros cenario) (especies cenario)
    (mkDataFrame (columns (plantios cenario))
       [[CFloat (5 # 2); CInt 1; CInt 1; CDate (ymd 2025 1 1); CNaN; CNaN; CNaN]])
    (observ cenario) (colheitas cenario) (eventos cenario).

(** The planting table of the scenario, with no row. *)
Definition plantios_sem_linhas : DataFrame :=
  mkDataFrame (columns (plantios cenario)) [].

(** Harvests joined with the name of their species; one has none. *)
Definition producao : DataFrame :=
  mkDataFrame ["nome_comum"; "quantidade_colhida"]
    [[CStr "Tomato"; CInt 5]; [CNaN; CInt 3]; [CStr "Tomato"; CInt 2];
     [CStr "Basil"; CInt 1]].

(** The filters of [app2.py]: the plantings of the year 2025 by "Ana"
    that have no harvest. *)
Definition ativos_da_ana : App2.Criteria :=
  App2.mkCriteria (DateSeq [ymd 2025 1 1; ymd 2025 12 31])
    "Todas" "Todos" "Ana" "Todos" true EmptyString.

(** A data directory with the six files of [horta], where
    [observacoes.csv] is read only without its dates and [eventos_manejo.csv]
    is not read at all, and without [colheitas.csv]. *)
Definition dir_com_falhas : data_dir :=
  list_to_map
    [("canteiros.csv", as_file (canteiros horta));
     ("especies.csv", as_file (especies horta));
     ("plantios.csv", as_file (plantios horta));
     ("observacoes.csv", mkCsv (Raise ValueError) (Ok (observ horta)));
     ("eventos_manejo.csv", mkCsv (Raise ValueError) (Raise ValueError))].

(** The character classes of the ASCII range alone. *)
Definition so_ascii : Unicode :=
  {| alnum_table := fun _ => false; space_table := fun _ => false |}.


(** The code points of an ASCII string. *)
Definition codes (s : string) : list N := map N_of_ascii (list_ascii_of_string s).

(** ** The dashboard in terms of the selection *)

(** The rows of a child table that refer to the selection: those whose
    [plantio_id], read as a whole number, is a selected id. *)
Definition selected_rows {P : Pandas} (ids : gset Z) (child : DataFrame)
    : list (list cell) :=
  filter (fun r => id_in_selection ids (cell_of child "plantio_id" r)) (rows child).

(** The plantings of [pf] in the bed [cid]. *)
Definition plantings_in_bed (pf : DataFrame) (cid : cell) : list (list cell) :=
  filter (fun p => eq_scalar cid (cell_of pf "canteiro_id" p)) (rows pf).

(** The number of plantings of [pf] in the bed [cid], counted by their
    distinct ids. *)
Definition bed_total (pf : DataFrame) (cid : cell) : nat :=
  nunique (map (cell_of pf "plantio_id") (plantings_in_bed pf cid)).


(** A column of parsed dates (datetime64), as [read_csv] gives it with
    [parse_dates]: each cell is a date or is missing. *)
Definition date_column (label : string) (df : DataFrame) : bool :=
  forallb (fun c => match c with CDate _ | CNaN => true | _ => false end)
          (series label df).

(** The filters on the plantings of [horta]: planted from 15 January
    2025, by "Ana". *)
Definition desde_15_jan_ana : Criteria :=
  mkCriteria (DateSeq [ymd 2025 1 15; ymd 2025 12 31]) "Todas" "Todos" "Ana".

(** The sums over the values [vs] are exact: every value is a whole
    number and the absolute values add up to at most 2^53, so that no
    sum of some of them, in any order, is rounded in float64 or wraps in
    int64. *)
Definition exact_sums (vs : list num) : bool :=
  forallb (fun x => match x with
                    | Some q => Z.rem (Qnum q) (Zpos (Qden q)) =? 0
                    | None => true
                    end) vs
  && Qle_bool (series_sum (map (fun x => (fun q => Z.abs (Qnum q) # Qden q) <$> x) vs))
              (inject_Z exact_bound).

(** The filters on the plantings of [horta]: the year 2025, by "Ana". *)
Definition so_ana : Criteria :=
  mkCriteria (DateSeq [ymd 2025 1 1; ymd 2025 12 31]) "Todas" "Todos" "Ana".

(** The observation of [observ_busca] with its comment in Portuguese
    capitals, "Folhas com PULGÃO" (the bytes 195, 131 are the letter
    U+00C3), and the term "pulgão" (195, 163 are U+00E3). *)
Definition observ_pulgao : DataFrame :=
  mkDataFrame ["observacao_id"; "plantio_id"; "comentarios"]
    [[CInt 1; CInt 101;
      CStr ("Folhas com PULG" +:+ String "195" (String "131" "O"))]].

Definition pulgao : string := "pulg" +:+ String "195" (String "163" "o").

(** A planting table read from a file where no planting has a note (the
    column is float64), and its view with no row. *)
Definition plantios_sem_notas : DataFrame :=
  mkDataFrame ["plantio_id"; "data_plantio"; "notas"]
    [[CInt 100; CDate (ymd 2025 1 1); CNaN]].

Definition plantios_sem_notas_vazio : DataFrame :=
  mkDataFrame (columns plantios_sem_notas) [].

(** * Properties *)

(** ** Tables *)

Lemma loc_rows_map (f : list cell -> bool) (rs : list (list cell)) :
  loc_rows (map f rs) rs = filter (fun r => f r) rs.
Proof.
  induction rs as [| r rs IH]; simpl; [reflexivity |].
  destruct (f r) eqn:E.
  - rewrite filter_cons_True by (rewrite E; exact I). by rewrite IH.
  - rewrite filter_cons_False by (rewrite E; intros []). exact IH.
Qed.

Lemma filter_none {A : Type} (P : A -> Prop) `{forall x, Decision (P x)} (l : list A) :
  (forall x, x ∈ l -> ~ P x) -> filter P l = [].
Proof.
  induction l as [| a l IH]; intros Hl; [reflexivity |].
  rewrite filter_cons_False by (apply Hl; left).
  apply IH. intros x Hx. apply Hl. by right.
Qed.

Lemma loc_rows_repeat_false (rs : list (list cell)) :
  loc_rows (repeat false (length rs)) rs = [].
Proof. induction rs as [| r rs IH]; simpl; auto. Qed.

Lemma loc_series (df : DataFrame) (label : string) (f : cell -> bool) :
  rows (loc df (map f (series label df)))
  = filter (fun r => f (cell_of df label r)) (rows df).
Proof.
  unfold loc, series; simpl. rewrite map_map.
  apply (loc_rows_map (fun r => f (cell_of df label r))).
Qed.

Lemma df_empty_no_rows (df : DataFrame) : rows df = [] -> df_empty df = true.
Proof. unfold df_empty. intros ->. destruct (columns df); reflexivity. Qed.

Lemma df_empty_false_rows (df : DataFrame) : df_empty df = false -> rows df <> [].
Proof. intros H Hr. rewrite (df_empty_no_rows _ Hr) in H. discriminate. Qed.

(** ** Coercion of the harvested quantity *)

Lemma astype_int_inject_Z (z : Z) : astype_int (inject_Z z) = z.
Proof. unfold astype_int; simpl. apply Z.quot_1_r. Qed.

Lemma round_half_even_nearest (q : Q) :
  exists z : Z, round_half_even q = inject_Z z
    /\ (q - (1 # 2) <= inject_Z z)%Q /\ (inject_Z z <= q + (1 # 2))%Q.
Proof.
  unfold round_half_even.
  pose proof (Qfloor_le q) as Hlo. pose proof (Qlt_floor q) as Hhi.
  rewrite inject_Z_plus in Hhi.
  set (f := Qfloor q) in *.
  assert (Hone : (inject_Z 1 == 1)%Q) by reflexivity.
  destruct (Qcompare_spec (q - inject_Z f) (1 # 2)) as [He | Hl | Hg].
  - destruct (Z.even f).
    + exists f. split; [reflexivity |]. split; lra.
    + exists (f + 1). split; [reflexivity |]. rewrite inject_Z_plus. split; lra.
  - exists f. split; [reflexivity |]. split; lra.
  - exists (f + 1). split; [reflexivity |]. rewrite inject_Z_plus. split; lra.
Qed.

Lemma round_half_even_inject_Z (z : Z) : round_half_even (inject_Z z) = inject_Z z.
Proof.
  unfold round_half_even. rewrite Qfloor_Z.
  assert (H : (inject_Z z - inject_Z z ?= 1 # 2)%Q = Lt).
  { apply (proj1 (Qlt_alt _ _)). lra. }
  rewrite H. reflexivity.
Qed.

Lemma inject_Z_nonneg (z : Z) : (- (1 # 2) <= inject_Z z)%Q -> 0 <= z.
Proof. unfold Qle; simpl. lia. Qed.

Lemma round_half_even_tie (q : Q) :
  exists z : Z, round_half_even q = inject_Z z
    /\ (q - (1 # 2) <= inject_Z z)%Q /\ (inject_Z z <= q + (1 # 2))%Q
    /\ ((inject_Z z - q == 1 # 2)%Q \/ (q - inject_Z z == 1 # 2)%Q -> Z.even z = true).
Proof.
  unfold round_half_even.
  pose proof (Qfloor_le q) as Hlo. pose proof (Qlt_floor q) as Hhi.
  rewrite inject_Z_plus in Hhi.
  set (f := Qfloor q) in *.
  assert (Hone : (inject_Z 1 == 1)%Q) by reflexivity.
  destruct (Qcompare_spec (q - inject_Z f) (1 # 2)) as [He | Hl | Hg].
  - destruct (Z.even f) eqn:Hev.
    + exists f. split; [reflexivity |]. split; [lra |]. split; [lra |]. intros _. exact Hev.
    + exists (f + 1). split; [reflexivity |]. rewrite inject_Z_plus.
      split; [lra |]. split; [lra |]. intros _.
      rewrite Z.add_1_r, Z.even_succ, <- Z.negb_even. by rewrite Hev.
  - exists f. split; [reflexivity |]. split; [lra |]. split; [lra |].
    intros [H | H]; lra.
  - exists (f + 1). split; [reflexivity |]. rewrite inject_Z_plus.
    split; [lra |]. split; [lra |]. intros [H | H]; lra.
Qed.

Lemma astype_int64_inject_Z (z : Z) :
  in_int64 z = true -> astype_int64 (inject_Z z) = z.
Proof. intros H. unfold astype_int64. by rewrite astype_int_inject_Z, H. Qed.

Lemma astype_int64_range (q : Q) : in_int64 (astype_int64 q) = true.
Proof.
  unfold astype_int64. destruct (in_int64 (astype_int q)) eqn:H; [exact H | reflexivity].
Qed.

Section Properties.

Context {P : Pandas}.

Lemma coerce_quantidade_int (z : Z) :
  in_int64 z = true -> coerce_quantidade (CInt z) = Ok z.
Proof.
  intros Hz. unfold coerce_quantidade; simpl.
  rewrite round_half_even_inject_Z. by rewrite (astype_int64_inject_Z _ Hz).
Qed.

(** C3, as the code has it.  The coercion of the harvested quantity
    refuses an infinite value.  Otherwise it gives a whole number of the
    int64 range: a missing or non-numeric input gives 0; a number of
    absolute value at most 2^53 is rounded to the nearest whole number, a
    tie going to the even one, so a non-negative number gives a
    non-negative quantity and a whole number, negative or not, is kept as
    it is; and coercing a coerced quantity again returns it
    (idempotence).  Nothing clips a negative quantity to 0. *)
Theorem quantidade_coercion (c : cell) :
  (reads_inf c = true -> coerce_quantidade c = Raise ValueError)
  /\ (reads_inf c = false -> to_numeric c = None -> coerce_quantidade c = Ok 0)
  /\ (forall q, reads_inf c = false -> to_numeric c = Some q -> exactly_held q ->
        exists z,
          coerce_quantidade c = Ok z
          /\ (q - (1 # 2) <= inject_Z z)%Q /\ (inject_Z z <= q + (1 # 2))%Q
          /\ ((inject_Z z - q == 1 # 2)%Q \/ (q - inject_Z z == 1 # 2)%Q ->
              Z.even z = true)
          /\ ((0 <= q)%Q -> 0 <= z)
          /\ (forall n, (q == inject_Z n)%Q -> z = n))
  /\ (forall z, coerce_quantidade c = Ok z ->
        in_int64 z = true /\ coerce_quantidade (CInt z) = Ok z).
Proof.
  split; [| split; [| split]].
  - intros H. unfold coerce_quantidade. by rewrite H.
  - intros Hinf H. unfold coerce_quantidade. rewrite Hinf, H. reflexivity.
  - intros q Hinf H [Hlo Hhi]. unfold coerce_quantidade. rewrite Hinf, H. simpl.
    destruct (round_half_even_tie q) as (z & Hz & Hzlo & Hzhi & Htie).
    rewrite Hz.
    assert (Hrange : in_int64 z = true).
    { unfold in_int64, int64_min, int64_max.
      change (2 ^ 63) with 9223372036854775808.
      unfold exact_bound in Hlo, Hhi.
      change (2 ^ 53) with 9007199254740992 in Hlo, Hhi.
      assert (H1 : (inject_Z z <= inject_Z 9007199254740992 + (1 # 2))%Q) by lra.
      assert (H2 : (- inject_Z 9007199254740992 - (1 # 2) <= inject_Z z)%Q) by lra.
      unfold Qle in H1, H2. simpl in H1, H2.
      apply andb_true_iff. split; apply Z.leb_le; lia. }
    rewrite (astype_int64_inject_Z _ Hrange).
    exists z. split; [reflexivity |]. split; [exact Hzlo |]. split; [exact Hzhi |].
    split; [exact Htie |]. split.
    + intros Hq. apply inject_Z_nonneg. lra.
    + intros n Hn.
      assert (H1 : (inject_Z n - (1 # 2) <= inject_Z z)%Q) by lra.
      assert (H2 : (inject_Z z <= inject_Z n + (1 # 2))%Q) by lra.
      unfold Qle in H1, H2. simpl in H1, H2. lia.
  - intros z H. unfold coerce_quantidade in H.
    destruct (reads_inf c); [discriminate |]. injection H as <-.
    pose proof (astype_int64_range (round_half_even (fillna 0 (to_numeric c)))) as Hr.
    split; [exact Hr | by apply coerce_quantidade_int].
Qed.

(** ** Exceptions *)

Lemma bind_Ok {A B : Type} (r : result A) (k : A -> result B) (b : B) :
  r ≫= k = Ok b -> exists a, r = Ok a /\ k a = Ok b.
Proof. destruct r as [a | e]; simpl; [eauto | discriminate]. Qed.

Lemma bind_raises {A B : Type} (r : result A) (k : A -> result B) :
  (forall a, exists e, k a = Raise e) -> exists e, r ≫= k = Raise e.
Proof. intros H. destruct r as [a | e]; simpl; eauto. Qed.

(** ** Propagation of the selection *)

Lemma propagate_rows (ids : gset Z) (df : DataFrame) :
  has_column "plantio_id" df = true ->
  rows (filter_by_plantios_table ids (Some df))
  = filter (fun r => id_in_selection ids (cell_of df "plantio_id" r)) (rows df).
Proof.
  intros Hcol. unfold filter_by_plantios_table.
  destruct (df_empty df) eqn:He.
  - simpl. unfold df_empty in He.
    destruct (columns df) eqn:Hc.
    + unfold has_column in Hcol. rewrite Hc in Hcol.
      apply bool_decide_eq_true in Hcol. inversion Hcol.
    + destruct (rows df); [reflexivity | discriminate].
  - rewrite Hcol. unfold copy. case_bool_decide as Hids.
    + unfold loc, series; simpl. rewrite !map_map.
      apply (loc_rows_map (fun r => id_in_selection ids (cell_of df "plantio_id" r))).
    + simpl. rewrite loc_rows_repeat_false.
      assert (ids = ∅) as -> by (destruct (decide (ids = ∅)); [done | contradiction]).
      symmetry. apply filter_none.
      intros r _ Hr. unfold id_in_selection in Hr.
      apply bool_decide_unpack in Hr. set_solver.
Qed.

Lemma propagate_empty_selection (df : DataFrame) :
  df_empty df = true \/ has_column "plantio_id" df = true ->
  rows (filter_by_plantios_table ∅ (Some df)) = [].
Proof.
  intros [He | Hcol].
  - unfold filter_by_plantios_table. by rewrite He.
  - rewrite (propagate_rows _ _ Hcol). apply filter_none.
    intros r _ Hr. unfold id_in_selection in Hr.
    apply bool_decide_unpack in Hr. set_solver.
Qed.

(** C10.  A child table that has rows and no [plantio_id] column goes
    through the propagation unchanged, whatever the selection, the empty
    selection included: the whole table is returned. *)
Theorem propagate_without_column (ids : gset Z) (df : DataFrame) :
  df_empty df = false ->
  has_column "plantio_id" df = false ->
  filter_by_plantios_table ids (Some df) = df
  /\ filter_by_plantios_table ∅ (Some df) = df
  /\ df_empty (filter_by_plantios_table ∅ (Some df)) = false.
Proof.
  intros He Hcol. unfold filter_by_plantios_table.
  rewrite He, Hcol. unfold copy. auto.
Qed.

(** C1, as the code has it.  For a child table that carries a
    [plantio_id] column, or that is empty: the propagation of an empty
    selection returns an empty table; the rows returned are those whose
    [plantio_id], read as a whole number with a missing or non-numeric
    value read as -1, is in the selection; so a row whose [plantio_id]
    has no numeric reading is excluded as soon as -1 is no selected id.
    The same holds of the related tables of [app2.py] when no planting
    is selected. *)
Theorem propagate_selection (ids : gset Z) (df : DataFrame) :
  df_empty df = true \/ has_column "plantio_id" df = true ->
  (ids = ∅ ->
     rows (filter_by_plantios_table ids (Some df)) = []
     /\ df_empty (filter_by_plantios_table ids (Some df)) = true)
  /\ (has_column "plantio_id" df = true ->
      forall r, r ∈ rows (filter_by_plantios_table ids (Some df)) <->
                r ∈ rows df
                /\ astype_int (fillna (-1) (to_numeric (cell_of df "plantio_id" r))) ∈ ids)
  /\ (forall r, to_numeric (cell_of df "plantio_id" r) = None -> -1 ∉ ids ->
                r ∉ rows (filter_by_plantios_table ids (Some df)))
  /\ filter_by_plantios_table ids None = pd_DataFrame
  /\ (forall p child,
        rows p = [] -> has_column "plantio_id" p = true ->
        has_column "plantio_id" child = true ->
        exists t, App2.relacionadas p child = Ok t /\ rows t = []).
Proof.
  intros Hdf.
  assert (Hmem : has_column "plantio_id" df = true ->
            forall r, r ∈ rows (filter_by_plantios_table ids (Some df)) <->
              r ∈ rows df
              /\ astype_int (fillna (-1) (to_numeric (cell_of df "plantio_id" r))) ∈ ids).
  { intros Hcol r. rewrite (propagate_rows _ _ Hcol), list_elem_of_filter.
    unfold id_in_selection. rewrite bool_decide_spec. tauto. }
  assert (Hnil : df_empty df = true -> filter_by_plantios_table ids (Some df) = pd_DataFrame).
  { intros He. unfold filter_by_plantios_table. by rewrite He. }
  assert (Hempty : ids = ∅ -> rows (filter_by_plantios_table ids (Some df)) = []).
  { intros ->. by apply propagate_empty_selection. }
  split; [| split; [| split; [| split]]].
  - intros Hids. split; [by apply Hempty | by apply df_empty_no_rows, Hempty].
  - exact Hmem.
  - intros r Hnum Hm Hin.
    destruct Hdf as [He | Hcol].
    + rewrite (Hnil He) in Hin. inversion Hin.
    + apply (Hmem Hcol) in Hin. rewrite Hnum in Hin. simpl in Hin.
      apply Hm. tauto.
  - reflexivity.
  - intros p child Hp Hcp Hcc. unfold App2.relacionadas, column.
    rewrite Hcc, Hcp. simpl. eexists. split; [reflexivity |].
    simpl. unfold series. rewrite Hp. simpl.
    rewrite map_map.
    rewrite (loc_rows_map (fun _ => false)).
    apply filter_none. intros r _ [].
Qed.

(** ** Status of a bed *)

Lemma pynum_ge_float (r q : Q) : pynum_ge (PyFloat r) q = true <-> (q <= r)%Q.
Proof. apply Qle_bool_iff. Qed.

Lemma pynum_ge_float_false (r q : Q) : pynum_ge (PyFloat r) q = false <-> (r < q)%Q.
Proof.
  rewrite <- not_true_iff_false, pynum_ge_float. split.
  - apply Qnot_le_lt.
  - apply Qlt_not_le.
Qed.

Lemma bed_cards_card (beds : DataFrame) (v : Views) (cards : list Card) (c : Card) :
  bed_cards beds v = Ok cards -> c ∈ cards ->
  card_rate c = rate (card_harvested c) (card_total c)
  /\ card_color c = color (card_rate c).
Proof.
  unfold bed_cards. destruct (df_empty beds).
  - intros [= <-] Hc. inversion Hc.
  - intros H.
    apply bind_Ok in H as (totals & _ & H).
    apply bind_Ok in H as (harvested & _ & H).
    injection H as <-. intros Hc.
    apply list_elem_of_fmap in Hc as (b & -> & _). simpl. auto.
Qed.

(** ** The dashboard on an empty selection *)

Lemma mapM_result_length {A B : Type} (f : A -> result B) (l : list A) (l' : list B) :
  mapM_result f l = Ok l' -> length l' = length l.
Proof.
  revert l'. induction l as [| a l IH]; simpl; intros l' H.
  - by injection H as <-.
  - apply bind_Ok in H as (b & _ & H).
    apply bind_Ok in H as (bs & Hbs & H).
    injection H as <-. simpl. f_equal. by apply IH.
Qed.

Lemma df_empty_shape (a b : DataFrame) :
  columns a = columns b -> length (rows a) = length (rows b) ->
  df_empty a = df_empty b.
Proof.
  unfold df_empty. intros -> Hlen.
  destruct (columns b); [reflexivity |].
  destruct (rows a), (rows b); simpl in Hlen; congruence.
Qed.

Lemma map_column_shape (label : string) (f : cell -> result cell) (df df' : DataFrame) :
  map_column label f df = Ok df' ->
  columns df' = columns df /\ length (rows df') = length (rows df).
Proof.
  unfold map_column.
  destruct (negb (df_empty df) && has_column label df); [| by intros [= <-]].
  destruct (index_of label (columns df)); [| by intros [= <-]].
  intros H. apply bind_Ok in H as (rs & Hrs & H). injection H as <-. simpl.
  split; [reflexivity |]. by apply mapM_result_length in Hrs.
Qed.

Lemma same_shape_trans (a b c : DataFrame) :
  same_shape a b -> same_shape b c -> same_shape a c.
Proof. unfold same_shape. intros [-> ->] [-> ->]. auto. Qed.



Lemma plantio_ids_of_no_rows (pf : DataFrame) : rows pf = [] -> plantio_ids_of pf = ∅.
Proof. intros H. unfold plantio_ids_of. by rewrite (df_empty_no_rows _ H). Qed.

Lemma dict_get_nil (k : option key) : dict_get [] k = O.
Proof. by destruct k. Qed.



Lemma plantios_colhidos_empty_selection (c : DataFrame) :
  let cf := filter_by_plantios_table ∅ (Some c) in
  negb (df_empty cf) && has_column "plantio_id" cf = false.
Proof.
  cbv zeta. destruct (has_column "plantio_id" c) eqn:Hcol.
  - rewrite (df_empty_no_rows _ (propagate_empty_selection c (or_intror Hcol))).
    reflexivity.
  - destruct (df_empty c) eqn:He.
    + rewrite (df_empty_no_rows _ (propagate_empty_selection c (or_introl He))).
      reflexivity.
    + unfold filter_by_plantios_table. rewrite He, Hcol. unfold copy.
      rewrite Hcol. apply andb_false_r.
Qed.

Lemma views_Ok (crit : Criteria) (st : Store) (v : Views) :
  views crit st = Ok v ->
  plantio_ids v = plantio_ids_of (plantios_f v)
  /\ colheitas_f v = filter_by_plantios_table (plantio_ids v) (Some (colheitas st))
  /\ observ_f v = filter_by_plantios_table (plantio_ids v) (Some (observ st))
  /\ eventos_f v = filter_by_plantios_table (plantio_ids v) (Some (eventos st))
  /\ filter_plantios crit (plantios st) = Ok (plantios_f v).
Proof.
  unfold views. intros H. apply bind_Ok in H as (pf & Hpf & H).
  injection H as <-. auto.
Qed.

(** ** Success rate *)

Lemma length_omap_le {A B : Type} (f : A -> option B) (l : list A) :
  (length (omap f l) <= length l)%nat.
Proof.
  induction l as [| a l IH]; [reflexivity |].
  change (omap f (a :: l))
    with (match f a with Some b => b :: omap f l | None => omap f l end).
  destruct (f a); simpl; lia.
Qed.

Lemma nunique_le_length (s : list cell) : (nunique s <= length s)%nat.
Proof.
  unfold nunique.
  etransitivity; [| apply (length_omap_le cell_key)].
  apply submseteq_length, NoDup_submseteq; [apply NoDup_remove_dups |].
  intros k. by rewrite elem_of_remove_dups.
Qed.

Lemma nunique_le_referred (hs ps : list cell) :
  (forall k, k ∈ omap cell_key hs -> k ∈ omap cell_key ps) ->
  (nunique hs <= length ps)%nat.
Proof.
  intros Hsub. unfold nunique.
  etransitivity; [| apply (length_omap_le cell_key)].
  apply submseteq_length, NoDup_submseteq; [apply NoDup_remove_dups |].
  intros k Hk. apply Hsub. by apply elem_of_remove_dups.
Qed.

Lemma series_length (label : string) (df : DataFrame) :
  length (series label df) = length (rows df).
Proof. unfold series. apply length_map. Qed.

Lemma taxa_sucesso_range (h n : Z) :
  0 <= h -> 0 < n ->
  exists q, taxa_sucesso h n = PyFloat q
            /\ (0 <= q)%Q /\ (h <= n -> (q <= 1)%Q).
Proof.
  intros Hh Hn. unfold taxa_sucesso.
  rewrite (proj2 (Z.ltb_lt 0 n) Hn).
  exists (truediv h n). split; [reflexivity |].
  assert (Hn' : (0 < inject_Z n)%Q) by (rewrite (Zlt_Qlt 0 n) in Hn; exact Hn).
  unfold truediv. split.
  - apply Qle_shift_div_l; [exact Hn' |].
    rewrite Qmult_0_l. rewrite (Zle_Qle 0 h) in Hh. exact Hh.
  - intros Hle. apply Qle_shift_div_r; [exact Hn' |].
    rewrite Qmult_1_l. rewrite (Zle_Qle h n) in Hle. exact Hle.
Qed.

(** C4, as the code has it.  The success rate of [app.py] and [app2.py]
    is the number of planting ids with a harvest divided by the number of
    plantings; with at least one planting it is a ratio that is at least 0,
    and at most 1 when no more plantings are harvested than there are
    plantings, which holds when every harvest refers to a planting of the
    table; with no planting it is the number 0, not an undefined value. *)
Theorem success_rate_range (st : Store) :
  (forall k, App.kpis st = Ok k ->
     taxa_spec st (App.plantios_colhidos k) (App.num_plantios k) (App.taxa k))
  /\ (forall k, App2.kpis st = Ok k ->
     taxa_spec st (App2.plantios_com_colheita k) (App2.num_plantios k) (App2.taxa k)).
Proof.
  assert (Hspec : forall h n,
            (harvests_refer_to_plantings st -> (h <= n)%nat) ->
            taxa_spec st h n (taxa_sucesso (Z.of_nat h) (Z.of_nat n))).
  { intros h n Href. split; [reflexivity |]. split; [| split].
    - intros ->. split; [reflexivity | discriminate].
    - intros Hn.
      destruct (taxa_sucesso_range (Z.of_nat h) (Z.of_nat n)) as (q & -> & H0 & H1);
        [lia | lia |].
      exists q. split; [reflexivity |]. split; [exact H0 |].
      intros Hle. apply H1. lia.
    - exact Href. }
  split; intros k H.
  - unfold App.kpis in H.
    apply bind_Ok in H as (total & _ & H).
    apply bind_Ok in H as (ids & Hids & H).
    injection H as <-. simpl. apply Hspec. intros Href.
    unfold column in Hids. destruct (has_column "plantio_id" (colheitas st)); [| discriminate].
    injection Hids as <-. rewrite <- (series_length "plantio_id").
    by apply nunique_le_referred.
  - unfold App2.kpis in H.
    apply bind_Ok in H as (total & _ & H).
    apply bind_Ok in H as (h & Hh & H).
    injection H as <-. simpl. apply Hspec. intros Href.
    destruct (negb (df_empty (colheitas st))).
    + apply bind_Ok in Hh as (ids & Hids & Hh). injection Hh as <-.
      unfold column in Hids.
      destruct (has_column "plantio_id" (colheitas st)); [| discriminate].
      injection Hids as <-. rewrite <- (series_length "plantio_id").
      by apply nunique_le_referred.
    + injection Hh as <-. lia.
Qed.

(** ** Loading *)

Lemma safe_load_missing (dir : data_dir) (name : string) :
  dir !! name = None ->
  safe_load dir name = (pd_DataFrame, [Arquivo_ausente name])
  /\ df_empty (safe_load dir name).1 = true.
Proof. intros H. unfold safe_load. rewrite H. auto. Qed.

(** With no file at all, [app_enhanced.py] reports the six missing files
    and still reaches an (empty) dashboard, whatever the filters. *)
Lemma dashboard_without_files (crit : Criteria) :
  (load_enhanced ∅).2 = map Arquivo_ausente sources
  /\ exists d, dashboard crit (load_enhanced ∅).1 = Ok d
               /\ dash_cards d = []
               /\ total_plantios (dash_kpis d) = O.
Proof. split; [reflexivity |]. eexists. split; [reflexivity |]. auto. Qed.

Lemma read_csv_missing (dir : data_dir) (b : bool) (name : string) :
  dir !! name = None -> read_csv dir b name = Raise (FileNotFoundError name).
Proof. intros H. unfold read_csv. by rewrite H. Qed.

(** C5, on [app2.py].  When one of the six files is missing, [load_data]
    reports it and then raises: the load fails as a whole, no empty table
    stands in for the missing one.  ([app.py] reads the files the same way,
    and reports nothing.) *)
Theorem load_data_missing_file (dir : data_dir) (name : string) :
  name ∈ sources ->
  dir !! name = None ->
  Arquivo_ausente name ∈ (App2.load_data dir).1
  /\ (exists e, (App2.load_data dir).2 = Raise e)
  /\ (exists e, App.load dir = Raise e).
Proof.
  intros Hin Hmiss.
  assert (Hraise : exists e, read_all dir = Raise e).
  { pose proof Hin as Hin'. unfold sources in Hin'.
    repeat (apply elem_of_cons in Hin' as [-> | Hin']); [.. | inversion Hin'];
      unfold read_all; rewrite (read_csv_missing _ _ _ Hmiss);
      repeat first [ by eexists | apply bind_raises; intros ? ]. }
  split; [| split; [exact Hraise | exact Hraise]].
  unfold App2.load_data. simpl.
  apply list_elem_of_fmap. exists name. split; [reflexivity |].
  apply list_elem_of_filter. split; [| exact Hin].
  apply bool_decide_pack. exact Hmiss.
Qed.

(** ** The period of the filters *)

Lemma date_bounds_Raise (dr : date_input) (x : exn) :
  date_bounds dr = Raise x <->
  x = TypeError /\ exists ds, dr = DateSeq ds /\ length ds <> 2%nat.
Proof.
  split.
  - destruct dr as [d | [| a [| b [| c l]]]]; simpl; intros [= <-];
      (split; [reflexivity | eexists; split; [reflexivity | simpl; lia]]).
  - intros (-> & ds & -> & Hlen).
    destruct ds as [| a [| b [| c l]]]; simpl in *; try reflexivity. lia.
Qed.

Lemma filter_eq_no_rows (all_label sel label : string) (df : DataFrame) :
  rows df = [] -> rows (filter_eq all_label sel label df) = [].
Proof.
  intros H. unfold filter_eq.
  destruct (negb (String.eqb sel all_label) && has_column label df); [| exact H].
  rewrite loc_series, H. reflexivity.
Qed.

Lemma in_period_reversed (s e : Z) (c : cell) : e < s -> in_period s e c = false.
Proof.
  intros H. unfold in_period. destruct (to_datetime c) as [d |]; [| reflexivity].
  apply andb_false_iff. destruct (Z.leb_spec s d); [right | left; reflexivity].
  apply Z.leb_gt. lia.
Qed.

(** C9, as the code has it.  A period whose start is after its end is not
    rejected: [filter_plantios] returns normally, and selects no planting
    of a table that has the planting date.  [filter_plantios] raises on
    one input only: a period given as a sequence of other than two dates,
    applied to a planting table that is not empty (a [TypeError], raised
    when the filter runs).  [app2.py] unpacks a pair of dates in the same
    way, whatever their order. *)
Theorem filter_plantios_failure (crit : Criteria) (df : DataFrame) :
  (forall x, filter_plantios crit df = Raise x <->
     x = TypeError /\ df_empty df = false
     /\ exists ds, date_range crit = DateSeq ds /\ length ds <> 2%nat)
  /\ (forall s e, date_range crit = DateSeq [s; e] ->
        exists r, filter_plantios crit df = Ok r
                  /\ (e < s -> has_column "data_plantio" df = true -> rows r = []))
  /\ (forall d, date_range crit = OneDate d -> exists r, filter_plantios crit df = Ok r)
  /\ (forall s e, App2.unpack (DateSeq [s; e]) = Ok (s, e)).
Proof.
  split; [| split; [| split]].
  - intros x. unfold filter_plantios. destruct (df_empty df) eqn:He.
    + split; [discriminate | intros (_ & [=] & _)].
    + destruct (date_bounds (date_range crit)) as [[s e] | y] eqn:Hb; simpl.
      * split.
        -- destruct (negb (has_column "data_plantio" df)); discriminate.
        -- intros (-> & _ & Hds).
           assert (Hr : date_bounds (date_range crit) = Raise TypeError)
             by (apply date_bounds_Raise; auto).
           rewrite Hr in Hb. discriminate.
      * apply date_bounds_Raise in Hb as (-> & Hds).
        split; [intros [= <-]; auto | intros (-> & _); reflexivity].
  - intros s e Hdr. unfold filter_plantios. rewrite Hdr. simpl.
    destruct (df_empty df) eqn:He.
    + exists df. split; [reflexivity |]. intros _ Hcol.
      unfold df_empty in He. unfold has_column in Hcol.
      destruct (columns df); [apply bool_decide_eq_true in Hcol; inversion Hcol |].
      destruct (rows df); [reflexivity | discriminate].
    + destruct (has_column "data_plantio" df) eqn:Hcol; simpl.
      * eexists. split; [reflexivity |]. intros Hlt _.
        do 3 apply filter_eq_no_rows.
        rewrite loc_series. apply filter_none.
        intros r _ Hr. rewrite (in_period_reversed s e _ Hlt) in Hr. exact Hr.
      * exists df. split; [reflexivity |]. intros _ [=].
  - intros d Hdr. unfold filter_plantios. rewrite Hdr. simpl.
    destruct (df_empty df); [eauto |].
    destruct (negb (has_column "data_plantio" df)); eauto.
  - reflexivity.
Qed.

(** ** The text search of [app2.py] *)

Lemma isin_spec (values : list cell) (c : cell) :
  isin values c = true <-> exists x, x ∈ values /\ key_match c x = true.
Proof.
  unfold isin. rewrite existsb_exists. split; intros (x & Hx & Hm); exists x.
  - by rewrite list_elem_of_In.
  - by rewrite <- list_elem_of_In.
Qed.

Lemma unique_from_spec (seen : list (option key)) (l : list cell) (c : cell) :
  cell_key c ∉ seen ->
  (exists x, x ∈ unique_from seen l /\ key_match c x = true)
  <-> (exists x, x ∈ l /\ key_match c x = true).
Proof.
  revert seen. induction l as [| a l IH]; intros seen Hc; simpl; [reflexivity |].
  case_bool_decide as Ha.
  - rewrite (IH seen Hc). split.
    + intros (x & Hx & Hm). exists x. split; [by right | done].
    + intros (x & Hx & Hm). apply elem_of_cons in Hx as [-> | Hx]; [| eauto].
      unfold key_match in Hm. apply bool_decide_eq_true in Hm.
      rewrite Hm in Hc. contradiction.
  - destruct (decide (cell_key c = cell_key a)) as [Heq | Hne].
    + split; intros _; exists a; (split; [left | by apply bool_decide_eq_true]).
    + assert (Hc' : cell_key c ∉ cell_key a :: seen).
      { intros [? | ?]%elem_of_cons; contradiction. }
      split.
      * intros (x & Hx & Hm). apply elem_of_cons in Hx as [-> | Hx].
        -- exists a. split; [left | done].
        -- destruct (proj1 (IH _ Hc') (ex_intro _ x (conj Hx Hm))) as (y & Hy & Hym).
           exists y. split; [by right | done].
      * intros (x & Hx & Hm). apply elem_of_cons in Hx as [-> | Hx].
        -- exists a. split; [left | done].
        -- destruct (proj2 (IH _ Hc') (ex_intro _ x (conj Hx Hm))) as (y & Hy & Hym).
           exists y. split; [by right | done].
Qed.

Lemma isin_unique (l : list cell) (c : cell) :
  isin (unique l) c = true <-> exists x, x ∈ l /\ key_match c x = true.
Proof.
  rewrite isin_spec. apply unique_from_spec. apply not_elem_of_nil.
Qed.

Lemma str_accessor_text (origin col : list cell) :
  forallb is_text col = true ->
  (forall c, c ∈ col -> c ∈ origin) ->
  col <> [] \/ object_dtype origin = true ->
  str_accessor origin col = Ok tt.
Proof.
  intros Htext Hsub Hdtype. unfold str_accessor.
  destruct col as [| c col].
  - destruct Hdtype as [H | ->]; [contradiction | reflexivity].
  - simpl in Htext. apply andb_true_iff in Htext as [Hc _].
    assert (H1 : object_dtype origin || existsb is_missing (c :: col) = true).
    { destruct c as [z | q | t | d |]; try discriminate.
      - apply orb_true_iff. left. unfold object_dtype. apply orb_true_iff. right.
        unfold is_object. apply existsb_exists. exists (CStr t). split; [| reflexivity].
        apply list_elem_of_In, Hsub. left.
      - apply orb_true_iff. by right. }
    assert (H2 : existsb is_text (c :: col) = true) by (simpl; by rewrite Hc).
    rewrite H1, H2. by rewrite orb_true_r.
Qed.

Lemma str_accessor_no_row (origin : list cell) :
  object_dtype origin = false -> str_accessor origin [] = Raise AttributeError.
Proof. intros H. unfold str_accessor. by rewrite H. Qed.

Lemma contains_cells_literal (s : string) (col : list cell) :
  regex_literal s = true ->
  forallb is_text col = true ->
  mapM_result (App2.contains_cell s) col
  = Ok (map (fun c => Some (is_substring s (lower (text c)))) col).
Proof.
  intros Hlit. induction col as [| c col IH]; simpl; [reflexivity |].
  intros [Hc Hcol]%andb_true_iff. rewrite (IH Hcol).
  destruct c; try discriminate; simpl; unfold str_contains; by rewrite Hlit.
Qed.

Lemma contains_mask_literal (origin : list cell) (s : string) (col : list cell) :
  regex_literal s = true ->
  forallb is_text col = true ->
  (forall c, c ∈ col -> c ∈ origin) ->
  col <> [] \/ object_dtype origin = true ->
  App2.contains_mask origin s col
  = Ok (map (fun c => Some (is_substring s (lower (text c)))) col).
Proof.
  intros Hlit Htext Hsub Hdtype. unfold App2.contains_mask.
  rewrite (str_accessor_text _ _ Htext Hsub Hdtype). simpl.
  by apply contains_cells_literal.
Qed.

Lemma bool_mask_Some {A : Type} (f : A -> bool) (l : list A) :
  App2.bool_mask (map (fun x => Some (f x)) l) = Ok (map f l).
Proof.
  unfold App2.bool_mask. induction l as [| a l IH]; simpl; [reflexivity |].
  by rewrite IH.
Qed.

Lemma zip_with_mask_or_map {A : Type} (f g : A -> bool) (l : list A) :
  zip_with App2.mask_or (map (fun x => Some (f x)) l) (map g l)
  = map (fun x => f x || g x) l.
Proof. induction l as [| a l IH]; simpl; [reflexivity | by rewrite IH]. Qed.

Lemma series_subset (label : string) (p plantios : DataFrame) :
  columns p = columns plantios ->
  (forall r, r ∈ rows p -> r ∈ rows plantios) ->
  forall c, c ∈ series label p -> c ∈ series label plantios.
Proof.
  intros Hcols Hrows c Hc. unfold series in *.
  apply list_elem_of_fmap in Hc as (r & -> & Hr).
  unfold cell_of. rewrite Hcols. fold (cell_of plantios label r).
  by apply (list_elem_of_fmap_2 (cell_of plantios label)), Hrows.
Qed.

(** C8, as the code has it.  The term of the search is the text typed,
    stripped of the white space around it and put in lower case.  When
    the stripped text is empty the search filters nothing.  When it is
    not empty (and the term is a plain word for the [re] module), on
    columns of text: a planting of the selection made by the other
    filters is kept when, and only when, its own notes, put in lower
    case, contain the term, or the comments of an observation with its
    [plantio_id] do; except that on a selection with no row, taken from
    a planting table none of whose notes is a text, the search raises
    [AttributeError]. *)
Theorem busca_notes_or_comments (search_text : string) (observ plantios p : DataFrame) :
  let s := lower (strip search_text) in
  (strip search_text = EmptyString ->
   App2.busca search_text observ plantios p = Ok p)
  /\ (strip search_text <> EmptyString ->
      regex_literal s = true ->
      has_column "notas" p = true -> has_column "plantio_id" p = true ->
      has_column "comentarios" observ = true -> has_column "plantio_id" observ = true ->
      columns p = columns plantios -> (forall r, r ∈ rows p -> r ∈ rows plantios) ->
      text_column "notas" p = true -> text_column "comentarios" observ = true ->
      (rows p <> [] \/ object_dtype (series "notas" plantios) = true ->
       exists pf,
         App2.busca search_text observ plantios p = Ok pf
         /\ columns pf = columns p
         /\ rows pf `sublist_of` rows p
         /\ forall r, r ∈ rows pf <->
              r ∈ rows p
              /\ (is_substring s (lower (text (cell_of p "notas" r))) = true
                  \/ exists o, o ∈ rows observ
                       /\ is_substring s (lower (text (cell_of observ "comentarios" o)))
                          = true
                       /\ key_match (cell_of p "plantio_id" r)
                                    (cell_of observ "plantio_id" o) = true))
      /\ (rows p = [] -> object_dtype (series "notas" plantios) = false ->
          App2.busca search_text observ plantios p = Raise AttributeError)).
Proof.
  intros s. split.
  { intros He. unfold App2.busca. by rewrite He. }
  intros Hne Hlit Hn Hpid Hc Hoid Hcols Hrows Htn Htc.
  assert (Hs : String.eqb (strip search_text) EmptyString = false)
    by (by apply String.eqb_neq).
  split.
  - intros Hdtype. unfold App2.busca.
    rewrite Hs. simpl negb. cbv iota. fold s.
    unfold column. rewrite Hn, Hpid, Hc, Hoid. simpl.
    rewrite (contains_mask_literal _ s _ Hlit Htn (series_subset _ _ _ Hcols Hrows)).
    2: { destruct Hdtype as [Hr | Hd]; [left | by right].
         unfold series. destruct (rows p); [contradiction | discriminate]. }
    simpl.
    rewrite (contains_mask_literal _ s _ Hlit Htc (fun c H => H)).
    2: { destruct (series "comentarios" observ) eqn:E; [by right | left; discriminate]. }
    simpl. unfold series. rewrite !map_map.
    rewrite (bool_mask_Some
               (fun o => is_substring s (lower (text (cell_of observ "comentarios" o))))).
    simpl.
    eexists. split; [reflexivity |]. split; [reflexivity |].
    rewrite (map_map (cell_of p "plantio_id")).
    rewrite (zip_with_mask_or_map
               (fun r => is_substring s (lower (text (cell_of p "notas" r))))).
    cbn [rows loc].
    rewrite (loc_rows_map
               (fun o => is_substring s (lower (text (cell_of observ "comentarios" o))))).
    rewrite (loc_rows_map
               (fun r => is_substring s (lower (text (cell_of p "notas" r)))
                         || isin _ (cell_of p "plantio_id" r))).
    split; [apply sublist_filter |].
    intros r. rewrite list_elem_of_filter.
    split.
    + intros [Hm Hr]. split; [exact Hr |].
      apply Is_true_true, orb_true_iff in Hm as [Hm | Hm]; [by left | right].
      apply isin_unique in Hm as (x & Hx & Hm).
      apply list_elem_of_fmap in Hx as (o & -> & Ho).
      apply list_elem_of_filter in Ho as [Hcom Ho].
      exists o. split; [exact Ho |]. split; [by apply Is_true_true | exact Hm].
    + intros [Hr Hm]. split; [| exact Hr].
      apply Is_true_true, orb_true_iff. destruct Hm as [Hm | (o & Ho & Hcom & Hm)];
        [by left | right].
      apply isin_unique. exists (cell_of observ "plantio_id" o). split; [| exact Hm].
      apply list_elem_of_fmap. exists o. split; [reflexivity |].
      apply list_elem_of_filter. split; [by apply Is_true_true | exact Ho].
  - intros Hr Hd. unfold App2.busca.
    rewrite Hs. simpl negb. cbv iota.
    unfold column. rewrite Hn. simpl.
    assert (Hser : series "notas" p = []) by (unfold series; by rewrite Hr).
    unfold App2.contains_mask. rewrite Hser.
    by rewrite (str_accessor_no_row _ Hd).
Qed.

(** ** Grouped sums *)

Lemma sumQ_ext {A : Type} (f g : A -> Q) (l : list A) :
  (forall x, x ∈ l -> (f x == g x)%Q) -> (sumQ (map f l) == sumQ (map g l))%Q.
Proof.
  induction l as [| a l IH]; intros H; simpl; [reflexivity |].
  rewrite (H a) by left. rewrite IH; [reflexivity |].
  intros x Hx. apply H. by right.
Qed.

Lemma sumQ_add {A : Type} (f g : A -> Q) (l : list A) :
  (sumQ (map (fun x => f x + g x) l) == sumQ (map f l) + sumQ (map g l))%Q.
Proof. induction l as [| a l IH]; simpl; [reflexivity | rewrite IH; ring]. Qed.

Lemma sumQ_zero {A : Type} (l : list A) : (sumQ (map (fun _ => 0) l) == 0)%Q.
Proof. induction l as [| a l IH]; simpl; [reflexivity | rewrite IH; ring]. Qed.

Lemma sumQ_indicator {K : Type} `{EqDecision K} (k0 : K) (v : Q) (ks : list K) :
  NoDup ks ->
  (sumQ (map (fun k => if decide (k0 = k) then v else 0) ks)
   == if decide (k0 ∈ ks) then v else 0)%Q.
Proof.
  induction 1 as [| k ks Hk Hnd IH]; simpl; [reflexivity |].
  rewrite IH. destruct (decide (k0 = k)) as [-> | Hne].
  - rewrite (decide_True (P := k ∈ k :: ks)) by left.
    rewrite (decide_False (P := k ∈ ks)) by exact Hk. ring.
  - destruct (decide (k0 ∈ ks)) as [Hin | Hnin].
    + rewrite (decide_True (P := k0 ∈ k :: ks)) by (by right). ring.
    + rewrite (decide_False (P := k0 ∈ k :: ks)); [ring |].
      intros [? | ?]%elem_of_cons; contradiction.
Qed.

Lemma sumQ_partition {K : Type} `{EqDecision K}
    (keyf : list cell -> K) (w : list cell -> Q) (ks : list K) (rs : list (list cell)) :
  NoDup ks ->
  (forall r, r ∈ rs -> keyf r ∈ ks) ->
  (sumQ (map (fun k => sumQ (map w (filter (fun r => bool_decide (keyf r = k)) rs))) ks)
   == sumQ (map w rs))%Q.
Proof.
  intros Hnd. induction rs as [| r rs IH]; intros Hks.
  - simpl. apply sumQ_zero.
  - rewrite (sumQ_ext _
               (fun k => ((if decide (keyf r = k) then w r else 0)
                          + sumQ (map w (filter (fun r => bool_decide (keyf r = k)) rs)))%Q)).
    + rewrite (sumQ_add (fun k => if decide (keyf r = k) then w r else 0%Q)).
      rewrite (sumQ_indicator _ _ _ Hnd).
      rewrite decide_True by (apply Hks; left).
      rewrite IH by (intros x Hx; apply Hks; by right).
      reflexivity.
    + intros k _. destruct (decide (keyf r = k)) as [Heq | Hne].
      * rewrite filter_cons_True by (by apply bool_decide_pack). reflexivity.
      * rewrite filter_cons_False by (intros H'; by apply bool_decide_unpack in H').
        simpl. ring.
Qed.

Lemma sumQ_Permutation (l l' : list Q) : l ≡ₚ l' -> (sumQ l == sumQ l')%Q.
Proof.
  induction 1 as [| x l l' _ IH | x y l | l l' l'' _ IH1 _ IH2]; simpl.
  - reflexivity.
  - by rewrite IH.
  - ring.
  - by rewrite IH1.
Qed.

#[local] Instance sum_ge_total : Total sum_ge.
Proof.
  intros a b. unfold sum_ge.
  destruct (Qlt_le_dec a.2 b.2) as [Hlt | Hle]; [right | left; exact Hle].
  by apply Qlt_le_weak.
Qed.

Lemma mapM_result_total {A B : Type} (f : A -> result B) (g : A -> B) (l : list A) :
  (forall x, x ∈ l -> f x = Ok (g x)) -> mapM_result f l = Ok (map g l).
Proof.
  induction l as [| a l IH]; intros H; simpl; [reflexivity |].
  rewrite (H a) by left. simpl. rewrite IH; [reflexivity |].
  intros x Hx. apply H. by right.
Qed.

Lemma mapM_result_each {A B : Type} (f : A -> result B) (l : list A) (l' : list B) :
  mapM_result f l = Ok l' -> forall x, x ∈ l -> exists y, f x = Ok y.
Proof.
  revert l'. induction l as [| a l IH]; simpl; intros l' H x Hx; [inversion Hx |].
  apply bind_Ok in H as (b & Hb & H).
  apply bind_Ok in H as (bs & Hbs & _).
  apply elem_of_cons in Hx as [-> | Hx]; [eauto | by apply (IH bs)].
Qed.

Lemma numeric_cell_Ok (c : cell) (x : num) : numeric_cell c = Ok x -> x = as_number c.
Proof. destruct c; simpl; congruence. Qed.

Lemma filter_true {A : Type} (l : list A) : filter (fun _ => Is_true true) l = l.
Proof.
  induction l as [| a l IH]; [reflexivity |].
  rewrite filter_cons_True by exact I. by rewrite IH.
Qed.

(** X12.  The grouped sum with [dropna=False], as [app.py] computes it on a
    view with a numeric value column of whole numbers whose absolute
    values add up to at most 2^53 (so that every sum is exact): the
    result is in descending order of sum, its sums add up to the sum of
    the whole column, and every row has its group in it, the rows with a
    missing key included. *)
Lemma grouped_sum_dropna_False (grp val : string) (df : DataFrame) (vs : list num) :
  has_column grp df = true ->
  has_column val df = true ->
  mapM_result numeric_cell (series val df) = Ok vs ->
  exact_sums vs = true ->
  exists g,
    grouped_sum false grp val df = Ok g
    /\ Sorted sum_ge g
    /\ (sumQ (map snd g) == series_sum vs)%Q
    /\ (forall r, r ∈ rows df -> cell_key (cell_of df grp r) ∈ map fst g).
Proof.
  intros Hg Hv Hvs _.
  set (w := fun r => fillna 0 (as_number (cell_of df val r))).
  set (ks := group_keys false grp df).
  set (gs := map (fun k => (k, sumQ (map w (group_rows grp df k)))) ks).
  assert (Hnum : forall r, r ∈ rows df ->
            numeric_cell (cell_of df val r) = Ok (as_number (cell_of df val r))).
  { intros r Hr.
    destruct (mapM_result_each _ _ _ Hvs (cell_of df val r)) as (y & Hy).
    - unfold series. by apply list_elem_of_fmap_2.
    - by rewrite Hy, (numeric_cell_Ok _ _ Hy). }
  assert (Hgb : groupby_sum false grp val df = Ok gs).
  { unfold groupby_sum. rewrite Hg, Hv. simpl.
    apply mapM_result_total. intros k _.
    rewrite (mapM_result_total _ (fun r => as_number (cell_of df val r))).
    - simpl. unfold series_sum. by rewrite map_map.
    - intros r Hr. apply Hnum. unfold group_rows in Hr.
      by apply list_elem_of_filter in Hr as [_ Hr]. }
  assert (Hks : ks = remove_dups (map cell_key (series grp df))).
  { unfold ks, group_keys. simpl. by rewrite filter_true. }
  exists (sort_values_desc gs). split; [| split; [| split]].
  - unfold grouped_sum. by rewrite Hgb.
  - apply Sorted_merge_sort. apply _.
  - unfold sort_values_desc.
    rewrite (sumQ_Permutation _ (map snd gs))
      by (apply fmap_Permutation, merge_sort_Permutation).
    unfold gs. rewrite map_map. simpl.
    assert (Hvs' : vs = map (fun r => as_number (cell_of df val r)) (rows df)).
    { rewrite (mapM_result_total _ as_number) in Hvs.
      - injection Hvs as <-. unfold series. by rewrite map_map.
      - intros c Hc. unfold series in Hc.
        apply list_elem_of_fmap in Hc as (r & -> & Hr). by apply Hnum. }
    rewrite Hvs'. unfold series_sum. rewrite map_map.
    unfold group_rows.
    apply (sumQ_partition (fun r => cell_key (cell_of df grp r)) w).
    + rewrite Hks. apply NoDup_remove_dups.
    + intros r Hr. rewrite Hks. apply elem_of_remove_dups.
      unfold series. rewrite map_map.
      by apply (list_elem_of_fmap_2 (fun r => cell_key (cell_of df grp r))).
  - intros r Hr.
    assert (Hin : cell_key (cell_of df grp r) ∈ map fst gs).
    { unfold gs. rewrite map_map. simpl. rewrite map_id, Hks.
      apply elem_of_remove_dups. unfold series. rewrite map_map.
      by apply (list_elem_of_fmap_2 (fun r => cell_key (cell_of df grp r))). }
    unfold sort_values_desc.
    eapply elem_of_Permutation_proper; [| exact Hin].
    apply fmap_Permutation, merge_sort_Permutation.
Qed.

(** ** Normalisation of the identifier and quantity columns *)

Lemma index_of_inj (a b : string) (l : list string) (i : nat) :
  index_of a l = Some i -> index_of b l = Some i -> a = b.
Proof.
  revert i. induction l as [| c l IH]; intros i; simpl; [discriminate |].
  destruct (String.eqb_spec a c) as [-> | Ha], (String.eqb_spec b c) as [-> | Hb].
  - reflexivity.
  - intros [= <-]. destruct (index_of b l); discriminate.
  - intros H [= <-]. destruct (index_of a l); discriminate.
  - destruct (index_of a l) as [j |] eqn:Ea; [| discriminate].
    destruct (index_of b l) as [k |] eqn:Eb; [| discriminate].
    simpl. intros [= <-] [= ->]. by apply (IH j).
Qed.

Lemma index_of_None (a : string) (l : list string) :
  index_of a l = None <-> a ∉ l.
Proof.
  induction l as [| c l IH]; simpl.
  - split; [intros _ H; inversion H | reflexivity].
  - destruct (String.eqb_spec a c) as [-> | Ha].
    + split; [discriminate | intros H; exfalso; apply H; left].
    + destruct (index_of a l) as [j |]; simpl.
      * split; [discriminate |]. intros H. exfalso.
        assert (Hn : a ∉ l) by (intros Hin; apply H; by right).
        apply IH in Hn. discriminate.
      * split; [| reflexivity]. intros _ [? | Hin]%elem_of_cons; [done |].
        by apply (proj1 IH).
Qed.

Lemma has_column_index_of (label : string) (df : DataFrame) :
  has_column label df = false -> index_of label (columns df) = None.
Proof.
  unfold has_column. intros H. apply index_of_None.
  by apply bool_decide_eq_false in H.
Qed.

Lemma cell_of_no_column (label : string) (df : DataFrame) (r : list cell) :
  has_column label df = false -> cell_of df label r = CNaN.
Proof. intros H. unfold cell_of. by rewrite (has_column_index_of _ _ H). Qed.

Lemma nth_insert_same (r : list cell) (i : nat) (c : cell) :
  nth i (<[i := c]> r) CNaN = c \/ (<[i := c]> r = r /\ nth i r CNaN = CNaN).
Proof.
  destruct (decide (i < length r)%nat) as [Hlt | Hge].
  - left. apply nth_lookup_Some. by apply list_lookup_insert_eq.
  - right. rewrite list_insert_ge by lia. split; [reflexivity |].
    rewrite nth_lookup, (lookup_ge_None_2 r i) by lia. reflexivity.
Qed.

Lemma nth_insert_other (r : list cell) (i j : nat) (c : cell) :
  i <> j -> nth j (<[i := c]> r) CNaN = nth j r CNaN.
Proof. intros H. by rewrite !nth_lookup, list_lookup_insert_ne. Qed.

Lemma mapM_result_elem {A B : Type} (g : A -> result B) (l : list A) (l' : list B) :
  mapM_result g l = Ok l' -> forall y, y ∈ l' -> exists x, x ∈ l /\ g x = Ok y.
Proof.
  revert l'. induction l as [| a l IH]; simpl; intros l' H y Hy.
  - injection H as <-. inversion Hy.
  - apply bind_Ok in H as (b & Hb & H).
    apply bind_Ok in H as (bs & Hbs & H). injection H as <-.
    apply elem_of_cons in Hy as [-> | Hy].
    + exists a. split; [left | exact Hb].
    + destruct (IH _ Hbs y Hy) as (x & Hx & Hg). exists x. split; [by right | exact Hg].
Qed.

Lemma mapM_result_fixed {A : Type} (g : A -> result A) (l : list A) :
  mapM_result g l = Ok l <-> forall x, x ∈ l -> g x = Ok x.
Proof.
  induction l as [| a l IH]; simpl.
  - split; [intros _ x Hx; inversion Hx | reflexivity].
  - split.
    + intros H. apply bind_Ok in H as (b & Hb & H).
      apply bind_Ok in H as (bs & Hbs & H). injection H as -> ->.
      intros x [-> | Hx]%elem_of_cons; [exact Hb | by apply IH].
    + intros H. rewrite (H a) by left. simpl.
      rewrite (proj2 IH); [reflexivity |]. intros x Hx. apply H. by right.
Qed.

Lemma mapM_result_raise {A B : Type} (g : A -> result B) (l : list A) (x : A) (E : exn) :
  (forall y e, g y = Raise e -> e = E) ->
  x ∈ l -> g x = Raise E -> mapM_result g l = Raise E.
Proof.
  intros Honly. induction l as [| a l IH]; intros Hx Hg; [inversion Hx |].
  simpl. destruct (g a) as [b | e] eqn:Ea; simpl.
  - apply elem_of_cons in Hx as [-> | Hx]; [congruence |].
    by rewrite (IH Hx Hg).
  - by rewrite (Honly _ _ Ea).
Qed.


Lemma whole_column_unguarded (label : string) (df : DataFrame) :
  negb (df_empty df) && has_column label df = false -> whole_column label df.
Proof.
  intros H r Hr. destruct (has_column label df) eqn:Hc.
  - rewrite andb_true_r in H. apply negb_false_iff in H.
    unfold df_empty in H. unfold has_column in Hc.
    destruct (columns df); [apply bool_decide_eq_true in Hc; inversion Hc |].
    destruct (rows df); [inversion Hr | discriminate].
  - by rewrite (cell_of_no_column _ _ _ Hc).
Qed.

Lemma has_column_index_Some (label : string) (df : DataFrame) :
  has_column label df = true -> exists i, index_of label (columns df) = Some i.
Proof.
  intros H. destruct (index_of label (columns df)) as [i |] eqn:Hi; [eauto |].
  apply index_of_None in Hi. unfold has_column in H.
  apply bool_decide_eq_true in H. contradiction.
Qed.

Lemma map_column_Ok (label : string) (f : cell -> result cell) (df df' : DataFrame) :
  map_column label f df = Ok df' ->
  (negb (df_empty df) && has_column label df = false /\ df' = df)
  \/ exists i rs,
       negb (df_empty df) && has_column label df = true
       /\ index_of label (columns df) = Some i
       /\ mapM_result (fun r => c ← f (nth i r CNaN); Ok (<[i := c]> r)) (rows df) = Ok rs
       /\ df' = {| columns := columns df; rows := rs |}.
Proof.
  unfold map_column.
  destruct (negb (df_empty df) && has_column label df) eqn:Hg; [| intros [= <-]; by left].
  apply andb_true_iff in Hg as [_ Hc].
  destruct (has_column_index_Some _ _ Hc) as (i & Hi). rewrite Hi.
  intros H. apply bind_Ok in H as (rs & Hrs & H). injection H as <-.
  right. exists i, rs. auto.
Qed.

Lemma map_column_whole (label : string) (f : cell -> result cell) (df df' : DataFrame) :
  (forall c c', f c = Ok c' -> whole_or_missing c' = true) ->
  map_column label f df = Ok df' -> whole_column label df'.
Proof.
  intros Hf H.
  apply map_column_Ok in H as [[Hg ->] | (i & rs & _ & Hi & Hrs & ->)].
  - by apply whole_column_unguarded.
  - intros r' Hr'. simpl in Hr'. unfold cell_of; simpl. rewrite Hi.
    destruct (mapM_result_elem _ _ _ Hrs r' Hr') as (r & _ & Hg').
    apply bind_Ok in Hg' as (c & Hc & Hg'). injection Hg' as <-.
    destruct (nth_insert_same r i c) as [-> | [-> ->]]; [by apply (Hf _ _ Hc) | reflexivity].
Qed.

Lemma map_column_other (label label' : string) (f : cell -> result cell)
    (df df' : DataFrame) :
  label <> label' ->
  map_column label' f df = Ok df' ->
  whole_column label df -> whole_column label df'.
Proof.
  intros Hne H Hw.
  apply map_column_Ok in H as [[_ ->] | (i' & rs & _ & Hi' & Hrs & ->)]; [exact Hw |].
  intros r' Hr'. simpl in Hr'.
  destruct (mapM_result_elem _ _ _ Hrs r' Hr') as (r & Hr & Hg').
  apply bind_Ok in Hg' as (c & Hc & Hg'). injection Hg' as <-.
  specialize (Hw r Hr). unfold cell_of in *; simpl.
  destruct (index_of label (columns df)) as [i |] eqn:Hi; [| reflexivity].
  rewrite nth_insert_other; [exact Hw |].
  intros ->. apply Hne. symmetry. by apply (index_of_inj _ _ _ _ Hi' Hi).
Qed.

Lemma to_Int64_whole (c c' : cell) : to_Int64 c = Ok c' -> whole_or_missing c' = true.
Proof.
  unfold to_Int64. destruct (reads_inf c); [discriminate |].
  destruct (to_numeric c) as [q |]; [| by intros [= <-]].
  destruct ((Z.rem (Qnum q) (Z.pos (Qden q)) =? 0) && in_int64 (astype_int q));
    [by intros [= <-] | discriminate].
Qed.

Lemma to_Int64_fixed (z : Z) : in_int64 z = true -> to_Int64 (CInt z) = Ok (CInt z).
Proof.
  intros Hz. unfold to_Int64; simpl. rewrite Z.rem_1_r. simpl.
  by rewrite (astype_int_inject_Z z), Hz.
Qed.

Lemma to_Int64_idem (c c' : cell) : to_Int64 c = Ok c' -> to_Int64 c' = Ok c'.
Proof.
  unfold to_Int64 at 1. destruct (reads_inf c); [discriminate |].
  destruct (to_numeric c) as [q |]; [| by intros [= <-]].
  destruct (Z.rem (Qnum q) (Z.pos (Qden q)) =? 0); [| discriminate].
  destruct (in_int64 (astype_int q)) eqn:Hr; [| discriminate].
  intros [= <-]. by apply to_Int64_fixed.
Qed.

Lemma map_column_shape_guard (label label' : string) (f : cell -> result cell)
    (df df' : DataFrame) :
  map_column label' f df = Ok df' ->
  negb (df_empty df') && has_column label df'
  = negb (df_empty df) && has_column label df.
Proof.
  intros H. destruct (map_column_shape _ _ _ _ H) as [Hc Hl].
  rewrite (df_empty_shape _ _ Hc Hl). unfold has_column. by rewrite Hc.
Qed.

Lemma map_column_idem (label : string) (f : cell -> result cell) (df df' : DataFrame) :
  (forall c c', f c = Ok c' -> f c' = Ok c') ->
  map_column label f df = Ok df' -> map_column label f df' = Ok df'.
Proof.
  intros Hf H. pose proof (map_column_shape_guard label _ _ _ _ H) as Hguard.
  apply map_column_Ok in H as [[Hg ->] | (i & rs & Hg & Hi & Hrs & ->)].
  - unfold map_column. by rewrite Hg.
  - unfold map_column. rewrite Hguard, Hg. simpl. rewrite Hi.
    assert (Hfix : mapM_result (fun r => c ← f (nth i r CNaN); Ok (<[i := c]> r)) rs = Ok rs).
    { apply mapM_result_fixed. intros r' Hr'.
      destruct (mapM_result_elem _ _ _ Hrs r' Hr') as (r & _ & Hg').
      apply bind_Ok in Hg' as (c & Hc & Hg'). injection Hg' as <-.
      destruct (nth_insert_same r i c) as [-> | [Hsame Hn]].
      - rewrite (Hf _ _ Hc). simpl. by rewrite list_insert_insert_eq.
      - rewrite Hsame, Hc. simpl. by rewrite Hsame. }
    by rewrite Hfix.
Qed.

Lemma map_column_keeps_fixed (label label' : string) (f g : cell -> result cell)
    (df df' : DataFrame) :
  label <> label' ->
  map_column label f df = Ok df ->
  map_column label' g df = Ok df' ->
  map_column label f df' = Ok df'.
Proof.
  intros Hne Hfix H.
  pose proof (map_column_shape_guard label _ _ _ _ H) as Hguard.
  apply map_column_Ok in H as [[_ ->] | (i' & rs & _ & Hi' & Hrs & ->)]; [exact Hfix |].
  apply map_column_Ok in Hfix as [[Hg _] | (i & rs0 & Hg & Hi & Hrs0 & Heq)].
  - unfold map_column. by rewrite Hguard, Hg.
  - unfold map_column. rewrite Hguard, Hg. simpl. rewrite Hi.
    assert (Hrows : rs0 = rows df) by (by rewrite Heq).
    rewrite Hrows in Hrs0.
    assert (Hfix' : mapM_result (fun r => c ← f (nth i r CNaN); Ok (<[i := c]> r)) rs = Ok rs).
    { apply mapM_result_fixed. intros r' Hr'.
      destruct (mapM_result_elem _ _ _ Hrs r' Hr') as (r & Hr & Hg').
      apply bind_Ok in Hg' as (c' & Hc' & Hg'). injection Hg' as <-.
      pose proof (proj1 (mapM_result_fixed _ _) Hrs0 r Hr) as Hr0.
      apply bind_Ok in Hr0 as (c & Hc & Hr0). injection Hr0 as Hr0.
      assert (Hii : i' <> i).
      { intros ->. apply Hne. by apply (index_of_inj _ _ _ _ Hi Hi'). }
      rewrite (nth_insert_other _ _ _ _ Hii), Hc. simpl.
      rewrite list_insert_insert_ne by done. by rewrite Hr0. }
    by rewrite Hfix'.
Qed.

Lemma coerce_quantidade_idem (c c' : cell) :
  (z ← coerce_quantidade c; Ok (CInt z)) = Ok c' ->
  (z ← coerce_quantidade c'; Ok (CInt z)) = Ok c'.
Proof.
  intros H. apply bind_Ok in H as (z & Hz & H). injection H as <-.
  unfold coerce_quantidade in Hz.
  destruct (reads_inf c); [discriminate |]. injection Hz as <-.
  rewrite coerce_quantidade_int; [reflexivity | apply astype_int64_range].
Qed.

(** X1.  After [normalize_dataframes] every identifier column of the six
    tables, and the harvested quantity, holds whole numbers and missing
    values only; the tables keep their labels and their number of rows. *)
Theorem normalize_dataframes_whole (st st' : Store) :
  normalize_dataframes st = Ok st' ->
  normalized st'
  /\ same_shape (plantios st') (plantios st)
  /\ same_shape (colheitas st') (colheitas st)
  /\ same_shape (observ st') (observ st)
  /\ same_shape (eventos st') (eventos st)
  /\ same_shape (canteiros st') (canteiros st)
  /\ same_shape (especies st') (especies st).
Proof.
  unfold normalize_dataframes. intros H.
  apply bind_Ok in H as (p1 & Hp1 & H).
  apply bind_Ok in H as (p2 & Hp2 & H).
  apply bind_Ok in H as (p3 & Hp3 & H).
  apply bind_Ok in H as (c1 & Hc1 & H).
  apply bind_Ok in H as (c2 & Hc2 & H).
  apply bind_Ok in H as (o & Ho & H).
  apply bind_Ok in H as (e & He & H).
  apply bind_Ok in H as (b & Hb & H).
  apply bind_Ok in H as (s & Hs & H).
  injection H as <-. simpl.
  assert (Hq : forall c c' : cell,
            (z ← coerce_quantidade c; Ok (CInt z)) = Ok c' -> whole_or_missing c' = true).
  { intros c c' Hc. apply bind_Ok in Hc as (z & _ & Hc). by injection Hc as <-. }
  split.
  - unfold normalized; simpl. repeat split.
    + apply (map_column_other "plantio_id" "especie_id" _ _ _ ltac:(discriminate) Hp3).
      apply (map_column_other "plantio_id" "canteiro_id" _ _ _ ltac:(discriminate) Hp2).
      apply (map_column_whole _ _ _ _ to_Int64_whole Hp1).
    + apply (map_column_other "canteiro_id" "especie_id" _ _ _ ltac:(discriminate) Hp3).
      apply (map_column_whole _ _ _ _ to_Int64_whole Hp2).
    + apply (map_column_whole _ _ _ _ to_Int64_whole Hp3).
    + apply (map_column_other "plantio_id" "quantidade_colhida" _ _ _
               ltac:(discriminate) Hc2).
      apply (map_column_whole _ _ _ _ to_Int64_whole Hc1).
    + apply (map_column_whole _ _ _ _ Hq Hc2).
    + apply (map_column_whole _ _ _ _ to_Int64_whole Ho).
    + apply (map_column_whole _ _ _ _ to_Int64_whole He).
    + apply (map_column_whole _ _ _ _ to_Int64_whole Hb).
    + apply (map_column_whole _ _ _ _ to_Int64_whole Hs).
  - apply map_column_shape in Hp1, Hp2, Hp3, Hc1, Hc2, Ho, He, Hb, Hs.
    repeat split; try apply Ho; try apply He; try apply Hb; try apply Hs.
    + rewrite (proj1 Hp3), (proj1 Hp2). apply Hp1.
    + rewrite (proj2 Hp3), (proj2 Hp2). apply Hp1.
    + rewrite (proj1 Hc2). apply Hc1.
    + rewrite (proj2 Hc2). apply Hc1.
Qed.

(** X2.  [normalize_dataframes] is idempotent: a store it returns is
    returned unchanged when normalised again. *)
Theorem normalize_dataframes_idempotent (st st' : Store) :
  normalize_dataframes st = Ok st' -> normalize_dataframes st' = Ok st'.
Proof.
  unfold normalize_dataframes. intros H.
  apply bind_Ok in H as (p1 & Hp1 & H).
  apply bind_Ok in H as (p2 & Hp2 & H).
  apply bind_Ok in H as (p3 & Hp3 & H).
  apply bind_Ok in H as (c1 & Hc1 & H).
  apply bind_Ok in H as (c2 & Hc2 & H).
  apply bind_Ok in H as (o & Ho & H).
  apply bind_Ok in H as (e & He & H).
  apply bind_Ok in H as (b & Hb & H).
  apply bind_Ok in H as (s & Hs & H).
  injection H as <-. simpl.
  pose proof (map_column_idem _ _ _ _ to_Int64_idem Hp1) as F1.
  pose proof (map_column_idem _ _ _ _ to_Int64_idem Hp2) as F2.
  pose proof (map_column_idem _ _ _ _ to_Int64_idem Hp3) as F3.
  pose proof (map_column_keeps_fixed "plantio_id" "canteiro_id" _ _ _ _
                ltac:(discriminate) F1 Hp2) as F12.
  pose proof (map_column_keeps_fixed "plantio_id" "especie_id" _ _ _ _
                ltac:(discriminate) F12 Hp3) as F13.
  pose proof (map_column_keeps_fixed "canteiro_id" "especie_id" _ _ _ _
                ltac:(discriminate) F2 Hp3) as F23.
  pose proof (map_column_idem _ _ _ _ to_Int64_idem Hc1) as G1.
  pose proof (map_column_idem _ _ _ _ coerce_quantidade_idem Hc2) as G2.
  pose proof (map_column_keeps_fixed "plantio_id" "quantidade_colhida" _ _ _ _
                ltac:(discriminate) G1 Hc2) as G12.
  rewrite F13. simpl. rewrite F23. simpl. rewrite F3. simpl.
  rewrite G12. simpl. rewrite G2. simpl.
  rewrite (map_column_idem _ _ _ _ to_Int64_idem Ho). simpl.
  rewrite (map_column_idem _ _ _ _ to_Int64_idem He). simpl.
  rewrite (map_column_idem _ _ _ _ to_Int64_idem Hb). simpl.
  rewrite (map_column_idem _ _ _ _ to_Int64_idem Hs). reflexivity.
Qed.

Lemma mapM_result_image {A B : Type} (g : A -> result B) (l : list A) (l' : list B) :
  mapM_result g l = Ok l' -> forall x, x ∈ l -> exists y, y ∈ l' /\ g x = Ok y.
Proof.
  revert l'. induction l as [| a l IH]; simpl; intros l' H x Hx; [inversion Hx |].
  apply bind_Ok in H as (b & Hb & H).
  apply bind_Ok in H as (bs & Hbs & H). injection H as <-.
  apply elem_of_cons in Hx as [-> | Hx].
  - exists b. split; [left | exact Hb].
  - destruct (IH _ Hbs x Hx) as (y & Hy & Hg). exists y. split; [by right | exact Hg].
Qed.

Lemma to_Int64_fractional (c : cell) (q : Q) :
  to_numeric c = Some q -> fractional q -> to_Int64 c = Raise TypeError.
Proof.
  intros Hq Hfrac. unfold to_Int64. destruct (reads_inf c); [reflexivity |].
  rewrite Hq. apply Z.eqb_neq in Hfrac. by rewrite Hfrac.
Qed.

Lemma to_Int64_raise (c : cell) (e : exn) : to_Int64 c = Raise e -> e = TypeError.
Proof.
  unfold to_Int64. destruct (reads_inf c); [by intros [= <-] |].
  destruct (to_numeric c) as [q |]; [| discriminate].
  destruct ((Z.rem (Qnum q) (Z.pos (Qden q)) =? 0) && in_int64 (astype_int q));
    [discriminate | by intros [= <-]].
Qed.

Lemma map_column_fractional (label : string) (df : DataFrame) (r : list cell) (q : Q) :
  df_empty df = false -> has_column label df = true ->
  r ∈ rows df ->
  to_numeric (cell_of df label r) = Some q -> fractional q ->
  map_column label to_Int64 df = Raise TypeError.
Proof.
  intros He Hc Hr Hq Hfrac. unfold map_column. rewrite He, Hc. simpl.
  destruct (has_column_index_Some _ _ Hc) as (i & Hi). rewrite Hi.
  rewrite (mapM_result_raise _ _ r TypeError); [reflexivity | | exact Hr |].
  - intros y e. destruct (to_Int64 (nth i y CNaN)) as [c | e'] eqn:Hy; simpl; [discriminate |].
    intros [= <-]. by apply (to_Int64_raise _ _ Hy).
  - unfold cell_of in Hq. rewrite Hi in Hq.
    by rewrite (to_Int64_fractional _ _ Hq Hfrac).
Qed.

Lemma map_column_cell_image (label label' : string) (f : cell -> result cell)
    (df df' : DataFrame) (r : list cell) :
  label <> label' ->
  map_column label' f df = Ok df' ->
  r ∈ rows df ->
  exists r', r' ∈ rows df' /\ cell_of df' label r' = cell_of df label r.
Proof.
  intros Hne H Hr.
  apply map_column_Ok in H as [[_ ->] | (i' & rs & _ & Hi' & Hrs & ->)]; [eauto |].
  destruct (mapM_result_image _ _ _ Hrs r Hr) as (r' & Hr' & Hg).
  apply bind_Ok in Hg as (c & Hc & Hg). injection Hg as <-.
  eexists. split; [exact Hr' |]. unfold cell_of; simpl.
  destruct (index_of label (columns df)) as [i |] eqn:Hi; [| reflexivity].
  apply nth_insert_other. intros ->. apply Hne. symmetry.
  by apply (index_of_inj _ _ _ _ Hi' Hi).
Qed.

Lemma map_column_fractional_not_Ok (label : string) (df df' : DataFrame)
    (r : list cell) (q : Q) :
  df_empty df = false -> has_column label df = true ->
  r ∈ rows df ->
  to_numeric (cell_of df label r) = Some q -> fractional q ->
  map_column label to_Int64 df <> Ok df'.
Proof.
  intros He Hc Hr Hq Hfrac H.
  rewrite (map_column_fractional _ _ _ _ He Hc Hr Hq Hfrac) in H. discriminate.
Qed.

(** X3.  [normalize_dataframes] does not turn an identifier that is a
    number with a fractional part into a missing value, nor does it
    truncate it: when an identifier cell of a table with rows reads as
    such a number, no store is returned, an exception is raised and the
    page stops.  For the [plantio_id] of the plantings, the first column
    cast, the exception is [TypeError]. *)
Theorem normalize_dataframes_fractional (st : Store) (df : DataFrame) (label : string)
    (r : list cell) (q : Q) :
  (df, label) ∈ id_columns st ->
  df_empty df = false -> has_column label df = true ->
  r ∈ rows df ->
  to_numeric (cell_of df label r) = Some q -> fractional q ->
  (exists e, normalize_dataframes st = Raise e)
  /\ (df = plantios st -> label = "plantio_id" ->
      normalize_dataframes st = Raise TypeError).
Proof.
  intros Hin He Hc Hr Hq Hfrac. split.
  - destruct (normalize_dataframes st) as [st' | e] eqn:H; [exfalso | by exists e].
    unfold normalize_dataframes in H.
    apply bind_Ok in H as (p1 & Hp1 & H).
    apply bind_Ok in H as (p2 & Hp2 & H).
    apply bind_Ok in H as (p3 & Hp3 & H).
    apply bind_Ok in H as (c1 & Hc1 & H).
    apply bind_Ok in H as (c2 & Hc2 & H).
    apply bind_Ok in H as (o & Ho & H).
    apply bind_Ok in H as (e & Hev & H).
    apply bind_Ok in H as (b & Hb & H).
    apply bind_Ok in H as (s & Hs & _).
    unfold id_columns in Hin.
    repeat (apply elem_of_cons in Hin as [[= -> ->] | Hin]); [.. | inversion Hin].
    + exact (map_column_fractional_not_Ok _ _ _ _ _ He Hc Hr Hq Hfrac Hp1).
    + destruct (map_column_cell_image "canteiro_id" "plantio_id" _ _ _ r
                  ltac:(discriminate) Hp1 Hr) as (r' & Hr' & Hcell).
      pose proof (map_column_shape_guard "canteiro_id" _ _ _ _ Hp1) as Hg.
      rewrite He, Hc in Hg. simpl in Hg. apply andb_true_iff in Hg as [Hg Hg'].
      apply negb_true_iff in Hg.
      refine (map_column_fractional_not_Ok _ _ _ r' q Hg Hg' Hr' _ Hfrac Hp2).
      by rewrite Hcell.
    + destruct (map_column_cell_image "especie_id" "plantio_id" _ _ _ r
                  ltac:(discriminate) Hp1 Hr) as (r1 & Hr1 & Hcell1).
      destruct (map_column_cell_image "especie_id" "canteiro_id" _ _ _ r1
                  ltac:(discriminate) Hp2 Hr1) as (r2 & Hr2 & Hcell2).
      pose proof (map_column_shape_guard "especie_id" _ _ _ _ Hp1) as Hg1.
      pose proof (map_column_shape_guard "especie_id" _ _ _ _ Hp2) as Hg2.
      rewrite Hg1, He, Hc in Hg2. simpl in Hg2. apply andb_true_iff in Hg2 as [Hg2 Hg2'].
      apply negb_true_iff in Hg2.
      refine (map_column_fractional_not_Ok _ _ _ r2 q Hg2 Hg2' Hr2 _ Hfrac Hp3).
      by rewrite Hcell2, Hcell1.
    + exact (map_column_fractional_not_Ok _ _ _ _ _ He Hc Hr Hq Hfrac Hc1).
    + exact (map_column_fractional_not_Ok _ _ _ _ _ He Hc Hr Hq Hfrac Ho).
    + exact (map_column_fractional_not_Ok _ _ _ _ _ He Hc Hr Hq Hfrac Hev).
    + exact (map_column_fractional_not_Ok _ _ _ _ _ He Hc Hr Hq Hfrac Hb).
    + exact (map_column_fractional_not_Ok _ _ _ _ _ He Hc Hr Hq Hfrac Hs).
  - intros -> ->. unfold normalize_dataframes.
    by rewrite (map_column_fractional _ _ _ _ He Hc Hr Hq Hfrac).
Qed.

(** ** The selection made by [filter_plantios] *)

Lemma eq_str_true (text : string) (c : cell) : eq_str text c = true <-> c = CStr text.
Proof.
  destruct c as [| | s | |]; simpl; try (split; [discriminate | discriminate]).
  rewrite String.eqb_eq. split; [by intros -> | by intros [= ->]].
Qed.

Lemma cell_of_columns (a b : DataFrame) (label : string) (r : list cell) :
  columns a = columns b -> cell_of a label r = cell_of b label r.
Proof. unfold cell_of. by intros ->. Qed.

Lemma has_column_columns (a b : DataFrame) (label : string) :
  columns a = columns b -> has_column label a = has_column label b.
Proof. unfold has_column. by intros ->. Qed.

Lemma filter_eq_columns (all_label sel label : string) (df : DataFrame) :
  columns (filter_eq all_label sel label df) = columns df.
Proof.
  unfold filter_eq.
  destruct (negb (String.eqb sel all_label) && has_column label df); reflexivity.
Qed.

Lemma filter_eq_rows (all_label sel label : string) (df : DataFrame) (r : list cell) :
  r ∈ rows (filter_eq all_label sel label df) <->
  r ∈ rows df
  /\ (sel = all_label \/ has_column label df = false \/ cell_of df label r = CStr sel).
Proof.
  unfold filter_eq. destruct (String.eqb_spec sel all_label) as [-> | Hne]; simpl.
  - tauto.
  - destruct (has_column label df) eqn:Hc.
    + rewrite loc_series, list_elem_of_filter, Is_true_true, eq_str_true.
      split; [tauto |]. intros [Hr [? | [? | ?]]]; [done | done | tauto].
    + tauto.
Qed.

Lemma filter_eq_sublist (all_label sel label : string) (df : DataFrame) :
  rows (filter_eq all_label sel label df) `sublist_of` rows df.
Proof.
  unfold filter_eq.
  destruct (negb (String.eqb sel all_label) && has_column label df); [| reflexivity].
  rewrite loc_series. apply sublist_filter.
Qed.

Lemma filter_plantios_rows (crit : Criteria) (df : DataFrame) (s e : Z) :
  df_empty df = false ->
  date_bounds (date_range crit) = Ok (s, e) ->
  has_column "data_plantio" df = true ->
  exists pf,
    filter_plantios crit df = Ok pf
    /\ columns pf = columns df
    /\ rows pf `sublist_of` rows df
    /\ forall r, r ∈ rows pf <-> r ∈ rows df /\ passes crit s e df r.
Proof.
  intros He Hb Hc. unfold filter_plantios. rewrite He, Hb. simpl. rewrite Hc; simpl.
  eexists. split; [reflexivity |].
  set (d0 := loc df (map (in_period s e) (series "data_plantio" df))).
  set (d1 := filter_eq "Todas" (especie_sel crit) "especie_nome" d0).
  set (d2 := filter_eq "Todos" (canteiro_sel crit) "canteiro_nome" d1).
  assert (C0 : columns d0 = columns df) by reflexivity.
  assert (C1 : columns d1 = columns df) by (unfold d1; by rewrite filter_eq_columns).
  assert (C2 : columns d2 = columns df) by (unfold d2; by rewrite filter_eq_columns).
  split; [by rewrite filter_eq_columns |]. split.
  - etransitivity; [apply filter_eq_sublist |].
    etransitivity; [apply filter_eq_sublist |].
    etransitivity; [apply filter_eq_sublist |].
    unfold d0. rewrite loc_series. apply sublist_filter.
  - intros r. rewrite filter_eq_rows. unfold d2 at 1. rewrite filter_eq_rows.
    unfold d1 at 1. rewrite filter_eq_rows. unfold d0 at 1.
    rewrite loc_series, list_elem_of_filter, Is_true_true.
    rewrite (has_column_columns d2 df _ C2), (cell_of_columns d2 df _ _ C2).
    rewrite (has_column_columns d1 df _ C1), (cell_of_columns d1 df _ _ C1).
    rewrite (has_column_columns d0 df _ C0), (cell_of_columns d0 df _ _ C0).
    unfold passes. tauto.
Qed.

Lemma filter_plantios_no_date (crit : Criteria) (df : DataFrame) (s e : Z) :
  df_empty df = false ->
  date_bounds (date_range crit) = Ok (s, e) ->
  has_column "data_plantio" df = false -> filter_plantios crit df = Ok df.
Proof. intros He Hb Hc. unfold filter_plantios. rewrite He, Hb. simpl. by rewrite Hc. Qed.

(** X4.  On a planting table that has rows and a [data_plantio] column
    of parsed dates, [filter_plantios] keeps the rows, in their order,
    that pass all the filters together: planting day within the period,
    both bounds included, and species, bed and responsible equal to the
    choice made, a filter left on "Todas"/"Todos" or naming a column the
    table lacks being skipped.  On a table without the [data_plantio]
    column no filter at all is applied. *)
Theorem filter_plantios_conjunction (crit : Criteria) (df : DataFrame) (s e : Z) :
  df_empty df = false ->
  date_bounds (date_range crit) = Ok (s, e) ->
  (has_column "data_plantio" df = true ->
   date_column "data_plantio" df = true ->
   exists pf,
     filter_plantios crit df = Ok pf
     /\ columns pf = columns df
     /\ rows pf `sublist_of` rows df
     /\ forall r, r ∈ rows pf <-> r ∈ rows df /\ passes crit s e df r)
  /\ (has_column "data_plantio" df = false -> filter_plantios crit df = Ok df).
Proof.
  intros He Hb. split.
  - intros Hc _. by apply filter_plantios_rows.
  - by apply (filter_plantios_no_date crit df s e).
Qed.

Lemma filter_all {A : Type} (Pr : A -> Prop) `{forall x, Decision (Pr x)} (l : list A) :
  (forall x, x ∈ l -> Pr x) -> filter Pr l = l.
Proof.
  induction l as [| a l IH]; intros Hl; [reflexivity |].
  rewrite filter_cons_True by (apply Hl; left).
  f_equal. apply IH. intros x Hx. apply Hl. by right.
Qed.

Lemma loc_all (df : DataFrame) (label : string) (f : cell -> bool) :
  (forall r, r ∈ rows df -> f (cell_of df label r) = true) ->
  loc df (map f (series label df)) = df.
Proof.
  intros H. destruct df as [cols rs]. unfold loc. f_equal.
  change (rows (loc (mkDataFrame cols rs) (map f (series label (mkDataFrame cols rs)))) = rs).
  rewrite loc_series. apply filter_all. intros r Hr. apply Is_true_true. by apply H.
Qed.

Lemma filter_eq_all (all_label sel label : string) (df : DataFrame) :
  (forall r, r ∈ rows df ->
     sel = all_label \/ has_column label df = false \/ cell_of df label r = CStr sel) ->
  filter_eq all_label sel label df = df.
Proof.
  intros H. unfold filter_eq.
  destruct (String.eqb_spec sel all_label) as [-> | Hne]; simpl; [reflexivity |].
  destruct (has_column label df) eqn:Hc; [| reflexivity].
  apply loc_all. intros r Hr. apply eq_str_true.
  destruct (H r Hr) as [? | [? | ?]]; [done | done | assumption].
Qed.

(** X5.  On a planting table whose [data_plantio] column holds parsed
    dates, [filter_plantios] is idempotent: filtering the filtered
    plantings again, with the same filters, returns them unchanged, and
    their [data_plantio] column still holds parsed dates. *)
Theorem filter_plantios_idempotent (crit : Criteria) (df pf : DataFrame) :
  date_column "data_plantio" df = true ->
  filter_plantios crit df = Ok pf ->
  filter_plantios crit pf = Ok pf /\ date_column "data_plantio" pf = true.
Proof.
  intros Hdate H.
  assert (Hkeep : forall pf', columns pf' = columns df ->
                    (forall r, r ∈ rows pf' -> r ∈ rows df) ->
                    date_column "data_plantio" pf' = true).
  { intros pf' Hcols Hsub. unfold date_column in *.
    rewrite forallb_forall in Hdate. apply forallb_forall. intros c Hc.
    apply Hdate. apply list_elem_of_In. apply list_elem_of_In in Hc.
    unfold series in *. apply list_elem_of_fmap in Hc as (r & -> & Hr).
    rewrite (cell_of_columns pf' df _ _ Hcols).
    by apply (list_elem_of_fmap_2 (cell_of df "data_plantio")), Hsub. }
  split; [| destruct (df_empty df) eqn:He].
  3: { destruct (date_bounds (date_range crit)) as [[s e] | x] eqn:Hb;
         [| unfold filter_plantios in H; rewrite He, Hb in H; discriminate].
       destruct (has_column "data_plantio" df) eqn:Hc.
       - destruct (filter_plantios_rows crit df s e He Hb Hc)
           as (pf' & Hpf & Hcols & _ & Hrows).
         rewrite Hpf in H. injection H as <-.
         apply Hkeep; [exact Hcols |]. intros r Hr. by apply Hrows in Hr as [Hr _].
       - rewrite (filter_plantios_no_date crit df s e He Hb Hc) in H.
         by injection H as <-. }
  2: { unfold filter_plantios in H. rewrite He in H. by injection H as <-. }
  destruct (df_empty df) eqn:He.
  { unfold filter_plantios in H. rewrite He in H. injection H as <-.
    unfold filter_plantios. by rewrite He. }
  destruct (date_bounds (date_range crit)) as [[s e] | x] eqn:Hb;
    [| unfold filter_plantios in H; rewrite He, Hb in H; discriminate].
  destruct (has_column "data_plantio" df) eqn:Hc.
  - destruct (filter_plantios_rows crit df s e He Hb Hc) as (pf' & Hpf & Hcols & _ & Hrows).
    rewrite Hpf in H. injection H as <-.
    unfold filter_plantios. destruct (df_empty pf') eqn:He'; [reflexivity |].
    rewrite Hb. simpl. rewrite (has_column_columns pf' df _ Hcols), Hc. simpl.
    assert (Hpass : forall r, r ∈ rows pf' -> passes crit s e pf' r).
    { intros r Hr. apply Hrows in Hr as [_ (H1 & H2 & H3 & H4)].
      unfold passes.
      rewrite !(has_column_columns pf' df _ Hcols), !(cell_of_columns pf' df _ _ Hcols).
      auto. }
    rewrite loc_all by (intros r Hr; apply (Hpass r Hr)).
    rewrite (filter_eq_all "Todas" _ "especie_nome" pf')
      by (intros r Hr; apply (Hpass r Hr)).
    rewrite (filter_eq_all "Todos" _ "canteiro_nome" pf')
      by (intros r Hr; apply (Hpass r Hr)).
    rewrite (filter_eq_all "Todos" _ "responsavel" pf')
      by (intros r Hr; apply (Hpass r Hr)).
    reflexivity.
  - rewrite (filter_plantios_no_date crit df s e He Hb Hc) in H. injection H as <-.
    by apply (filter_plantios_no_date crit df s e).
Qed.

(** ** The views and the selection they come from *)

Lemma plantio_ids_of_elem (pf : DataFrame) (z : Z) :
  z ∈ plantio_ids_of pf ->
  df_empty pf = false
  /\ exists p q, p ∈ rows pf
       /\ to_numeric (cell_of pf "plantio_id" p) = Some q
       /\ astype_int q = z.
Proof.
  unfold plantio_ids_of. destruct (df_empty pf); simpl; [set_solver |].
  destruct (has_column "plantio_id" pf); [| set_solver].
  rewrite elem_of_list_to_set, list_elem_of_omap.
  intros (c & Hc & Hz). unfold series in Hc.
  apply list_elem_of_fmap in Hc as (p & -> & Hp).
  split; [reflexivity |].
  destruct (to_numeric (cell_of pf "plantio_id" p)) as [q |] eqn:Hq; [| discriminate].
  injection Hz as <-. eauto.
Qed.

Lemma filter_plantios_subset (crit : Criteria) (df pf : DataFrame) :
  filter_plantios crit df = Ok pf ->
  columns pf = columns df /\ rows pf `sublist_of` rows df.
Proof.
  intros H. destruct (df_empty df) eqn:He.
  { unfold filter_plantios in H. rewrite He in H. by injection H as <-. }
  destruct (date_bounds (date_range crit)) as [[s e] | x] eqn:Hb;
    [| unfold filter_plantios in H; rewrite He, Hb in H; discriminate].
  destruct (has_column "data_plantio" df) eqn:Hc.
  - destruct (filter_plantios_rows crit df s e He Hb Hc) as (pf' & Hpf & Hcols & Hsub & _).
    rewrite Hpf in H. by injection H as <-.
  - rewrite (filter_plantios_no_date crit df s e He Hb Hc) in H. by injection H as <-.
Qed.

Lemma whole_column_subset (label : string) (a b : DataFrame) :
  columns a = columns b -> rows a `sublist_of` rows b ->
  whole_column label b -> whole_column label a.
Proof.
  intros Hc Hs Hw r Hr. rewrite (cell_of_columns a b _ _ Hc). apply Hw.
  by apply (elem_of_sublist _ _ _ Hr Hs).
Qed.

Lemma whole_cell_key (c : cell) (k : key) :
  whole_or_missing c = true -> cell_key c = Some k -> exists z, c = CInt z /\ k = KNum z 1.
Proof. destruct c; try discriminate. intros _ [= <-]. eauto. Qed.

Lemma propagate_columns (ids : gset Z) (df : DataFrame) :
  df_empty df = false -> has_column "plantio_id" df = true ->
  columns (filter_by_plantios_table ids (Some df)) = columns df.
Proof. intros He Hc. unfold filter_by_plantios_table. by rewrite He, Hc. Qed.

Lemma propagate_keys_selected (pf child : DataFrame) (k : key) :
  whole_column "plantio_id" pf -> whole_column "plantio_id" child ->
  df_empty child = false -> has_column "plantio_id" child = true ->
  k ∈ omap cell_key
        (series "plantio_id" (filter_by_plantios_table (plantio_ids_of pf) (Some child))) ->
  k ∈ omap cell_key (series "plantio_id" pf).
Proof.
  intros Wp Wc He Hc Hk.
  apply list_elem_of_omap in Hk as (c & Hcin & Hck).
  unfold series in Hcin. apply list_elem_of_fmap in Hcin as (r & -> & Hr).
  rewrite (cell_of_columns _ child _ _ (propagate_columns _ _ He Hc)) in Hck.
  rewrite (propagate_rows _ _ Hc) in Hr.
  apply list_elem_of_filter in Hr as [Hsel Hr].
  destruct (whole_cell_key _ _ (Wc r Hr) Hck) as (z & Hz & ->).
  unfold id_in_selection in Hsel. apply bool_decide_unpack in Hsel.
  rewrite Hz in Hsel. simpl in Hsel. rewrite astype_int_inject_Z in Hsel.
  apply plantio_ids_of_elem in Hsel as (_ & p & q & Hp & Hq & Hzq).
  apply list_elem_of_omap. exists (cell_of pf "plantio_id" p). split.
  - unfold series. by apply list_elem_of_fmap_2.
  - pose proof (Wp p Hp) as Hw.
    destruct (cell_of pf "plantio_id" p) as [z' | | | |]; try discriminate.
    simpl in Hq. injection Hq as <-. rewrite astype_int_inject_Z in Hzq. by subst.
Qed.

(** X6.  On the dashboard of [app_enhanced.py] the number of plantings
    with a harvest never exceeds the number of plantings selected: the
    two KPIs are counted on views that agree. *)
Theorem dashboard_colhidos_le_plantios (crit : Criteria) (loaded : Store) (d : Dashboard) :
  dashboard crit loaded = Ok d ->
  (plantios_colhidos (dash_kpis d) <= total_plantios (dash_kpis d))%nat.
Proof.
  unfold dashboard. intros H.
  apply bind_Ok in H as (st1 & Hst1 & H).
  apply bind_Ok in H as (st2 & Hst2 & H).
  apply bind_Ok in H as (v & Hv & H).
  apply bind_Ok in H as (cards & Hcards & H).
  injection H as <-. cbn [dash_kpis].
  assert (Hnorm : whole_column "plantio_id" (plantios st2)
                  /\ whole_column "plantio_id" (colheitas st2)).
  { unfold normalize_dataframes in Hst2.
    apply bind_Ok in Hst2 as (p1 & Hp1 & Hst2).
    apply bind_Ok in Hst2 as (p2 & Hp2 & Hst2).
    apply bind_Ok in Hst2 as (p3 & Hp3 & Hst2).
    apply bind_Ok in Hst2 as (c1 & Hc1 & Hst2).
    apply bind_Ok in Hst2 as (c2 & Hc2 & Hst2).
    apply bind_Ok in Hst2 as (o & Ho & Hst2).
    apply bind_Ok in Hst2 as (e & He & Hst2).
    apply bind_Ok in Hst2 as (b & Hb & Hst2).
    apply bind_Ok in Hst2 as (s & Hs & Hst2).
    injection Hst2 as <-. simpl. split.
    - apply (map_column_other "plantio_id" "especie_id" _ _ _ ltac:(discriminate) Hp3).
      apply (map_column_other "plantio_id" "canteiro_id" _ _ _ ltac:(discriminate) Hp2).
      apply (map_column_whole _ _ _ _ to_Int64_whole Hp1).
    - apply (map_column_other "plantio_id" "quantidade_colhida" _ _ _
               ltac:(discriminate) Hc2).
      apply (map_column_whole _ _ _ _ to_Int64_whole Hc1). }
  destruct Hnorm as [Wp Wc].
  destruct (views_Ok _ _ _ Hv) as (Hids & Hcf & _ & _ & Hpf).
  destruct (filter_plantios_subset _ _ _ Hpf) as [Hcols Hsub].
  pose proof (whole_column_subset _ _ _ Hcols Hsub Wp) as Wpf.
  unfold dashboard_kpis. cbn [plantios_colhidos total_plantios].
  rewrite Hcf, Hids.
  destruct (df_empty (plantios_f v)) eqn:Hepf.
  { assert (Hempty : plantio_ids_of (plantios_f v) = ∅)
      by (unfold plantio_ids_of; by rewrite Hepf).
    rewrite Hempty.
    by rewrite (plantios_colhidos_empty_selection (colheitas st2)). }
  simpl negb. cbv iota.
  destruct (has_column "plantio_id" (colheitas st2)) eqn:Hcc.
  - destruct (df_empty (colheitas st2)) eqn:Hec.
    + unfold filter_by_plantios_table at 1. rewrite Hec. simpl. lia.
    + destruct (negb _ && _); [| lia].
      rewrite <- (series_length "plantio_id" (plantios_f v)).
      apply nunique_le_referred. intros k Hk.
      by apply (propagate_keys_selected _ (colheitas st2)).
  - assert (Hno : has_column "plantio_id"
                    (filter_by_plantios_table (plantio_ids_of (plantios_f v))
                       (Some (colheitas st2))) = false).
    { unfold filter_by_plantios_table.
      destruct (df_empty (colheitas st2)); [reflexivity |]. by rewrite Hcc. }
    rewrite Hno, andb_false_r. lia.
Qed.

(** X7.  The filtered views refer to the selection: a row of the
    harvests, observations or events kept by the propagation is a row of
    the table, in its place, and the whole number read in its
    [plantio_id] is the one read in the [plantio_id] of a selected
    planting. *)
Theorem views_refer_to_selection (crit : Criteria) (st : Store) (v : Views) :
  views crit st = Ok v ->
  forall child child_f,
    (child, child_f) ∈ child_views st v ->
    has_column "plantio_id" child = true ->
    rows child_f `sublist_of` rows child
    /\ forall r, r ∈ rows child_f ->
         exists p q,
           p ∈ rows (plantios_f v)
           /\ to_numeric (cell_of (plantios_f v) "plantio_id" p) = Some q
           /\ astype_int q = id_read (cell_of child "plantio_id" r).
Proof.
  intros Hv child child_f Hin Hc.
  destruct (views_Ok _ _ _ Hv) as (Hids & Hcf & Hof & Hef & _).
  assert (Hchild : child_f = filter_by_plantios_table (plantio_ids_of (plantios_f v))
                               (Some child)).
  { unfold child_views in Hin. rewrite <- Hids.
    repeat (apply elem_of_cons in Hin as [[= -> ->] | Hin]); [done | done | done |].
    inversion Hin. }
  rewrite Hchild, (propagate_rows _ _ Hc). split; [apply sublist_filter |].
  intros r Hr. apply list_elem_of_filter in Hr as [Hsel _].
  unfold id_in_selection in Hsel. apply bool_decide_unpack in Hsel.
  apply plantio_ids_of_elem in Hsel as (_ & p & q & Hp & Hq & Hz).
  exists p, q. auto.
Qed.

(** ** The joins *)

Lemma flat_map_extends (J : list cell -> list (list cell)) (l : list (list cell)) :
  (forall r, J r <> [] /\ forall r', r' ∈ J r -> r `prefix_of` r') ->
  (forall r, r ∈ l -> exists r', r' ∈ flat_map J l /\ r `prefix_of` r')
  /\ (forall r', r' ∈ flat_map J l -> exists r, r ∈ l /\ r `prefix_of` r')
  /\ (length l <= length (flat_map J l))%nat.
Proof.
  intros HJ. induction l as [| a l (IH1 & IH2 & IH3)]; simpl.
  - split; [intros r Hr; inversion Hr |]. split; [intros r Hr; inversion Hr | lia].
  - destruct (HJ a) as [Hne Hpre]. split; [| split].
    + intros r [-> | Hr]%elem_of_cons.
      * destruct (J a) as [| x xs] eqn:Ea; [done |].
        exists x. split; [left | apply Hpre; left].
      * destruct (IH1 r Hr) as (r' & Hr' & Hp). exists r'. split; [| exact Hp].
        apply elem_of_app. by right.
    + intros r' [Hr' | Hr']%elem_of_app.
      * exists a. split; [left | by apply Hpre].
      * destruct (IH2 r' Hr') as (r & Hr & Hp). exists r. split; [by right | exact Hp].
    + rewrite length_app. destruct (J a); [done | simpl; lia].
Qed.

Lemma flat_map_singletons {A B : Type} (J : A -> list B) (l : list A) :
  (forall r, r ∈ l -> length (J r) = 1%nat) -> length (flat_map J l) = length l.
Proof.
  induction l as [| a l IH]; intros H; simpl; [reflexivity |].
  rewrite length_app, (H a) by left. rewrite IH; [reflexivity |].
  intros r Hr. apply H. by right.
Qed.

Lemma df_merge_left_extends (on : string) (left right m : DataFrame) :
  df_merge Left on left right = Ok m ->
  extends_rows left m
  /\ (unique_key on right -> length (rows m) = length (rows left)).
Proof.
  unfold df_merge.
  destruct (negb (has_column on left && has_column on right)); [discriminate |].
  destruct (negb _ && negb (df_empty left) && negb (df_empty right)); [discriminate |].
  intros [= <-]. simpl. split.
  - apply flat_map_extends. intros r.
    destruct (filter _ (rows right)) as [| x xs]; simpl.
    + split; [discriminate |]. intros r' ->%list_elem_of_singleton.
      by apply prefix_app_r.
    + split; [discriminate |]. intros r' Hr'.
      apply (list_elem_of_fmap (fun r'0 => r ++ drop_cell right on r'0) (x :: xs))
        in Hr' as (y & -> & _).
      by apply prefix_app_r.
  - intros Hu. apply flat_map_singletons. intros r _.
    specialize (Hu (cell_of left on r)).
    destruct (filter _ (rows right)) as [| x [| y ys]]; simpl in *; [reflexivity .. | lia].
Qed.

Lemma filter_map_length {A B : Type} (f : B -> bool) (g : A -> B) (l : list A) :
  length (filter (fun y => f y) (map g l)) = length (filter (fun x => f (g x)) l).
Proof.
  induction l as [| a l IH]; simpl; [reflexivity |].
  rewrite !filter_cons. destruct (f (g a)) eqn:E.
  - rewrite !decide_True by exact I. simpl. by rewrite IH.
  - rewrite !decide_False by (intros []). exact IH.
Qed.

Lemma add_name_extends (key name new : string) (names df df' : DataFrame) :
  key <> name ->
  add_name key name new names df = Ok df' ->
  extends_rows df df'
  /\ (unique_key key names -> length (rows df') = length (rows df)).
Proof.
  intros Hkn. unfold add_name.
  destruct (negb (df_empty df) && has_column key df && negb (df_empty names)).
  - intros H. apply bind_Ok in H as (right & Hright & H).
    destruct (df_merge_left_extends _ _ _ _ H) as [Hext Hlen].
    split; [exact Hext |]. intros Hu. apply Hlen.
    unfold select in Hright.
    destruct (filter _ [key; name]); [| discriminate]. injection Hright as <-.
    intros c. specialize (Hu c).
    set (right := rename name new _).
    assert (Hcell : forall a b, cell_of right key [a; b] = a).
    { intros a b. unfold cell_of, right, rename; simpl.
      assert (Hk : String.eqb key name = false) by (by apply String.eqb_neq).
      by rewrite Hk, (String.eqb_refl key). }
    change (rows right)
      with (map (fun r => [cell_of names key r; cell_of names name r]) (rows names)).
    rewrite (filter_map_length
               (fun r' => key_match c (cell_of right key r'))
               (fun r => [cell_of names key r; cell_of names name r])).
    erewrite list_filter_iff; [exact Hu |].
    intros r. simpl. by rewrite Hcell.
  - intros [= <-]. split; [| reflexivity].
    split; [| split; [| lia]]; intros r Hr; exists r; done.
Qed.

Lemma extends_rows_trans (a b c : DataFrame) :
  extends_rows a b -> extends_rows b c -> extends_rows a c.
Proof.
  intros (A1 & A2 & A3) (B1 & B2 & B3). split; [| split; [| lia]].
  - intros r Hr. destruct (A1 r Hr) as (r1 & Hr1 & P1).
    destruct (B1 r1 Hr1) as (r2 & Hr2 & P2). exists r2. split; [done |].
    by etransitivity.
  - intros r2 Hr2. destruct (B2 r2 Hr2) as (r1 & Hr1 & P2).
    destruct (A2 r1 Hr1) as (r & Hr & P1). exists r. split; [done |].
    by etransitivity.
Qed.

(** X8.  The "basic joins" never drop a planting: every planting row is
    the beginning of a row of the joined table and conversely, so the
    joined table has at least as many rows; it has exactly as many when
    no bed id and no species id is repeated in its table (a repeated id
    repeats the plantings that carry it). *)
Theorem enrich_keeps_plantings (st st' : Store) :
  enrich st = Ok st' ->
  extends_rows (plantios st) (plantios st')
  /\ (unique_key "canteiro_id" (canteiros st) ->
      unique_key "especie_id" (especies st) ->
      length (rows (plantios st')) = length (rows (plantios st)))
  /\ canteiros st' = canteiros st /\ especies st' = especies st
  /\ colheitas st' = colheitas st /\ observ st' = observ st /\ eventos st' = eventos st.
Proof.
  unfold enrich. intros H.
  apply bind_Ok in H as (p1 & Hp1 & H).
  apply bind_Ok in H as (p2 & Hp2 & H). injection H as <-. simpl.
  destruct (add_name_extends "canteiro_id" "nome" "canteiro_nome" _ _ _
              ltac:(discriminate) Hp1) as [E1 L1].
  destruct (add_name_extends "especie_id" "nome_comum" "especie_nome" _ _ _
              ltac:(discriminate) Hp2) as [E2 L2].
  split; [by apply (extends_rows_trans _ p1) |].
  split; [| auto 10].
  intros U1 U2. by rewrite (L2 U2), (L1 U1).
Qed.


(** ** The pages and the dashboard *)

Lemma filter_iff_in {A : Type} (P1 P2 : A -> Prop)
    `{forall x, Decision (P1 x)} `{forall x, Decision (P2 x)} (l : list A) :
  (forall x, x ∈ l -> P1 x <-> P2 x) -> filter P1 l = filter P2 l.
Proof.
  induction l as [| a l IH]; intros Hl; [reflexivity |].
  assert (Ha : P1 a <-> P2 a) by (apply Hl; left).
  assert (Hrest : filter P1 l = filter P2 l).
  { apply IH. intros x Hx. apply Hl. by right. }
  destruct (decide (P1 a)) as [H1 | H1].
  - rewrite (filter_cons_True P1) by exact H1.
    rewrite (filter_cons_True P2) by (by apply Ha). by rewrite Hrest.
  - rewrite (filter_cons_False P1) by exact H1.
    rewrite (filter_cons_False P2) by (intros H2; apply H1; by apply Ha). exact Hrest.
Qed.

Lemma isin_plantios_rows (pf child : DataFrame) :
  rows (isin_plantios pf child)
  = filter (fun r => isin (series "plantio_id" pf) (cell_of child "plantio_id" r))
           (rows child).
Proof. unfold isin_plantios. apply loc_series. Qed.

(** X9.  With a planting view that has the [plantio_id] column and no
    row (no planting selected), the pages disagree on a child table with
    rows and a [plantio_id] column: the pages "Colheitas" and "Manejo"
    list the whole table, while the page "Observações" and the view of
    the dashboard list no row. *)
Theorem pages_on_empty_selection (pf child : DataFrame) :
  rows pf = [] ->
  has_column "plantio_id" pf = true ->
  df_empty child = false ->
  has_column "plantio_id" child = true ->
  pagina_colheitas pf child = child
  /\ pagina_manejo pf child = child
  /\ rows (pagina_observacoes pf child) = []
  /\ rows (filter_by_plantios_table (plantio_ids_of pf) (Some child)) = [].
Proof.
  intros Hr Hp He Hc.
  pose proof (df_empty_no_rows _ Hr) as Hep.
  unfold pagina_colheitas, pagina_manejo, pagina_observacoes, copy.
  cbv zeta. rewrite He. cbn [negb]. rewrite He. cbn [negb]. rewrite Hc, Hp, Hep.
  cbn [negb andb].
  split; [reflexivity |]. split; [reflexivity |]. split.
  - rewrite isin_plantios_rows. apply filter_none. intros r _.
    unfold series. rewrite Hr. intros [].
  - rewrite (plantio_ids_of_no_rows _ Hr). apply propagate_empty_selection. by right.
Qed.

Lemma isin_whole (s : list cell) (z : Z) :
  (forall x, x ∈ s -> whole_or_missing x = true) ->
  isin s (CInt z) = true <-> CInt z ∈ s.
Proof.
  intros Hw. rewrite isin_spec. split.
  - intros (x & Hx & Hm). unfold key_match in Hm. apply bool_decide_eq_true in Hm.
    specialize (Hw x Hx). destruct x; try discriminate.
    simpl in Hm. by injection Hm as ->.
  - intros Hin. exists (CInt z). split; [exact Hin |]. by apply bool_decide_eq_true.
Qed.

Lemma isin_missing (s : list cell) :
  isin s CNaN = true <-> CNaN ∈ s.
Proof.
  rewrite isin_spec. split.
  - intros (x & Hx & Hm). unfold key_match in Hm. apply bool_decide_eq_true in Hm.
    destruct x; try discriminate. exact Hx.
  - intros Hin. exists CNaN. split; [exact Hin |]. by apply bool_decide_eq_true.
Qed.

Lemma plantio_ids_of_whole (pf : DataFrame) (z : Z) :
  df_empty pf = false -> has_column "plantio_id" pf = true ->
  whole_column "plantio_id" pf ->
  z ∈ plantio_ids_of pf <-> CInt z ∈ series "plantio_id" pf.
Proof.
  intros He Hc Hw. unfold plantio_ids_of. rewrite He, Hc. simpl.
  rewrite elem_of_list_to_set, list_elem_of_omap. split.
  - intros (x & Hx & Hz).
    assert (Hwx : whole_or_missing x = true).
    { unfold series in Hx. apply list_elem_of_fmap in Hx as (r & -> & Hr). by apply Hw. }
    destruct x; try discriminate. simpl in Hz.
    rewrite astype_int_inject_Z in Hz. by injection Hz as <-.
  - intros Hin. exists (CInt z). split; [exact Hin |]. simpl.
    by rewrite astype_int_inject_Z.
Qed.

(** X10.  With whole-number identifiers (as the normalisation leaves
    them), a planting view with rows, and no selected planting whose id
    is missing or -1, the pages "Colheitas", "Manejo" and "Observações"
    list exactly the rows that the propagation keeps for the dashboard. *)
Theorem pages_agree_with_views (pf child : DataFrame) :
  whole_column "plantio_id" pf ->
  whole_column "plantio_id" child ->
  df_empty pf = false -> has_column "plantio_id" pf = true ->
  df_empty child = false -> has_column "plantio_id" child = true ->
  CNaN ∉ series "plantio_id" pf ->
  CInt (-1) ∉ series "plantio_id" pf ->
  rows (pagina_colheitas pf child)
  = rows (filter_by_plantios_table (plantio_ids_of pf) (Some child))
  /\ rows (pagina_manejo pf child)
     = rows (filter_by_plantios_table (plantio_ids_of pf) (Some child))
  /\ rows (pagina_observacoes pf child)
     = rows (filter_by_plantios_table (plantio_ids_of pf) (Some child)).
Proof.
  intros Wp Wc Hep Hp He Hc Hnan Hneg.
  assert (Hpage : rows (isin_plantios pf child)
                  = rows (filter_by_plantios_table (plantio_ids_of pf) (Some child))).
  { rewrite isin_plantios_rows, (propagate_rows _ _ Hc).
    apply filter_iff_in. intros r Hr.
    assert (Hws : forall x, x ∈ series "plantio_id" pf -> whole_or_missing x = true).
    { intros x Hx. unfold series in Hx.
      apply list_elem_of_fmap in Hx as (p & -> & Hp'). by apply Wp. }
    specialize (Wc r Hr). unfold id_in_selection.
    destruct (cell_of child "plantio_id" r) as [z | | | |] eqn:Hcell; try discriminate.
    - rewrite Is_true_true, (isin_whole _ _ Hws). simpl.
      rewrite astype_int_inject_Z, Is_true_true, bool_decide_eq_true.
      symmetry. by apply plantio_ids_of_whole.
    - rewrite Is_true_true, isin_missing. simpl.
      rewrite Is_true_true, bool_decide_eq_true.
      change (astype_int (-1)) with (-1)%Z.
      rewrite (plantio_ids_of_whole _ _ Hep Hp Wp). tauto. }
  unfold pagina_colheitas, pagina_manejo, pagina_observacoes, copy.
  cbv zeta. rewrite He. cbn [negb]. rewrite He. cbn [negb]. rewrite Hc, Hp, Hep.
  cbn [negb andb]. auto.
Qed.


(** ** The name of a saved photo *)

Lemma rstrip_sublist {U : Unicode} (s : list N) : rstrip s `sublist_of` s.
Proof.
  induction s as [| ch s IH]; [done |]. simpl.
  destruct (rstrip s) as [| c t] eqn:E.
  - destruct (isspace ch); [apply sublist_nil_l |].
    apply sublist_skip, sublist_nil_l.
  - by apply sublist_skip.
Qed.

Lemma rstrip_last {U : Unicode} (s : list N) (ch : N) :
  last (rstrip s) = Some ch -> isspace ch = false.
Proof.
  induction s as [| c s IH]; [discriminate |]. simpl.
  destruct (rstrip s) as [| c' t] eqn:E.
  - destruct (isspace c) eqn:Hc; [discriminate |]. simpl. by intros [= <-].
  - intros Hl. apply IH. exact Hl.
Qed.

Lemma rstrip_idem {U : Unicode} (s : list N) : rstrip (rstrip s) = rstrip s.
Proof.
  induction s as [| c s IH]; [reflexivity |]. simpl.
  destruct (rstrip s) as [| c' t] eqn:E.
  - destruct (isspace c) eqn:Hc; [reflexivity |]. simpl. by rewrite Hc.
  - change (rstrip (c :: c' :: t))
      with (match rstrip (c' :: t) with
            | [] => if isspace c then [] else [c]
            | t' => c :: t'
            end).
    by rewrite IH.
Qed.

(** X11.  The name under which an uploaded photo is saved is the
    uploaded name with characters left out, in the same order: every
    character that stays is alphanumeric, a space, a dot or an
    underscore, so neither [/] nor [\] stays; the name does not end in
    white space; and cleaning a cleaned name changes nothing. *)
Theorem safe_name_clean {U : Unicode} (name : list N) :
  safe_name name `sublist_of` name
  /\ (forall ch, ch ∈ safe_name name -> kept ch = true)
  /\ (47%N ∉ safe_name name)
  /\ (92%N ∉ safe_name name)
  /\ (forall ch, last (safe_name name) = Some ch -> isspace ch = false)
  /\ safe_name (safe_name name) = safe_name name.
Proof.
  assert (Hk : forall ch, ch ∈ safe_name name -> kept ch = true).
  { intros ch Hin. unfold safe_name in Hin.
    pose proof (elem_of_sublist _ _ _ Hin (rstrip_sublist _)) as Hin'.
    apply list_elem_of_filter in Hin' as [Hkept _].
    by apply Is_true_true. }
  split; [| split; [exact Hk | split; [| split; [| split]]]].
  - unfold safe_name. etrans; [apply rstrip_sublist |].
    apply sublist_filter.
  - intros Hin. apply Hk in Hin. discriminate.
  - intros Hin. apply Hk in Hin. discriminate.
  - intros ch. apply rstrip_last.
  - unfold safe_name at 1.
    rewrite (filter_all (fun ch => kept ch)).
    + unfold safe_name. apply rstrip_idem.
    + intros ch Hin. apply Is_true_true. by apply Hk.
Qed.


(** ** Grouped sums that leave out the missing key *)

Lemma group_rows_keyed (grp : string) (df : DataFrame) (k : option key) :
  k ≠ None ->
  group_rows grp df k
  = filter (fun r => bool_decide (cell_key (cell_of df grp r) = k)) (keyed_rows grp df).
Proof.
  intros Hk. unfold group_rows, keyed_rows. rewrite list_filter_filter.
  apply filter_iff_in. intros r _. rewrite !Is_true_true, !bool_decide_eq_true.
  split; [| tauto]. intros Heq. split; [exact Heq | congruence].
Qed.

Lemma group_keys_dropna (grp : string) (df : DataFrame) (k : option key) :
  k ∈ group_keys true grp df
  <-> k ≠ None /\ exists r, r ∈ rows df /\ cell_key (cell_of df grp r) = k.
Proof.
  unfold group_keys. rewrite elem_of_remove_dups, list_elem_of_filter. simpl.
  rewrite Is_true_true, bool_decide_eq_true. unfold series. rewrite map_map.
  rewrite list_elem_of_fmap. split.
  - intros [Hk (r & -> & Hr)]. eauto.
  - intros [Hk (r & Hr & <-)]. eauto.
Qed.

(** X13.  The grouped sum with the default [dropna=True], as [app2.py]
    computes it on a view with a numeric value column of whole numbers
    whose absolute values add up to at most 2^53 (so that every sum is
    exact): the result is in descending order of sum, it has no group
    for the missing key, every row with a key has its group in it, and
    its sums add up to the sum of the rows that have a key, so the rows
    with a missing key are left out of the total. *)
Theorem grouped_sum_dropna_True (grp val : string) (df : DataFrame) (vs : list num) :
  has_column grp df = true ->
  has_column val df = true ->
  mapM_result numeric_cell (series val df) = Ok vs ->
  exact_sums vs = true ->
  exists g,
    grouped_sum true grp val df = Ok g
    /\ Sorted sum_ge g
    /\ (None ∉ map fst g)
    /\ (forall r, r ∈ keyed_rows grp df -> cell_key (cell_of df grp r) ∈ map fst g)
    /\ (sumQ (map snd g)
        == series_sum (map (fun r => as_number (cell_of df val r)) (keyed_rows grp df)))%Q.
Proof.
  intros Hg Hv Hvs _.
  set (w := fun r => fillna 0 (as_number (cell_of df val r))).
  set (ks := group_keys true grp df).
  set (gs := map (fun k => (k, sumQ (map w (group_rows grp df k)))) ks).
  assert (Hnum : forall r, r ∈ rows df ->
            numeric_cell (cell_of df val r) = Ok (as_number (cell_of df val r))).
  { intros r Hr.
    destruct (mapM_result_each _ _ _ Hvs (cell_of df val r)) as (y & Hy).
    - unfold series. by apply list_elem_of_fmap_2.
    - by rewrite Hy, (numeric_cell_Ok _ _ Hy). }
  assert (Hgb : groupby_sum true grp val df = Ok gs).
  { unfold groupby_sum. rewrite Hg, Hv. simpl.
    apply mapM_result_total. intros k _.
    rewrite (mapM_result_total _ (fun r => as_number (cell_of df val r))).
    - simpl. unfold series_sum. by rewrite map_map.
    - intros r Hr. apply Hnum. unfold group_rows in Hr.
      by apply list_elem_of_filter in Hr as [_ Hr]. }
  assert (Hfst : map fst gs = ks).
  { unfold gs. rewrite map_map. simpl. apply map_id. }
  assert (Hperm : map fst (sort_values_desc gs) ≡ₚ ks).
  { rewrite <- Hfst. apply fmap_Permutation, merge_sort_Permutation. }
  exists (sort_values_desc gs). split; [| split; [| split; [| split]]].
  - unfold grouped_sum. by rewrite Hgb.
  - apply Sorted_merge_sort. apply _.
  - rewrite Hperm. unfold ks. rewrite group_keys_dropna. intros [Hk _]. by apply Hk.
  - intros r Hr. rewrite Hperm. unfold ks. apply group_keys_dropna.
    unfold keyed_rows in Hr. apply list_elem_of_filter in Hr as [Hk Hr].
    apply Is_true_true, bool_decide_eq_true in Hk. eauto.
  - unfold sort_values_desc.
    rewrite (sumQ_Permutation _ (map snd gs))
      by (apply fmap_Permutation, merge_sort_Permutation).
    unfold gs. rewrite map_map. simpl.
    unfold series_sum. rewrite map_map.
    rewrite (sumQ_ext _
              (fun k => sumQ (map w (filter
                 (fun r => bool_decide (cell_key (cell_of df grp r) = k))
                 (keyed_rows grp df))))).
    + apply (sumQ_partition (fun r => cell_key (cell_of df grp r)) w).
      * unfold ks, group_keys. apply NoDup_remove_dups.
      * intros r Hr. unfold ks. apply group_keys_dropna.
        unfold keyed_rows in Hr. apply list_elem_of_filter in Hr as [Hk Hr].
        apply Is_true_true, bool_decide_eq_true in Hk. eauto.
    + intros k Hk. unfold ks in Hk. apply group_keys_dropna in Hk as [Hk _].
      by rewrite (group_rows_keyed _ _ _ Hk).
Qed.


(** ** What the loader of [app_enhanced.py] reports *)

Lemma safe_load_messages (dir : data_dir) (name : string) (m : message) :
  m ∈ (safe_load dir name).2
  <-> (m = Arquivo_ausente name /\ dir !! name = None)
      \/ (m = Erro_ao_ler name
          /\ exists f e, dir !! name = Some f /\ read_parsed f = Raise e)
      \/ (m = Falha_ao_carregar name
          /\ exists f e1 e2, dir !! name = Some f /\ read_parsed f = Raise e1
                             /\ read_plain f = Raise e2).
Proof.
  unfold safe_load. destruct (dir !! name) as [f |] eqn:Hf.
  - destruct (read_parsed f) as [df | e1] eqn:H1.
    + simpl. split; [intros H; inversion H |].
      intros [[_ ?] | [[_ (f' & e & [= <-] & ?)] | [_ (f' & e & e' & [= <-] & ? & _)]]];
        congruence.
    + destruct (read_plain f) as [df | e2] eqn:H2; simpl.
      * rewrite list_elem_of_singleton. split.
        -- intros ->. right. left. eauto.
        -- intros [[_ ?] | [[-> _] | [_ (f' & e & e' & [= <-] & _ & ?)]]];
             [congruence | reflexivity | congruence].
      * rewrite elem_of_cons, list_elem_of_singleton. split.
        -- intros [-> | ->]; right; [left | right]; eauto 10.
        -- intros [[_ ?] | [[-> _] | [-> _]]]; [congruence | by left | by right].
  - simpl. rewrite list_elem_of_singleton. split.
    + intros ->. by left.
    + intros [[-> _] | [[_ (f' & e & ? & _)] | [_ (f' & e & e' & ? & _)]]];
        [reflexivity | congruence | congruence].
Qed.

Lemma load_enhanced_messages (dir : data_dir) :
  (load_enhanced dir).2 = sources ≫= (fun name => (safe_load dir name).2).
Proof.
  unfold load_enhanced, sources.
  destruct (safe_load dir "canteiros.csv") as [b m1] eqn:E1.
  destruct (safe_load dir "especies.csv") as [s m2] eqn:E2.
  destruct (safe_load dir "plantios.csv") as [p m3] eqn:E3.
  destruct (safe_load dir "observacoes.csv") as [o m4] eqn:E4.
  destruct (safe_load dir "colheitas.csv") as [c m5] eqn:E5.
  destruct (safe_load dir "eventos_manejo.csv") as [e m6] eqn:E6.
  simpl. by rewrite E1, E2, E3, E4, E5, E6, app_nil_r.
Qed.

Lemma load_enhanced_table (dir : data_dir) (name : string) :
  name ∈ sources ->
  source_table (load_enhanced dir).1 name = (safe_load dir name).1.
Proof.
  intros Hin. unfold load_enhanced.
  destruct (safe_load dir "canteiros.csv") as [b m1] eqn:E1.
  destruct (safe_load dir "especies.csv") as [s m2] eqn:E2.
  destruct (safe_load dir "plantios.csv") as [p m3] eqn:E3.
  destruct (safe_load dir "observacoes.csv") as [o m4] eqn:E4.
  destruct (safe_load dir "colheitas.csv") as [c m5] eqn:E5.
  destruct (safe_load dir "eventos_manejo.csv") as [e m6] eqn:E6.
  unfold sources in Hin.
  repeat (apply elem_of_cons in Hin as [-> | Hin]); [.. | inversion Hin];
    simpl; [by rewrite E1 | by rewrite E2 | by rewrite E3 | by rewrite E4
            | by rewrite E5 | by rewrite E6].
Qed.

(** X14.  The loader of [app_enhanced.py]: a source is reported as
    absent exactly when its file is missing, and as failed exactly when
    its file is there and can be read neither with nor without the dates
    parsed; a source reported either way gets the empty table; a source
    whose file is read, with or without dates, gets the table read; and
    nothing is reported exactly when the six files are there and read
    with their dates parsed. *)
Theorem load_enhanced_reports (dir : data_dir) :
  (forall name, Arquivo_ausente name ∈ (load_enhanced dir).2
                <-> name ∈ sources /\ dir !! name = None)
  /\ (forall name, Falha_ao_carregar name ∈ (load_enhanced dir).2
                   <-> name ∈ sources
                       /\ exists f e1 e2, dir !! name = Some f
                            /\ read_parsed f = Raise e1 /\ read_plain f = Raise e2)
  /\ (forall name, name ∈ sources ->
        Arquivo_ausente name ∈ (load_enhanced dir).2
        \/ Falha_ao_carregar name ∈ (load_enhanced dir).2 ->
        source_table (load_enhanced dir).1 name = pd_DataFrame)
  /\ (forall name f df, name ∈ sources -> dir !! name = Some f ->
        read_parsed f = Ok df
        \/ (exists e, read_parsed f = Raise e) /\ read_plain f = Ok df ->
        source_table (load_enhanced dir).1 name = df)
  /\ ((load_enhanced dir).2 = []
      <-> forall name, name ∈ sources ->
            exists f df, dir !! name = Some f /\ read_parsed f = Ok df).
Proof.
  assert (Hmsg : forall m, m ∈ (load_enhanced dir).2
                   <-> exists name, m ∈ (safe_load dir name).2 /\ name ∈ sources).
  { intros m. rewrite load_enhanced_messages. apply list_elem_of_bind. }
  assert (Haus : forall name, Arquivo_ausente name ∈ (load_enhanced dir).2
                   <-> name ∈ sources /\ dir !! name = None).
  { intros name. rewrite Hmsg. split.
    - intros (n & Hm & Hn). apply safe_load_messages in Hm
        as [[[= ->] ?] | [[? _] | [? _]]]; [done | discriminate | discriminate].
    - intros [Hn Hd]. exists name. split; [| exact Hn].
      apply safe_load_messages. by left. }
  assert (Hfal : forall name, Falha_ao_carregar name ∈ (load_enhanced dir).2
                   <-> name ∈ sources
                       /\ exists f e1 e2, dir !! name = Some f
                            /\ read_parsed f = Raise e1 /\ read_plain f = Raise e2).
  { intros name. rewrite Hmsg. split.
    - intros (n & Hm & Hn). apply safe_load_messages in Hm
        as [[? _] | [[? _] | [[= ->] ?]]]; [discriminate | discriminate | done].
    - intros [Hn Hd]. exists name. split; [| exact Hn].
      apply safe_load_messages. right. by right. }
  split; [exact Haus |]. split; [exact Hfal |]. split; [| split].
  - intros name Hn Hrep. rewrite (load_enhanced_table _ _ Hn).
    destruct Hrep as [H | H].
    + apply Haus in H as [_ Hd]. unfold safe_load. by rewrite Hd.
    + apply Hfal in H as (_ & f & e1 & e2 & Hd & H1 & H2).
      unfold safe_load. by rewrite Hd, H1, H2.
  - intros name f df Hn Hd Hread. rewrite (load_enhanced_table _ _ Hn).
    unfold safe_load. rewrite Hd.
    destruct Hread as [H1 | [(e & H1) H2]]; rewrite H1; [reflexivity |].
    by rewrite H2.
  - split.
    + intros Hnil name Hn.
      destruct (dir !! name) as [f |] eqn:Hd.
      * destruct (read_parsed f) as [df | e] eqn:H1; [eauto |].
        assert (Hin : Erro_ao_ler name ∈ (load_enhanced dir).2).
        { apply Hmsg. exists name. split; [| exact Hn].
          apply safe_load_messages. right. left. eauto. }
        rewrite Hnil in Hin. inversion Hin.
      * assert (Hin : Arquivo_ausente name ∈ (load_enhanced dir).2)
          by (by apply Haus).
        rewrite Hnil in Hin. inversion Hin.
    + intros Hall. destruct (load_enhanced dir).2 as [| m ms] eqn:E; [reflexivity |].
      assert (Hin : m ∈ m :: ms) by left.
      apply Hmsg in Hin as (name & Hm & Hn).
      destruct (Hall name Hn) as (f & df & Hd & H1).
      apply safe_load_messages in Hm
        as [[_ ?] | [[_ (f' & e & ? & ?)] | [_ (f' & e & e' & ? & ? & _)]]];
        congruence.
Qed.


(** ** The filters of [app2.py] *)

Lemma column_Ok (label : string) (df : DataFrame) (col : list cell) :
  column label df = Ok col -> has_column label df = true /\ col = series label df.
Proof.
  unfold column. destruct (has_column label df); [| discriminate].
  by intros [= <-].
Qed.

Lemma mapM_result_Ok_map {A B : Type} (f : A -> result B) (g : A -> B)
    (l : list A) (l' : list B) :
  (forall x y, f x = Ok y -> y = g x) -> mapM_result f l = Ok l' -> l' = map g l.
Proof.
  intros Hfg. revert l'. induction l as [| a l IH]; simpl; intros l' H.
  - by injection H as <-.
  - apply bind_Ok in H as (b & Hb & H).
    apply bind_Ok in H as (bs & Hbs & H). injection H as <-.
    by rewrite (Hfg _ _ Hb), (IH _ Hbs).
Qed.

Lemma to_datetime_raise_Ok (c : cell) (d : option Z) :
  App2.to_datetime_raise c = Ok d -> d = to_datetime c.
Proof.
  destruct c as [z | q | s | d' |]; simpl; try congruence.
  destruct (str_to_date s); [congruence | discriminate].
Qed.

Lemma app2_filter_eq_Ok (all_label sel label : string) (p p' : DataFrame) :
  App2.filter_eq all_label sel label p = Ok p' ->
  columns p' = columns p
  /\ rows p' `sublist_of` rows p
  /\ forall r, r ∈ rows p' <->
       r ∈ rows p /\ (sel = all_label \/ cell_of p label r = CStr sel).
Proof.
  unfold App2.filter_eq. destruct (String.eqb_spec sel all_label) as [-> | Hne]; simpl.
  - intros [= <-]. split; [reflexivity |]. split; [reflexivity |]. tauto.
  - intros H. apply bind_Ok in H as (col & Hcol & H). injection H as <-.
    apply column_Ok in Hcol as [_ ->].
    split; [reflexivity |]. split.
    + rewrite loc_series. apply sublist_filter.
    + intros r. rewrite loc_series, list_elem_of_filter, Is_true_true, eq_str_true.
      split; [tauto |]. intros [Hr [? | ?]]; [done | tauto].
Qed.

(** X15.  The filters of [app2.py], when they succeed: the result has
    the columns of the planting table and its rows are rows of the
    planting table, in the same order; a planting is selected exactly when
    its planting day is in the period and it passes each of the four
    text filters that is set, and, when only the active plantings are
    asked for, when no harvest has its planting id. *)
Theorem app2_filtra_selection (crit : App2.Criteria) (st : Store) (p : DataFrame) :
  App2.filtra crit st = Ok p ->
  exists s e,
    App2.unpack (App2.period crit) = Ok (s, e)
    /\ columns p = columns (plantios st)
    /\ rows p `sublist_of` rows (plantios st)
    /\ forall r, r ∈ rows p <-> r ∈ rows (plantios st) /\ passes_app2 crit s e st r.
Proof.
  unfold App2.filtra. intros H.
  apply bind_Ok in H as ([s e] & Hse & H).
  apply bind_Ok in H as (col & Hcol & H). apply column_Ok in Hcol as [_ ->].
  apply bind_Ok in H as (days & Hdays & H).
  apply (mapM_result_Ok_map _ to_datetime _ _ to_datetime_raise_Ok) in Hdays as ->.
  cbv zeta in H. unfold copy in H. rewrite map_map in H.
  set (inp := fun c => match to_datetime c with
                       | Some d => (s <=? d) && (d <=? e)
                       | None => false
                       end) in H.
  set (p0 := loc (plantios st) (map inp (series "data_plantio" (plantios st)))) in H.
  apply bind_Ok in H as (p1 & H1 & H). apply app2_filter_eq_Ok in H1 as (C1 & S1 & R1).
  apply bind_Ok in H as (p2 & H2 & H). apply app2_filter_eq_Ok in H2 as (C2 & S2 & R2).
  apply bind_Ok in H as (p3 & H3 & H). apply app2_filter_eq_Ok in H3 as (C3 & S3 & R3).
  apply bind_Ok in H as (p4 & H4 & H). apply app2_filter_eq_Ok in H4 as (C4 & S4 & R4).
  assert (C0 : columns p0 = columns (plantios st)) by reflexivity.
  assert (S0 : rows p0 `sublist_of` rows (plantios st)).
  { unfold p0. rewrite loc_series. apply sublist_filter. }
  assert (R0 : forall r, r ∈ rows p0 <->
             r ∈ rows (plantios st)
             /\ exists d, to_datetime (cell_of (plantios st) "data_plantio" r) = Some d
                          /\ s <= d <= e).
  { intros r. unfold p0. rewrite loc_series, list_elem_of_filter, Is_true_true.
    unfold inp. destruct (to_datetime (cell_of (plantios st) "data_plantio" r)) as [d |].
    - rewrite andb_true_iff, !Z.leb_le. split.
      + intros [Hd Hr]. eauto.
      + intros [Hr (d' & [= <-] & Hd)]. tauto.
    - split; [intros [? _]; discriminate | intros [_ (d' & ? & _)]; discriminate]. }
  assert (C : columns p4 = columns (plantios st)) by congruence.
  assert (R : forall r, r ∈ rows p4 <->
            r ∈ rows (plantios st)
            /\ (exists d, to_datetime (cell_of (plantios st) "data_plantio" r) = Some d
                          /\ s <= d <= e)
            /\ (App2.especie_sel crit = "Todas"
                \/ cell_of (plantios st) "especie_nome" r = CStr (App2.especie_sel crit))
            /\ (App2.canteiro_sel crit = "Todos"
                \/ cell_of (plantios st) "canteiro_nome" r = CStr (App2.canteiro_sel crit))
            /\ (App2.responsavel_sel crit = "Todos"
                \/ cell_of (plantios st) "responsavel" r = CStr (App2.responsavel_sel crit))
            /\ (App2.metodo_sel crit = "Todos"
                \/ cell_of (plantios st) "metodo" r = CStr (App2.metodo_sel crit))).
  { intros r. rewrite R4, R3, R2, R1, R0.
    rewrite (cell_of_columns p3 (plantios st)) by congruence.
    rewrite (cell_of_columns p2 (plantios st)) by congruence.
    rewrite (cell_of_columns p1 (plantios st)) by congruence.
    rewrite (cell_of_columns p0 (plantios st)) by congruence.
    tauto. }
  exists s, e. split; [exact Hse |].
  destruct (App2.only_active crit) eqn:Hact.
  - apply bind_Ok in H as (hs & Hhs & H). apply column_Ok in Hhs as [_ ->].
    apply bind_Ok in H as (ids & Hids & H). apply column_Ok in Hids as [_ ->].
    injection H as <-.
    split; [exact C |]. split.
    + rewrite loc_series. etrans; [apply sublist_filter |].
      etrans; [exact S4 |]. etrans; [exact S3 |]. etrans; [exact S2 |].
      etrans; [exact S1 |]. exact S0.
    + intros r. rewrite loc_series, list_elem_of_filter, R, Is_true_true.
      rewrite (cell_of_columns p4 (plantios st)) by exact C.
      rewrite negb_true_iff. unfold passes_app2. rewrite Hact.
      assert (Hu : isin (unique (series "plantio_id" (colheitas st)))
                     (cell_of (plantios st) "plantio_id" r)
                   = isin (series "plantio_id" (colheitas st))
                       (cell_of (plantios st) "plantio_id" r)).
      { apply eq_true_iff_eq. rewrite isin_unique, isin_spec. reflexivity. }
      rewrite Hu. tauto.
  - injection H as <-. split; [exact C |]. split.
    + etrans; [exact S4 |]. etrans; [exact S3 |]. etrans; [exact S2 |].
      etrans; [exact S1 |]. exact S0.
    + intros r. rewrite R. unfold passes_app2. rewrite Hact.
      split; [| tauto]. intros (? & ? & ? & ? & ? & ?).
      repeat (split; [assumption |]). discriminate.
Qed.


(** ** The counts of the bed cards *)

Lemma nunique_le_nunique (hs ps : list cell) :
  (forall k, k ∈ omap cell_key hs -> k ∈ omap cell_key ps) ->
  (nunique hs <= nunique ps)%nat.
Proof.
  intros Hsub. unfold nunique.
  apply submseteq_length, NoDup_submseteq; [apply NoDup_remove_dups |].
  intros k Hk. rewrite elem_of_remove_dups in Hk. apply elem_of_remove_dups. by apply Hsub.
Qed.

Lemma dict_get_map (f : key -> nat) (ks : list key) (k : key) :
  dict_get (map (fun k => (k, f k)) ks) (Some k) = if decide (k ∈ ks) then f k else O.
Proof.
  unfold dict_get. induction ks as [| a ks IH].
  - destruct (decide (k ∈ [])) as [H | _]; [by apply not_elem_of_nil in H | reflexivity].
  - cbn [map find fst]. case_bool_decide as Ha.
    + subst a. destruct (decide (k ∈ k :: ks)) as [_ | H]; [reflexivity |].
      exfalso. apply H. left.
    + rewrite IH. destruct (decide (k ∈ ks)) as [Hin | Hnin].
      * destruct (decide (k ∈ a :: ks)) as [_ | H]; [reflexivity |].
        exfalso. apply H. by right.
      * destruct (decide (k ∈ a :: ks)) as [H | _]; [| reflexivity].
        apply elem_of_cons in H as [-> | H]; contradiction.
Qed.

Lemma groupby_nunique_get (grp val : string) (df : DataFrame) (d : list (key * nat))
    (k : key) :
  groupby_nunique grp val df = Ok d ->
  dict_get d (Some k)
  = nunique (map (cell_of df val)
               (filter (fun r => bool_decide (cell_key (cell_of df grp r) = Some k))
                       (rows df))).
Proof.
  unfold groupby_nunique.
  destruct (negb (has_column grp df)); [discriminate |].
  destruct (negb (has_column val df)); [discriminate |].
  intros [= <-].
  rewrite (dict_get_map
             (fun k => nunique (map (cell_of df val)
                          (filter (fun r => bool_decide (cell_key (cell_of df grp r) = Some k))
                                  (rows df))))).
  destruct (decide (k ∈ remove_dups (omap cell_key (series grp df)))) as [Hin | Hnin];
    [reflexivity |].
  rewrite filter_none; [reflexivity |].
  intros r Hr Hk. apply Is_true_true, bool_decide_eq_true in Hk.
  apply Hnin, elem_of_remove_dups, list_elem_of_omap.
  exists (cell_of df grp r). split; [| exact Hk].
  unfold series. by apply list_elem_of_fmap_2.
Qed.

Lemma groupby_nunique_columns (grp val : string) (df : DataFrame) (d : list (key * nat)) :
  groupby_nunique grp val df = Ok d ->
  has_column grp df = true /\ has_column val df = true.
Proof.
  unfold groupby_nunique.
  destruct (has_column grp df); [| discriminate].
  destruct (has_column val df); [| discriminate]. auto.
Qed.

Lemma index_of_lt (a : string) (l : list string) (i : nat) :
  index_of a l = Some i -> (i < length l)%nat.
Proof.
  revert i. induction l as [| c l IH]; intros i; simpl; [discriminate |].
  destruct (String.eqb a c).
  - intros [= <-]. lia.
  - destruct (index_of a l) as [j |]; [| discriminate].
    simpl. intros [= <-]. specialize (IH j eq_refl). lia.
Qed.

Lemma index_of_app_l (a : string) (l l' : list string) (i : nat) :
  index_of a l = Some i -> index_of a (l ++ l') = Some i.
Proof.
  revert i. induction l as [| c l IH]; intros i; simpl; [discriminate |].
  destruct (String.eqb a c); [done |].
  destruct (index_of a l) as [j |]; [| discriminate].
  simpl. intros [= <-]. by rewrite (IH j eq_refl).
Qed.

Lemma index_of_app_r (a : string) (l l' : list string) :
  a ∉ l -> index_of a (l ++ l') = (fun i => (length l + i)%nat) <$> index_of a l'.
Proof.
  induction l as [| c l IH]; intros Hnin; simpl.
  - destruct (index_of a l'); reflexivity.
  - destruct (String.eqb_spec a c) as [-> | Hne].
    + exfalso. apply Hnin. left.
    + rewrite IH by (intros Hin; apply Hnin; by right).
      destruct (index_of a l'); reflexivity.
Qed.

Lemma well_formed_length (df : DataFrame) (r : list cell) :
  well_formed df = true -> r ∈ rows df -> length r = length (columns df).
Proof.
  unfold well_formed. rewrite forallb_forall. intros H Hr.
  apply Nat.eqb_eq, H. by apply list_elem_of_In.
Qed.


Lemma select_pair_Ok (a b : string) (df right : DataFrame) :
  select [a; b] df = Ok right ->
  has_column a df = true /\ has_column b df = true
  /\ right = {| columns := [a; b];
                rows := map (fun r => [cell_of df a r; cell_of df b r]) (rows df) |}.
Proof.
  unfold select.
  destruct (has_column a df) eqn:Ha.
  - rewrite filter_cons_False by (rewrite Ha; intros []).
    destruct (has_column b df) eqn:Hb.
    + rewrite filter_cons_False by (rewrite Hb; intros []).
      rewrite filter_nil. by intros [= <-].
    + rewrite filter_cons_True by (rewrite Hb; exact I). discriminate.
  - rewrite filter_cons_True by (rewrite Ha; exact I). discriminate.
Qed.

Lemma df_merge_inner_Ok (on : string) (left right m : DataFrame) :
  df_merge Inner on left right = Ok m ->
  has_column on left = true
  /\ columns m
     = map (fun c => if bool_decide
                         (c ∈ filter (fun c => negb (String.eqb c on)) (columns right))
                     then c +:+ "_x" else c) (columns left)
       ++ map (fun c => if bool_decide (c ∈ columns left) then c +:+ "_y" else c)
              (filter (fun c => negb (String.eqb c on)) (columns right))
  /\ forall x, x ∈ rows m ->
       exists r r', r ∈ rows left /\ r' ∈ rows right
                    /\ key_match (cell_of left on r) (cell_of right on r') = true
                    /\ x = r ++ drop_cell right on r'.
Proof.
  unfold df_merge.
  destruct (has_column on left) eqn:Hl; [| discriminate].
  destruct (has_column on right) eqn:Hr; [| discriminate].
  cbn [andb negb].
  destruct (negb (eqb (is_object (series on left)) (is_object (series on right)))
            && negb (df_empty left) && negb (df_empty right)); [discriminate |].
  intros [= <-]. cbn [columns rows].
  split; [reflexivity |]. split; [reflexivity |].
  intros x Hx. apply list_elem_of_In, in_flat_map in Hx as (r & Hr' & Hx).
  apply list_elem_of_In in Hr', Hx.
  destruct (filter (fun r' => key_match (cell_of left on r) (cell_of right on r'))
                   (rows right)) as [| c l] eqn:Ef; [inversion Hx |].
  change (x ∈ map (fun r' => r ++ drop_cell right on r') (c :: l)) in Hx.
  apply list_elem_of_fmap in Hx as (r' & -> & Hin).
  rewrite <- Ef in Hin. apply list_elem_of_filter in Hin as [Hm Hin].
  exists r, r'. split; [exact Hr' |]. split; [exact Hin |].
  split; [by apply Is_true_true | reflexivity].
Qed.

Lemma merged_harvest_cells (cf pf right merged : DataFrame) :
  select ["plantio_id"; "canteiro_id"] pf = Ok right ->
  df_merge Inner "plantio_id" cf right = Ok merged ->
  has_column "canteiro_id" merged = true ->
  well_formed cf = true ->
  forall m, m ∈ rows merged ->
    exists p, p ∈ rows pf
      /\ cell_key (cell_of merged "plantio_id" m) = cell_key (cell_of pf "plantio_id" p)
      /\ cell_of merged "canteiro_id" m = cell_of pf "canteiro_id" p.
Proof.
  intros Hsel Hm Hcol Hwf.
  apply select_pair_Ok in Hsel as (_ & _ & ->).
  apply df_merge_inner_Ok in Hm as (Hpid & Hcols & Hrows).
  cbn [columns] in Hcols.
  change (filter (fun c => negb (String.eqb c "plantio_id")) ["plantio_id"; "canteiro_id"])
    with ["canteiro_id"] in Hcols.
  assert (Hno : "canteiro_id" ∉ columns cf).
  { intros Hin. unfold has_column in Hcol. apply bool_decide_eq_true in Hcol.
    rewrite Hcols in Hcol. apply elem_of_app in Hcol as [Hc | Hc].
    - apply list_elem_of_fmap in Hc as (c & Hc & _).
      case_bool_decide as Hd.
      + apply list_elem_of_singleton in Hd as ->. discriminate.
      + apply Hd, list_elem_of_singleton. by symmetry.
    - cbn [map] in Hc. rewrite bool_decide_eq_true_2 in Hc by exact Hin.
      apply list_elem_of_singleton in Hc. discriminate. }
  assert (Hcols' : columns merged = columns cf ++ ["canteiro_id"]).
  { rewrite Hcols. f_equal.
    - rewrite <- (map_id (columns cf)) at 2. apply map_ext_in.
      intros c Hc. apply list_elem_of_In in Hc.
      rewrite bool_decide_eq_false_2; [reflexivity |].
      intros ->%list_elem_of_singleton. contradiction.
    - cbn [map]. by rewrite bool_decide_eq_false_2. }
  intros m Hin. destruct (Hrows m Hin) as (r & r' & Hr & Hr' & Hmatch & ->).
  cbn [rows] in Hr'. apply list_elem_of_fmap in Hr' as (p & -> & Hp).
  exists p. split; [exact Hp |].
  pose proof (well_formed_length _ _ Hwf Hr) as Hlen.
  destruct (has_column_index_Some _ _ Hpid) as (i & Hi).
  split.
  - unfold key_match in Hmatch. apply bool_decide_eq_true in Hmatch.
    change (cell_of _ "plantio_id" [cell_of pf "plantio_id" p; cell_of pf "canteiro_id" p])
      with (cell_of pf "plantio_id" p) in Hmatch.
    rewrite <- Hmatch. f_equal.
    unfold cell_of. rewrite Hcols', (index_of_app_l _ _ _ _ Hi), Hi.
    apply app_nth1. rewrite Hlen. by apply (index_of_lt "plantio_id").
  - unfold cell_of at 1. rewrite Hcols', (index_of_app_r _ _ _ Hno).
    change (index_of "canteiro_id" ["canteiro_id"]) with (Some 0%nat).
    cbn [fmap option_fmap option_map].
    change (drop_cell _ "plantio_id" [cell_of pf "plantio_id" p; cell_of pf "canteiro_id" p])
      with [cell_of pf "canteiro_id" p].
    rewrite <- Hlen, Nat.add_0_r. rewrite app_nth2 by lia.
    by rewrite Nat.sub_diag.
Qed.


Lemma bed_cards_counts (beds : DataFrame) (v : Views) (cards : list Card) (c : Card) :
  bed_cards beds v = Ok cards ->
  well_formed (colheitas_f v) = true ->
  c ∈ cards ->
  exists h t : nat,
    card_harvested c = Z.of_nat h /\ card_total c = Z.of_nat t /\ (h <= t)%nat
    /\ card_rate c = taxa_sucesso (Z.of_nat h) (Z.of_nat t).
Proof.
  unfold bed_cards. destruct (df_empty beds); [intros [= <-] _ Hc; inversion Hc |].
  cbv zeta. intros H Hwf Hc.
  apply bind_Ok in H as (totals & Ht & H).
  apply bind_Ok in H as (harvested & Hh & H). injection H as <-.
  apply list_elem_of_fmap in Hc as (b & -> & _).
  cbn [card_harvested card_total card_rate].
  eexists _, _. split; [reflexivity |]. split; [reflexivity |].
  split; [| reflexivity].
  destruct (cell_key (cell_of beds "canteiro_id" b)) as [k |]; [| reflexivity].
  destruct (negb (df_empty (colheitas_f v)) && has_column "plantio_id" (colheitas_f v)
            && negb (df_empty (plantios_f v)) && has_column "plantio_id" (plantios_f v))
    eqn:Hcond.
  - apply bind_Ok in Hh as (right & Hsel & Hh).
    apply bind_Ok in Hh as (merged & Hm & Hg).
    apply andb_true_iff in Hcond as [Hcond _].
    apply andb_true_iff in Hcond as [_ Hne].
    destruct (select_pair_Ok _ _ _ _ Hsel) as (_ & Hcid & _).
    rewrite Hne, Hcid in Ht. cbn [andb] in Ht.
    rewrite (groupby_nunique_get _ _ _ _ k Hg), (groupby_nunique_get _ _ _ _ k Ht).
    destruct (groupby_nunique_columns _ _ _ _ Hg) as [Hmc _].
    apply nunique_le_nunique. intros j Hj.
    apply list_elem_of_omap in Hj as (x & Hx & Hkey).
    apply list_elem_of_fmap in Hx as (m & -> & Hm').
    apply list_elem_of_filter in Hm' as [Hk Hm'].
    apply Is_true_true, bool_decide_eq_true in Hk.
    destruct (merged_harvest_cells _ _ _ _ Hsel Hm Hmc Hwf m Hm') as (p & Hp & Hpid & Hcan).
    apply list_elem_of_omap. exists (cell_of (plantios_f v) "plantio_id" p).
    split; [| by rewrite <- Hpid].
    apply list_elem_of_fmap_2, list_elem_of_filter. split; [| exact Hp].
    apply Is_true_true, bool_decide_eq_true. by rewrite <- Hcan.
  - injection Hh as <-. rewrite dict_get_nil. lia.
Qed.

(** X18.  On every bed card of [app_enhanced.py], with a rectangular
    harvest view: the number of harvested plantings is at most the number
    of plantings of the bed, both are natural numbers, and the rate is
    the number 0 for a bed with no planting in the selection and a
    fraction between 0 and 1 otherwise. *)
Theorem bed_cards_harvested_le_total (beds : DataFrame) (v : Views)
    (cards : list Card) (c : Card) :
  bed_cards beds v = Ok cards ->
  well_formed (colheitas_f v) = true ->
  c ∈ cards ->
  0 <= card_harvested c <= card_total c
  /\ (card_total c = 0 -> card_rate c = PyInt 0)
  /\ (0 < card_total c ->
      exists q, card_rate c = PyFloat q /\ (0 <= q)%Q /\ (q <= 1)%Q).
Proof.
  intros H Hwf Hc.
  destruct (bed_cards_counts _ _ _ _ H Hwf Hc) as (h & t & -> & -> & Hle & ->).
  split; [lia |]. split.
  - intros Ht. unfold taxa_sucesso. by rewrite Ht.
  - intros Ht.
    destruct (taxa_sucesso_range (Z.of_nat h) (Z.of_nat t)) as (q & Hq & H0 & H1);
      [lia | exact Ht |].
    exists q. split; [exact Hq |]. split; [exact H0 |]. apply H1. lia.
Qed.


(** ** The bed status of [app2.py] *)

Lemma nunique_same_keys (a b : list cell) :
  (forall k, k ∈ omap cell_key a <-> k ∈ omap cell_key b) -> nunique a = nunique b.
Proof.
  intros H. apply Nat.le_antisymm; apply nunique_le_nunique; intros k; apply H.
Qed.

Lemma remove_dups_NoDup {A : Type} `{EqDecision A} (l : list A) :
  NoDup l -> remove_dups l = l.
Proof.
  induction 1 as [| x l Hx _ IH]; simpl; [reflexivity |].
  destruct (decide_rel elem_of x l); [contradiction | by rewrite IH].
Qed.

Lemma omap_all_Some (l : list cell) :
  (forall c, c ∈ l -> cell_key c <> None) ->
  map cell_key l = map Some (omap cell_key l).
Proof.
  induction l as [| c l IH]; intros H; [reflexivity |].
  change (omap cell_key (c :: l))
    with (match cell_key c with
          | Some k => k :: omap cell_key l
          | None => omap cell_key l
          end).
  simpl. destruct (cell_key c) as [k |] eqn:Hk.
  - simpl. f_equal. apply IH. intros x Hx. apply H. by right.
  - exfalso. apply (H c); [left | exact Hk].
Qed.

Lemma nunique_distinct (l : list cell) :
  NoDup (map cell_key l) -> (forall c, c ∈ l -> cell_key c <> None) ->
  nunique l = length l.
Proof.
  intros Hnd Hsome. unfold nunique.
  pose proof (omap_all_Some _ Hsome) as Heq.
  rewrite Heq in Hnd. apply (NoDup_fmap_1 Some) in Hnd.
  rewrite (remove_dups_NoDup _ Hnd).
  rewrite <- (length_map Some), <- Heq. apply length_map.
Qed.

Lemma nth_key_only (on : string) (v : cell) (cols : list string) (i : nat) :
  index_of on cols = Some i ->
  nth i (map (fun c => if String.eqb c on then v else CNaN) cols) CNaN = v.
Proof.
  revert i. induction cols as [| c cols IH]; intros i; simpl; [discriminate |].
  destruct (String.eqb_spec on c) as [-> | Hne].
  - intros [= <-]. by rewrite String.eqb_refl.
  - destruct (index_of on cols) as [j |]; [| discriminate].
    simpl. intros [= <-]. by apply IH.
Qed.

Lemma merge_right_Ok (on : string) (left right m : DataFrame) :
  merge_right on left right = Ok m ->
  has_column on left = true
  /\ columns m
     = map (fun c => if bool_decide
                         (c ∈ filter (fun c => negb (String.eqb c on)) (columns right))
                     then c +:+ "_x" else c) (columns left)
       ++ map (fun c => if bool_decide (c ∈ columns left) then c +:+ "_y" else c)
              (filter (fun c => negb (String.eqb c on)) (columns right))
  /\ (forall x, x ∈ rows m ->
        exists r', r' ∈ rows right
          /\ ((exists r, r ∈ rows left
                 /\ key_match (cell_of left on r) (cell_of right on r') = true
                 /\ x = r ++ drop_cell right on r')
              \/ x = map (fun c => if String.eqb c on then cell_of right on r' else CNaN)
                         (columns left) ++ drop_cell right on r'))
  /\ (forall r', r' ∈ rows right ->
        exists x, x ∈ rows m
          /\ ((exists r, r ∈ rows left
                 /\ key_match (cell_of left on r) (cell_of right on r') = true
                 /\ x = r ++ drop_cell right on r')
              \/ x = map (fun c => if String.eqb c on then cell_of right on r' else CNaN)
                         (columns left) ++ drop_cell right on r')).
Proof.
  unfold merge_right.
  destruct (has_column on left) eqn:Hl; [| discriminate].
  destruct (has_column on right) eqn:Hr; [| discriminate].
  cbn [andb negb].
  destruct (negb (eqb (is_object (series on left)) (is_object (series on right)))
            && negb (df_empty left) && negb (df_empty right)); [discriminate |].
  intros [= <-]. cbn [columns rows].
  split; [reflexivity |]. split; [reflexivity |]. split.
  - intros x Hx. apply list_elem_of_In, in_flat_map in Hx as (r' & Hr' & Hx).
    apply list_elem_of_In in Hr', Hx. exists r'. split; [exact Hr' |].
    destruct (filter (fun r => key_match (cell_of left on r) (cell_of right on r'))
                     (rows left)) as [| c l] eqn:Ef.
    + apply list_elem_of_singleton in Hx. by right.
    + change (x ∈ map (fun r => r ++ drop_cell right on r') (c :: l)) in Hx.
      apply list_elem_of_fmap in Hx as (r & -> & Hin).
      rewrite <- Ef in Hin. apply list_elem_of_filter in Hin as [Hm Hin].
      left. exists r. split; [exact Hin |]. split; [by apply Is_true_true | reflexivity].
  - intros r' Hr'.
    destruct (filter (fun r => key_match (cell_of left on r) (cell_of right on r'))
                     (rows left)) as [| c l] eqn:Ef.
    + eexists. split; [| right; reflexivity].
      apply list_elem_of_In, in_flat_map. exists r'.
      split; [by apply list_elem_of_In |]. rewrite Ef. left. reflexivity.
    + assert (Hc : c ∈ filter (fun r => key_match (cell_of left on r) (cell_of right on r'))
                     (rows left)) by (rewrite Ef; left).
      apply list_elem_of_filter in Hc as [Hm Hc].
      exists (c ++ drop_cell right on r'). split.
      * apply list_elem_of_In, in_flat_map. exists r'.
        split; [by apply list_elem_of_In |]. rewrite Ef. left. reflexivity.
      * left. exists c. split; [exact Hc |].
        split; [by apply Is_true_true | reflexivity].
Qed.


Lemma colh_row_cells (cf colh : DataFrame) (i : nat) (x : list cell) (a b : cell) :
  columns colh = columns cf ++ ["canteiro_id"] ->
  index_of "plantio_id" (columns cf) = Some i ->
  "canteiro_id" ∉ columns cf ->
  (exists r, length r = length (columns cf)
             /\ key_match (cell_of cf "plantio_id" r) a = true /\ x = r ++ [b])
  \/ x = map (fun c => if String.eqb c "plantio_id" then a else CNaN) (columns cf) ++ [b] ->
  cell_key (cell_of colh "plantio_id" x) = cell_key a
  /\ cell_of colh "canteiro_id" x = b.
Proof.
  intros Hcols Hi Hno Hx.
  assert (Hlen : exists r, length r = length (columns cf) /\ x = r ++ [b]
                 /\ cell_key (nth i r CNaN) = cell_key a).
  { destruct Hx as [(r & Hlen & Hm & ->) | ->].
    - exists r. split; [exact Hlen |]. split; [reflexivity |].
      unfold key_match in Hm. apply bool_decide_eq_true in Hm.
      unfold cell_of in Hm. by rewrite Hi in Hm.
    - eexists. split; [apply length_map |]. split; [reflexivity |].
      by rewrite (nth_key_only _ _ _ _ Hi). }
  destruct Hlen as (r & Hlen & -> & Hkey). split.
  - unfold cell_of. rewrite Hcols, (index_of_app_l _ _ _ _ Hi).
    rewrite app_nth1; [exact Hkey |].
    rewrite Hlen. by apply (index_of_lt "plantio_id").
  - unfold cell_of. rewrite Hcols, (index_of_app_r _ _ _ Hno).
    change (index_of "canteiro_id" ["canteiro_id"]) with (Some 0%nat).
    cbn [fmap option_fmap option_map].
    rewrite <- Hlen, Nat.add_0_r. rewrite app_nth2 by lia.
    by rewrite Nat.sub_diag.
Qed.

Lemma colh_cells (cf pf right colh : DataFrame) :
  select ["plantio_id"; "canteiro_id"] pf = Ok right ->
  merge_right "plantio_id" cf right = Ok colh ->
  has_column "canteiro_id" colh = true ->
  well_formed cf = true ->
  (forall x, x ∈ rows colh ->
     exists p, p ∈ rows pf
       /\ cell_key (cell_of colh "plantio_id" x) = cell_key (cell_of pf "plantio_id" p)
       /\ cell_of colh "canteiro_id" x = cell_of pf "canteiro_id" p)
  /\ (forall p, p ∈ rows pf ->
        exists x, x ∈ rows colh
          /\ cell_key (cell_of colh "plantio_id" x) = cell_key (cell_of pf "plantio_id" p)
          /\ cell_of colh "canteiro_id" x = cell_of pf "canteiro_id" p).
Proof.
  intros Hsel Hm Hcol Hwf.
  apply select_pair_Ok in Hsel as (_ & _ & ->).
  apply merge_right_Ok in Hm as (Hpid & Hcols & Hrows & Hall).
  cbn [columns] in Hcols.
  change (filter (fun c => negb (String.eqb c "plantio_id")) ["plantio_id"; "canteiro_id"])
    with ["canteiro_id"] in Hcols.
  assert (Hno : "canteiro_id" ∉ columns cf).
  { intros Hin. unfold has_column in Hcol. apply bool_decide_eq_true in Hcol.
    rewrite Hcols in Hcol. apply elem_of_app in Hcol as [Hc | Hc].
    - apply list_elem_of_fmap in Hc as (c & Hc & _).
      case_bool_decide as Hd.
      + apply list_elem_of_singleton in Hd as ->. discriminate.
      + apply Hd, list_elem_of_singleton. by symmetry.
    - cbn [map] in Hc. rewrite bool_decide_eq_true_2 in Hc by exact Hin.
      apply list_elem_of_singleton in Hc. discriminate. }
  assert (Hcols' : columns colh = columns cf ++ ["canteiro_id"]).
  { rewrite Hcols. f_equal.
    - rewrite <- (map_id (columns cf)) at 2. apply map_ext_in.
      intros c Hc. apply list_elem_of_In in Hc.
      rewrite bool_decide_eq_false_2; [reflexivity |].
      intros ->%list_elem_of_singleton. contradiction.
    - cbn [map]. by rewrite bool_decide_eq_false_2. }
  destruct (has_column_index_Some _ _ Hpid) as (i & Hi).
  assert (Hshape : forall x p,
            (exists r, r ∈ rows cf
               /\ key_match (cell_of cf "plantio_id" r)
                    (cell_of {| columns := ["plantio_id"; "canteiro_id"];
                                rows := map (fun r => [cell_of pf "plantio_id" r;
                                                       cell_of pf "canteiro_id" r])
                                            (rows pf) |}
                       "plantio_id"
                       [cell_of pf "plantio_id" p; cell_of pf "canteiro_id" p]) = true
               /\ x = r ++ drop_cell
                          {| columns := ["plantio_id"; "canteiro_id"];
                             rows := map (fun r => [cell_of pf "plantio_id" r;
                                                    cell_of pf "canteiro_id" r])
                                         (rows pf) |}
                          "plantio_id"
                          [cell_of pf "plantio_id" p; cell_of pf "canteiro_id" p])
            \/ x = map (fun c => if String.eqb c "plantio_id"
                                 then cell_of
                                        {| columns := ["plantio_id"; "canteiro_id"];
                                           rows := map (fun r => [cell_of pf "plantio_id" r;
                                                                  cell_of pf "canteiro_id" r])
                                                       (rows pf) |}
                                        "plantio_id"
                                        [cell_of pf "plantio_id" p; cell_of pf "canteiro_id" p]
                                 else CNaN) (columns cf)
                   ++ drop_cell
                        {| columns := ["plantio_id"; "canteiro_id"];
                           rows := map (fun r => [cell_of pf "plantio_id" r;
                                                  cell_of pf "canteiro_id" r])
                                       (rows pf) |}
                        "plantio_id"
                        [cell_of pf "plantio_id" p; cell_of pf "canteiro_id" p] ->
            cell_key (cell_of colh "plantio_id" x) = cell_key (cell_of pf "plantio_id" p)
            /\ cell_of colh "canteiro_id" x = cell_of pf "canteiro_id" p).
  { intros x p Hx.
    apply (colh_row_cells cf colh i x _ _ Hcols' Hi Hno).
    destruct Hx as [(r & Hr & Hmatch & ->) | ->].
    - left. exists r. split; [by apply well_formed_length |].
      split; [exact Hmatch | reflexivity].
    - right. reflexivity. }
  split.
  - intros x Hx. destruct (Hrows x Hx) as (r' & Hr' & Hcase).
    cbn [rows] in Hr'. apply list_elem_of_fmap in Hr' as (p & -> & Hp).
    exists p. split; [exact Hp |]. by apply Hshape.
  - intros p Hp.
    destruct (Hall [cell_of pf "plantio_id" p; cell_of pf "canteiro_id" p])
      as (x & Hx & Hcase).
    { cbn [rows].
      by apply (list_elem_of_fmap_2
                  (fun r => [cell_of pf "plantio_id" r; cell_of pf "canteiro_id" r])). }
    exists x. split; [exact Hx |]. by apply Hshape.
Qed.


Lemma row_item_Ok (df : DataFrame) (label : string) (r : list cell) (c : cell) :
  row_item df label r = Ok c -> c = cell_of df label r.
Proof. unfold row_item. destruct (has_column label df); [by intros [= <-] | discriminate]. Qed.

Lemma status_row (st : Store) (l : list StatusRow) (s : StatusRow) :
  status_df st = Ok l ->
  well_formed (colheitas st) = true ->
  s ∈ l ->
  exists c, c ∈ rows (canteiros st)
    /\ status_total s = length (bed_plantings st (cell_of (canteiros st) "canteiro_id" c))
    /\ status_colh s
       = nunique (map (cell_of (plantios st) "plantio_id")
                      (bed_plantings st (cell_of (canteiros st) "canteiro_id" c)))
    /\ status_taxa s
       = App2.taxa_canteiro (Z.of_nat (status_colh s)) (Z.of_nat (status_total s)).
Proof.
  unfold status_df. intros H Hwf Hs.
  destruct (mapM_result_elem _ _ _ H s Hs) as (c & Hc & Hrow). clear H.
  exists c. split; [exact Hc |].
  apply bind_Ok in Hrow as (cid & Hcid & Hrow). apply row_item_Ok in Hcid as ->.
  apply bind_Ok in Hrow as (ids & Hids & Hrow). apply column_Ok in Hids as [_ ->].
  cbv zeta in Hrow.
  apply bind_Ok in Hrow as (right & Hsel & Hrow).
  apply bind_Ok in Hrow as (colh & Hm & Hrow).
  apply bind_Ok in Hrow as (beds & Hbeds & Hrow). apply column_Ok in Hbeds as [Hcol ->].
  apply bind_Ok in Hrow as (pids & Hpids & Hrow). apply column_Ok in Hpids as [_ ->].
  apply bind_Ok in Hrow as (nome & _ & Hrow). injection Hrow as <-.
  cbn [status_total status_colh status_taxa].
  set (cid := cell_of (canteiros st) "canteiro_id" c).
  split.
  { unfold series. rewrite map_map.
    by rewrite (loc_rows_map
                  (fun r => eq_scalar cid (cell_of (plantios st) "canteiro_id" r))). }
  split; [| reflexivity].
  destruct (colh_cells _ _ _ _ Hsel Hm Hcol Hwf) as [Hfrom Hto].
  assert (Hser : series "plantio_id" (loc colh (map (eq_scalar cid) (series "canteiro_id" colh)))
                 = map (cell_of colh "plantio_id")
                       (filter (fun x => eq_scalar cid (cell_of colh "canteiro_id" x))
                               (rows colh))).
  { unfold series at 1. by rewrite loc_series. }
  rewrite Hser. apply nunique_same_keys. intros k.
  rewrite !list_elem_of_omap. split.
  - intros (x & Hx & Hk). apply list_elem_of_fmap in Hx as (m & -> & Hm').
    apply list_elem_of_filter in Hm' as [Hbed Hm'].
    destruct (Hfrom m Hm') as (p & Hp & Hpid & Hcan).
    exists (cell_of (plantios st) "plantio_id" p). split; [| by rewrite <- Hpid].
    apply list_elem_of_fmap_2. unfold bed_plantings.
    apply list_elem_of_filter. split; [| exact Hp]. by rewrite <- Hcan.
  - intros (x & Hx & Hk). apply list_elem_of_fmap in Hx as (p & -> & Hp).
    unfold bed_plantings in Hp. apply list_elem_of_filter in Hp as [Hbed Hp].
    destruct (Hto p Hp) as (m & Hm' & Hpid & Hcan).
    exists (cell_of colh "plantio_id" m). split; [| by rewrite Hpid].
    apply list_elem_of_fmap_2, list_elem_of_filter. split; [| exact Hm'].
    by rewrite Hcan.
Qed.

(** X16.  The bed status of [app2.py], when it is computed and the
    harvest table is rectangular: for each status entry there is a bed
    such that the total is the number of plantings of the bed and the
    count shown as harvested is the number of distinct planting ids of
    these same plantings, so the harvest table has no part in it.  When
    the planting ids are distinct and none is missing, the harvested
    count is the total, and a bed with a planting has the rate 1. *)
Theorem app2_status_ignores_harvests (st : Store) (l : list StatusRow) (s : StatusRow) :
  status_df st = Ok l ->
  well_formed (colheitas st) = true ->
  s ∈ l ->
  exists c, c ∈ rows (canteiros st)
    /\ status_total s = length (bed_plantings st (cell_of (canteiros st) "canteiro_id" c))
    /\ status_colh s
       = nunique (map (cell_of (plantios st) "plantio_id")
                      (bed_plantings st (cell_of (canteiros st) "canteiro_id" c)))
    /\ (distinct_ids (plantios st) ->
        status_colh s = status_total s
        /\ (status_total s <> O ->
            exists q, status_taxa s = PyFloat q /\ (q == 1)%Q
                      /\ color_app2 (status_taxa s) = "#2ECC71")).
Proof.
  intros H Hwf Hs.
  destruct (status_row _ _ _ H Hwf Hs) as (c & Hc & Ht & Hh & Htaxa).
  exists c. split; [exact Hc |]. split; [exact Ht |]. split; [exact Hh |].
  intros [Hnd Hsome].
  assert (Heq : status_colh s = status_total s).
  { rewrite Hh, Ht. rewrite nunique_distinct; [apply length_map | |].
    - refine (sublist_NoDup _ _ Hnd _).
      unfold series. apply fmap_sublist, fmap_sublist.
      unfold bed_plantings. apply sublist_filter.
    - intros x Hx. apply list_elem_of_fmap in Hx as (p & -> & Hp).
      unfold bed_plantings in Hp. apply list_elem_of_filter in Hp as [_ Hp].
      by apply Hsome. }
  split; [exact Heq |]. intros Hpos.
  rewrite Htaxa, Heq. unfold App2.taxa_canteiro.
  assert (Hlt : 0 < Z.of_nat (status_total s)) by lia.
  rewrite (proj2 (Z.ltb_lt _ _) Hlt).
  assert (Hone : (truediv (Z.of_nat (status_total s)) (Z.of_nat (status_total s)) == 1)%Q).
  { unfold truediv. apply Qmult_inv_r.
    intros H0. unfold Qeq in H0. simpl in H0. lia. }
  eexists. split; [reflexivity |]. split; [exact Hone |].
  unfold color_app2, pynum_ge.
  assert (Hge : Qle_bool (6 # 10)
                  (truediv (Z.of_nat (status_total s)) (Z.of_nat (status_total s))) = true).
  { apply Qle_bool_iff. rewrite Hone. discriminate. }
  by rewrite Hge.
Qed.


(** ** The chart "Top espécies" *)

Lemma map_column_empty (label : string) (f : cell -> result cell) (df df' : DataFrame) :
  df_empty df = true -> map_column label f df = Ok df' -> df' = df.
Proof. unfold map_column. intros ->. simpl. by intros [= <-]. Qed.

Lemma inner_merge_no_column (cf right m : DataFrame) (label : string) :
  df_merge Inner "plantio_id" cf right = Ok m ->
  columns right = ["plantio_id"; "canteiro_id"] ->
  has_column label cf = false ->
  label <> "canteiro_id" -> label <> "canteiro_id_x" -> label <> "canteiro_id_y" ->
  has_column label m = false.
Proof.
  intros Hm Hr Hno H1 H2 H3.
  apply df_merge_inner_Ok in Hm as (_ & Hcols & _).
  rewrite Hr in Hcols.
  change (filter (fun c => negb (String.eqb c "plantio_id")) ["plantio_id"; "canteiro_id"])
    with ["canteiro_id"] in Hcols.
  unfold has_column in *. apply bool_decide_eq_false in Hno. apply bool_decide_eq_false.
  rewrite Hcols. intros [Hin | Hin]%elem_of_app.
  - apply list_elem_of_fmap in Hin as (c & Hc & Hin).
    case_bool_decide as Hd.
    + apply list_elem_of_singleton in Hd as ->. by apply H2.
    + subst c. contradiction.
  - cbn [map] in Hin. apply list_elem_of_singleton in Hin.
    case_bool_decide; subst label; [by apply H3 | by apply H1].
Qed.

(** X17.  With a bed table that has rows and a harvest view that has no
    [especie_nome] column, the chart "Top espécies por produção" is
    never drawn: when the test of the chart is reached, [merged] is
    either the empty table or the merge of the bed map, which has no
    [especie_nome] column, and the [KeyError] of the grouping is passed
    over. *)
Theorem top_sp_never_drawn (beds : DataFrame) (v : Views) (m : DataFrame) :
  df_empty beds = false ->
  has_column "especie_nome" (colheitas_f v) = false ->
  merged_at_charts beds v = Ok m ->
  top_sp m = None.
Proof.
  intros Hbeds Hno. unfold merged_at_charts. cbv zeta. intros H.
  apply bind_Ok in H as (m0 & Hm0 & H).
  apply bind_Ok in H as (m1 & Hm1 & H).
  apply bind_Ok in H as (cards & _ & H).
  rewrite Hbeds in H. cbn [negb andb] in H.
  assert (Hsame : negb (df_empty (colheitas_f v)) && negb (df_empty (plantios_f v))
                  && has_column "plantio_id" (colheitas_f v)
                  && has_column "plantio_id" (plantios_f v)
                  = negb (df_empty (colheitas_f v))
                    && has_column "plantio_id" (colheitas_f v)
                    && negb (df_empty (plantios_f v))
                    && has_column "plantio_id" (plantios_f v)).
  { destruct (df_empty (colheitas_f v)), (df_empty (plantios_f v)),
      (has_column "plantio_id" (colheitas_f v)); reflexivity. }
  rewrite Hsame in Hm0.
  destruct (negb (df_empty (colheitas_f v)) && has_column "plantio_id" (colheitas_f v)
            && negb (df_empty (plantios_f v)) && has_column "plantio_id" (plantios_f v)).
  2: { injection H as <-. injection Hm0 as <-.
       by rewrite (map_column_empty _ _ pd_DataFrame _ eq_refl Hm1). }
  apply bind_Ok in H as (right & Hsel & H).
  apply select_pair_Ok in Hsel as (_ & _ & ->).
  assert (Hcol : has_column "especie_nome" m = false).
  { apply (inner_merge_no_column _ _ _ _ H eq_refl Hno); discriminate. }
  unfold top_sp. destruct (negb (df_empty m) && has_column "quantidade_colhida" m);
    [| reflexivity].
  unfold grouped_sum, groupby_sum. by rewrite Hcol.
Qed.


(** X19.  With a harvest view that has no [canteiro_nome] column, the
    chart "Produtividade por área" is never drawn, whatever the bed
    table: with no bed the test of the chart fails, and with beds
    [merged] is either the empty table or the merge of the bed map, which
    has no [canteiro_nome] column, and the [KeyError] of the grouping is
    passed over. *)
Theorem prod_area_never_drawn (beds : DataFrame) (v : Views) (m : DataFrame) :
  has_column "canteiro_nome" (colheitas_f v) = false ->
  merged_at_charts beds v = Ok m ->
  prod_area beds m = None.
Proof.
  intros Hno. unfold merged_at_charts. cbv zeta. intros H.
  unfold prod_area.
  destruct (df_empty beds) eqn:Hbeds; [by rewrite andb_false_r |].
  apply bind_Ok in H as (m0 & Hm0 & H).
  apply bind_Ok in H as (m1 & Hm1 & H).
  apply bind_Ok in H as (cards & _ & H).
  cbn [negb andb] in H.
  assert (Hsame : negb (df_empty (colheitas_f v)) && negb (df_empty (plantios_f v))
                  && has_column "plantio_id" (colheitas_f v)
                  && has_column "plantio_id" (plantios_f v)
                  = negb (df_empty (colheitas_f v))
                    && has_column "plantio_id" (colheitas_f v)
                    && negb (df_empty (plantios_f v))
                    && has_column "plantio_id" (plantios_f v)).
  { destruct (df_empty (colheitas_f v)), (df_empty (plantios_f v)),
      (has_column "plantio_id" (colheitas_f v)); reflexivity. }
  rewrite Hsame in Hm0.
  destruct (negb (df_empty (colheitas_f v)) && has_column "plantio_id" (colheitas_f v)
            && negb (df_empty (plantios_f v)) && has_column "plantio_id" (plantios_f v)).
  2: { injection H as <-. injection Hm0 as <-.
       by rewrite (map_column_empty _ _ pd_DataFrame _ eq_refl Hm1). }
  apply bind_Ok in H as (right & Hsel & H).
  apply select_pair_Ok in Hsel as (_ & _ & ->).
  assert (Hcol : has_column "canteiro_nome" m = false).
  { apply (inner_merge_no_column _ _ _ _ H eq_refl Hno); discriminate. }
  destruct (negb (df_empty m) && negb false && has_column "area_m2" beds);
    [| reflexivity].
  cbv zeta. unfold groupby_sum. by rewrite Hcol.
Qed.


Lemma unique_key_NoDup (label : string) (df : DataFrame) :
  NoDup (map cell_key (series label df)) -> unique_key label df.
Proof.
  intros H c. unfold series in H. rewrite map_map in H.
  induction (rows df) as [| r rs IH]; [simpl; lia |].
  apply NoDup_cons in H as [Hnin Hnd].
  destruct (key_match c (cell_of df label r)) eqn:Hm.
  - rewrite filter_cons_True by (by apply Is_true_true).
    rewrite filter_none; [simpl; lia |].
    intros r' Hr' Hm'. apply Is_true_true in Hm'. apply Hnin.
    unfold key_match in Hm, Hm'.
    apply bool_decide_eq_true in Hm. apply bool_decide_eq_true in Hm'.
    rewrite <- Hm, Hm'.
    by apply (list_elem_of_fmap_2 (fun r => cell_key (cell_of df label r))).
  - rewrite filter_cons_False by (rewrite Hm; intros []). by apply IH.
Qed.


(** ** The bed cards in terms of the selection *)


Lemma plantings_in_bed_key (pf : DataFrame) (cid : cell) (k : key) :
  cell_key cid = Some k ->
  plantings_in_bed pf cid
  = filter (fun r => bool_decide (cell_key (cell_of pf "canteiro_id" r) = Some k)) (rows pf).
Proof. intros Hk. unfold plantings_in_bed, eq_scalar. by rewrite Hk. Qed.

Lemma plantings_in_bed_none (pf : DataFrame) (cid : cell) :
  cell_key cid = None \/ has_column "canteiro_id" pf = false ->
  plantings_in_bed pf cid = [].
Proof.
  intros H. unfold plantings_in_bed. apply filter_none. intros p _ Hp.
  unfold eq_scalar in Hp. destruct H as [H | H].
  - by rewrite H in Hp.
  - rewrite (cell_of_no_column _ _ _ H) in Hp. simpl in Hp.
    destruct (cell_key cid); destruct Hp.
Qed.

Lemma df_empty_cases (df : DataFrame) :
  df_empty df = true -> rows df = [] \/ forall label, has_column label df = false.
Proof.
  unfold df_empty. destruct (columns df) eqn:Hc.
  - intros _. right. intros label. unfold has_column. rewrite Hc.
    apply bool_decide_eq_false. apply not_elem_of_nil.
  - destruct (rows df); [by left | discriminate].
Qed.

Lemma totals_get (pf : DataFrame) (totals : list (key * nat)) (cid : cell) :
  (if negb (df_empty pf) && has_column "canteiro_id" pf
   then groupby_nunique "canteiro_id" "plantio_id" pf else Ok []) = Ok totals ->
  dict_get totals (cell_key cid) = bed_total pf cid.
Proof.
  intros H. unfold bed_total.
  destruct (cell_key cid) as [k |] eqn:Hk.
  2: { by rewrite (plantings_in_bed_none pf cid (or_introl Hk)). }
  destruct (df_empty pf) eqn:He.
  - injection H as <-. cbn [dict_get find fmap option_fmap option_map default].
    destruct (df_empty_cases _ He) as [Hr | Hc].
    + unfold plantings_in_bed. by rewrite Hr.
    + by rewrite (plantings_in_bed_none pf cid (or_intror (Hc _))).
  - destruct (has_column "canteiro_id" pf) eqn:Hc.
    + cbn [negb andb] in H. rewrite (groupby_nunique_get _ _ _ _ k H).
      by rewrite (plantings_in_bed_key _ _ _ Hk).
    + injection H as <-. by rewrite (plantings_in_bed_none pf cid (or_intror Hc)).
Qed.









Lemma bed_total_no_planting (pf : DataFrame) (cid : cell) :
  rows pf = [] -> bed_total pf cid = O.
Proof. intros H. unfold bed_total, plantings_in_bed. by rewrite H. Qed.


(** ** The dashboard, computed from the selection *)

Lemma selected_rows_empty (child : DataFrame) : selected_rows ∅ child = [].
Proof.
  unfold selected_rows. apply filter_none. intros r _ Hr.
  unfold id_in_selection in Hr. apply bool_decide_unpack in Hr. set_solver.
Qed.





(** ** The status of a bed *)

Lemma bed_cards_nth (beds : DataFrame) (v : Views) (cards : list Card)
    (i : nat) (b : list cell) :
  bed_cards beds v = Ok cards ->
  df_empty beds = false ->
  rows beds !! i = Some b ->
  exists c, cards !! i = Some c
    /\ card_total c = Z.of_nat (bed_total (plantios_f v) (cell_of beds "canteiro_id" b))
    /\ card_rate c = rate (card_harvested c) (card_total c)
    /\ card_color c = color (card_rate c).
Proof.
  unfold bed_cards. intros H He Hb. rewrite He in H. cbv zeta in H.
  apply bind_Ok in H as (totals & Ht & H).
  apply bind_Ok in H as (harvested & Hh & H). injection H as <-.
  eexists. split.
  { change (map ?f (rows beds)) with (f <$> rows beds).
    rewrite list_lookup_fmap, Hb. reflexivity. }
  cbn [card_total card_rate card_harvested card_color].
  by rewrite (totals_get _ _ _ Ht).
Qed.

(** C7.  The status of a bed is a function of its rate alone, with the
    lower bound of each band included: a rate of at least 0.60 is green
    (good), a rate of at least 0.25 and below 0.60 is yellow
    (attention), a rate below 0.25 is red (critical), in [app2.py] and in
    [app_enhanced.py]; a rate computed on a total of 0 is the number 0
    and is red.  In [app_enhanced.py] there is one card per bed, its
    total is the number of plantings of the bed in the current
    selection, and a bed with none has rate 0 and is red.  In [app2.py]
    the total of a bed is the number of its plantings in the planting
    table as loaded, whatever the selection, and it is on that total
    that the rate is 0 and red. *)
Theorem bed_status_bands (r : Q) :
  ((6 # 10 <= r)%Q ->
     color (PyFloat r) = "#1B5E20" /\ color_app2 (PyFloat r) = "#2ECC71"
     /\ legend (color (PyFloat r)) = Some Good
     /\ legend (color_app2 (PyFloat r)) = Some Good)
  /\ ((25 # 100 <= r)%Q -> (r < 6 # 10)%Q ->
     color (PyFloat r) = "#F57F17" /\ color_app2 (PyFloat r) = "#F1C40F"
     /\ legend (color (PyFloat r)) = Some Attention
     /\ legend (color_app2 (PyFloat r)) = Some Attention)
  /\ ((r < 25 # 100)%Q ->
     color (PyFloat r) = "#B71C1C" /\ color_app2 (PyFloat r) = "#E74C3C"
     /\ legend (color (PyFloat r)) = Some CriticalStatus
     /\ legend (color_app2 (PyFloat r)) = Some CriticalStatus)
  /\ (forall harvested_cnt total, total <= 0 ->
     rate harvested_cnt total = PyInt 0
     /\ App2.taxa_canteiro harvested_cnt total = PyInt 0
     /\ legend (color (rate harvested_cnt total)) = Some CriticalStatus
     /\ legend (color_app2 (App2.taxa_canteiro harvested_cnt total)) = Some CriticalStatus)
  /\ (forall beds v cards,
     bed_cards beds v = Ok cards -> df_empty beds = false ->
     length cards = length (rows beds)
     /\ forall i b, rows beds !! i = Some b ->
          exists c, cards !! i = Some c
            /\ card_total c
               = Z.of_nat (bed_total (plantios_f v) (cell_of beds "canteiro_id" b))
            /\ card_rate c = rate (card_harvested c) (card_total c)
            /\ card_color c = color (card_rate c)
            /\ (plantings_in_bed (plantios_f v) (cell_of beds "canteiro_id" b) = [] ->
                card_total c = 0 /\ card_rate c = PyInt 0
                /\ legend (card_color c) = Some CriticalStatus))
  /\ (forall st l,
     status_df st = Ok l -> well_formed (colheitas st) = true ->
     forall s, s ∈ l ->
       exists b, b ∈ rows (canteiros st)
         /\ status_total s
            = length (plantings_in_bed (plantios st) (cell_of (canteiros st) "canteiro_id" b))
         /\ status_taxa s
            = App2.taxa_canteiro (Z.of_nat (status_colh s)) (Z.of_nat (status_total s))
         /\ (plantings_in_bed (plantios st) (cell_of (canteiros st) "canteiro_id" b) = [] ->
             status_taxa s = PyInt 0
             /\ legend (color_app2 (status_taxa s)) = Some CriticalStatus)).
Proof.
  split; [| split; [| split; [| split; [| split]]]].
  - intros H. unfold color, color_app2.
    rewrite (proj2 (pynum_ge_float r (6 # 10)) H). auto.
  - intros Hlo Hhi. unfold color, color_app2.
    rewrite (proj2 (pynum_ge_float_false r (6 # 10)) Hhi).
    rewrite (proj2 (pynum_ge_float r (25 # 100)) Hlo). auto.
  - intros Hhi. unfold color, color_app2.
    assert (Hhi' : (r < 6 # 10)%Q) by lra.
    rewrite (proj2 (pynum_ge_float_false r (6 # 10)) Hhi').
    rewrite (proj2 (pynum_ge_float_false r (25 # 100)) Hhi). auto.
  - intros h t Ht. unfold rate, App2.taxa_canteiro.
    rewrite (proj2 (Z.ltb_ge 0 t) Ht). auto.
  - intros beds v cards Hcards He. split.
    + unfold bed_cards in Hcards. rewrite He in Hcards. cbv zeta in Hcards.
      apply bind_Ok in Hcards as (totals & _ & H).
      apply bind_Ok in H as (harvested & _ & H). injection H as <-.
      apply length_map.
    + intros i b Hb.
      destruct (bed_cards_nth _ _ _ _ _ Hcards He Hb) as (c & Hc & Ht & Hr & Hcol).
      exists c. split; [exact Hc |]. split; [exact Ht |]. split; [exact Hr |].
      split; [exact Hcol |]. intros Hnone.
      assert (H0 : card_total c = 0) by (rewrite Ht; unfold bed_total; by rewrite Hnone).
      split; [exact H0 |]. rewrite Hcol, Hr, H0. auto.
  - intros st l H Hwf s Hs.
    destruct (status_row _ _ _ H Hwf Hs) as (b & Hb & Ht & _ & Htaxa).
    exists b. split; [exact Hb |]. split; [exact Ht |]. split; [exact Htaxa |].
    intros Hnone. rewrite Htaxa, Ht.
    change (bed_plantings st ?c) with (plantings_in_bed (plantios st) c).
    rewrite Hnone. auto.
Qed.

End Properties.

(** * The scenario of the specification, and the claims at concrete inputs *)

(** With no filter: total harvested 5, one planting, one planting with a
    harvest, and the bed "A" with 1 planting, 1 harvested, rate 1, green. *)
Example cenario_sem_filtro :
  exists d, dashboard (P := literal_readings) sem_filtro cenario = Ok d
    /\ dash_kpis d = mkKpis 5 1 1 0
    /\ dash_cards d = [mkCard (CStr "A") 1 1 (PyFloat 1) "#1B5E20"].
Proof. eexists. split; [vm_compute; reflexivity |]. split; reflexivity. Qed.

(** The sentinel -1 of the propagation is an id like another: when a
    planting with id -1 is selected, a child row whose id is no number is
    kept. *)
Example sentinel_collision :
  rows (filter_by_plantios_table (P := literal_readings) {[ -1 ]}
          (Some (mkDataFrame ["plantio_id"] [[CStr "abc"]])))
  = [[CStr "abc"]].
Proof. vm_compute. reflexivity. Qed.

(** In [app_enhanced.py] a missing [colheitas.csv] is reported, the
    harvest table is empty and the dashboard is still computed. *)
Example dashboard_sem_colheitas :
  (load_enhanced dir_sem_colheitas).2 = [Arquivo_ausente "colheitas.csv"]
  /\ colheitas (load_enhanced dir_sem_colheitas).1 = pd_DataFrame
  /\ exists d, dashboard (P := literal_readings) sem_filtro
                 (load_enhanced dir_sem_colheitas).1 = Ok d
               /\ dash_kpis d = mkKpis 0 1 0 0.
Proof.
  split; [vm_compute; reflexivity |]. split; [vm_compute; reflexivity |].
  eexists. split; [vm_compute; reflexivity | reflexivity].
Qed.

(** C1: a table with rows and no [plantio_id] column comes back whole from
    the propagation of the empty selection. *)
Lemma propagate_selection_counterexample :
  filter_by_plantios_table (P := literal_readings) ∅ (Some eventos_sem_plantio_id)
  = eventos_sem_plantio_id
  /\ df_empty (filter_by_plantios_table (P := literal_readings) ∅
                 (Some eventos_sem_plantio_id)) = false.
Proof. split; vm_compute; reflexivity. Qed.

Lemma propagate_selection_witness :
  has_column "plantio_id" (colheitas cenario) = true
  /\ rows (filter_by_plantios_table (P := literal_readings) ∅ (Some (colheitas cenario))) = []
  /\ df_empty (filter_by_plantios_table (P := literal_readings) ∅
                 (Some (colheitas cenario))) = true.
Proof.
  split; [reflexivity |].
  exact (proj1 (propagate_selection (P := literal_readings) ∅ (colheitas cenario)
                  (or_intror eq_refl)) eq_refl).
Defined.

Lemma propagate_without_column_witness :
  df_empty eventos_sem_plantio_id = false
  /\ has_column "plantio_id" eventos_sem_plantio_id = false
  /\ filter_by_plantios_table (P := literal_readings) ∅ (Some eventos_sem_plantio_id)
     = eventos_sem_plantio_id.
Proof.
  split; [reflexivity |]. split; [reflexivity |].
  exact (proj1 (propagate_without_column (P := literal_readings) ∅
                  eventos_sem_plantio_id eq_refl eq_refl)).
Defined.


(** With the plantings of "Ana" selected in [horta] (100 in bed A, 102
    in bed B; the two harvests are of planting 100): two plantings, one
    of them harvested, 8 harvested in all; bed A has 1 planting, 1
    harvested, bed B has 1 planting, none harvested. *)
Example dashboard_da_ana :
  exists d, dashboard (P := literal_readings) so_ana horta = Ok d
    /\ plantio_ids (dash_views d) = {[ 100; 102 ]}
    /\ total_plantios (dash_kpis d) = 2%nat
    /\ plantios_colhidos (dash_kpis d) = 1%nat
    /\ (total_colhido (dash_kpis d) == 8)%Q
    /\ map (fun c => (card_nome c, card_total c, card_harvested c, card_color c))
           (dash_cards d)
       = [(CStr "A", 1, 1, "#1B5E20"); (CStr "B", 1, 0, "#B71C1C")].
Proof.
  eexists. split; [vm_compute; reflexivity |].
  split; [refine (bool_decide_unpack _ _); vm_compute; exact I |].
  split; [reflexivity |]. split; [reflexivity |].
  split; [vm_compute; reflexivity | reflexivity].
Qed.


(** C3: a negative quantity stays negative, and an infinite one is
    refused. *)
Lemma quantidade_coercion_counterexample :
  coerce_quantidade (P := literal_readings) (CInt (-5)) = Ok (-5)
  /\ coerce_quantidade (P := literal_readings) (CStr "-3") = Ok (-3)
  /\ coerce_quantidade (P := literal_readings) (CStr "inf") = Raise ValueError.
Proof. split; [| split]; vm_compute; reflexivity. Qed.

(** A quantity beyond the range of int64 becomes the least int64. *)
Example quantidade_1e19 :
  coerce_quantidade (P := literal_readings) (CFloat (inject_Z (10 ^ 19)))
  = Ok (-9223372036854775808).
Proof. vm_compute. reflexivity. Qed.

Lemma quantidade_coercion_witness :
  coerce_quantidade (P := literal_readings) (CStr "-inf") = Raise ValueError
  /\ coerce_quantidade (P := literal_readings) (CStr "abc") = Ok 0
  /\ coerce_quantidade (P := literal_readings) CNaN = Ok 0
  /\ (exists z, coerce_quantidade (P := literal_readings) (CFloat (5 # 2)) = Ok z
        /\ Z.even z = true /\ 0 <= z)
  /\ (exists z, coerce_quantidade (P := literal_readings) (CFloat (7 # 1)) = Ok z /\ z = 7)
  /\ coerce_quantidade (P := literal_readings) (CInt (-5)) = Ok (-5).
Proof.
  assert (H52 : exactly_held (5 # 2)) by (split; vm_compute; discriminate).
  assert (H7 : exactly_held (7 # 1)) by (split; vm_compute; discriminate).
  split; [| split; [| split; [| split; [| split]]]].
  - apply (proj1 (quantidade_coercion (P := literal_readings) (CStr "-inf"))).
    vm_compute. reflexivity.
  - apply (proj1 (proj2 (quantidade_coercion (P := literal_readings) (CStr "abc"))));
      vm_compute; reflexivity.
  - apply (proj1 (proj2 (quantidade_coercion (P := literal_readings) CNaN)));
      vm_compute; reflexivity.
  - destruct (proj1 (proj2 (proj2 (quantidade_coercion (P := literal_readings)
                                     (CFloat (5 # 2)))))
                (5 # 2)%Q eq_refl eq_refl H52)
      as (z & Hz & Hlo & _ & Heven & Hpos & _).
    exists z. split; [exact Hz |]. split.
    + apply Heven. right.
      vm_compute in Hz. injection Hz as <-. vm_compute. reflexivity.
    + apply Hpos. vm_compute. discriminate.
  - destruct (proj1 (proj2 (proj2 (quantidade_coercion (P := literal_readings)
                                     (CFloat (7 # 1)))))
                (7 # 1)%Q eq_refl eq_refl H7)
      as (z & Hz & _ & _ & _ & _ & Hwhole).
    exists z. split; [exact Hz |]. apply Hwhole. reflexivity.
  - apply (proj2 (proj2 (proj2 (quantidade_coercion (P := literal_readings) (CInt (-5)))))).
    vm_compute. reflexivity.
Defined.

(** C4: with no planting the success rate is the number 0. *)
Lemma success_rate_range_counterexample :
  exists k, App.kpis cenario_vazio = Ok k
    /\ App.num_plantios k = O
    /\ App.taxa k = PyInt 0
    /\ ~ undefined (App.taxa k).
Proof.
  eexists. split; [vm_compute; reflexivity |].
  split; [reflexivity |]. split; [reflexivity | discriminate].
Qed.

Lemma success_rate_range_witness :
  exists k, App.kpis cenario = Ok k
    /\ taxa_spec cenario (App.plantios_colhidos k) (App.num_plantios k) (App.taxa k).
Proof.
  eexists. split; [vm_compute; reflexivity |].
  apply (proj1 (success_rate_range cenario)). reflexivity.
Defined.

(** C5: without [colheitas.csv], [load_data] reports the file and raises. *)
Lemma load_data_missing_file_witness :
  "colheitas.csv" ∈ sources
  /\ dir_sem_colheitas !! "colheitas.csv" = None
  /\ Arquivo_ausente "colheitas.csv" ∈ (App2.load_data dir_sem_colheitas).1
  /\ (exists e, (App2.load_data dir_sem_colheitas).2 = Raise e)
  /\ (exists e, App.load dir_sem_colheitas = Raise e).
Proof.
  assert (Hin : "colheitas.csv" ∈ sources) by (unfold sources; do 4 right; left).
  assert (Hmiss : dir_sem_colheitas !! "colheitas.csv" = None) by (vm_compute; reflexivity).
  split; [exact Hin |]. split; [exact Hmiss |].
  exact (load_data_missing_file dir_sem_colheitas "colheitas.csv" Hin Hmiss).
Defined.

Example load_data_sem_colheitas :
  App2.load_data dir_sem_colheitas
  = ([Arquivo_ausente "colheitas.csv"], Raise (FileNotFoundError "colheitas.csv")).
Proof. vm_compute. reflexivity. Qed.

(** C6, on [app2.py].  A harvest of 5 whose planting is not in the
    planting table has no species name: the grouped sum of [app2.py] drops
    it and is empty, while the total harvested is 5; the grouped sum of
    [app.py] keeps it under the missing key. *)
Theorem prod_sum_drops_missing_key :
  (exists st k,
     App2.join_helpers cenario_orfa = Ok st
     /\ App2.prod_sum "Todas" st = Ok []
     /\ App2.kpis st = Ok k
     /\ App2.total_colhido k = 5%Q)
  /\ App.prod_sum "Todas" cenario_orfa = Ok [(None, 5%Q)].
Proof.
  split.
  - do 2 eexists. split; [vm_compute; reflexivity |].
    split; [vm_compute; reflexivity |].
    split; [vm_compute; reflexivity | reflexivity].
  - vm_compute. reflexivity.
Qed.

(** C7, on [app2.py].  With the species "Basil" no planting of the
    scenario is selected, and the status of bed "A" still counts its
    planting: total 1, harvested 1, rate 1, green; the card of
    [app_enhanced.py] has total 0, rate 0 and is red. *)
Example app2_status_basil :
  exists st p l,
    App2.join_helpers cenario = Ok st
    /\ App2.seleciona (P := literal_readings) so_basil_app2 st = Ok p
    /\ rows p = []
    /\ status_df st = Ok l
    /\ map (fun s => (status_canteiro s, status_total s, status_colh s,
                      color_app2 (status_taxa s))) l
       = [(CStr "A", 1%nat, 1%nat, "#2ECC71")]
    /\ exists d, dashboard (P := literal_readings) so_basil cenario = Ok d
         /\ dash_cards d = [mkCard (CStr "A") 0 0 (PyInt 0) "#B71C1C"].
Proof.
  do 3 eexists. split; [vm_compute; reflexivity |].
  split; [vm_compute; reflexivity |]. split; [reflexivity |].
  split; [vm_compute; reflexivity |]. split; [reflexivity |].
  eexists. split; [vm_compute; reflexivity | reflexivity].
Qed.

(** C7 at the three rates of the specification, on the cards of the
    scenario with the species "Basil", and on the status of [app2.py]. *)
Lemma bed_status_bands_witness :
  legend (color (PyFloat (6 # 10))) = Some Good
  /\ legend (color (PyFloat (59999 # 100000))) = Some Attention
  /\ legend (color (PyFloat (24999 # 100000))) = Some CriticalStatus
  /\ legend (color (rate 0 0)) = Some CriticalStatus
  /\ (exists d c,
        dashboard (P := literal_readings) so_basil cenario = Ok d
        /\ length (dash_cards d) = 1%nat
        /\ dash_cards d !! 0%nat = Some c
        /\ card_total c = 0 /\ card_rate c = PyInt 0
        /\ legend (card_color c) = Some CriticalStatus)
  /\ (exists st l,
        App2.join_helpers cenario = Ok st
        /\ status_df st = Ok l
        /\ forall s, s ∈ l ->
             exists b, b ∈ rows (canteiros st)
               /\ status_total s
                  = length (plantings_in_bed (plantios st)
                              (cell_of (canteiros st) "canteiro_id" b))).
Proof.
  split; [| split; [| split; [| split; [| split]]]].
  - apply (proj1 (bed_status_bands (6 # 10))).
    unfold Qle; simpl; lia.
  - apply (proj1 (proj2 (bed_status_bands (59999 # 100000)))).
    + unfold Qle; simpl; lia.
    + unfold Qlt; simpl; lia.
  - apply (proj1 (proj2 (proj2 (bed_status_bands (24999 # 100000))))).
    unfold Qlt; simpl; lia.
  - apply (proj1 (proj2 (proj2 (proj2 (bed_status_bands 0)))) 0 0).
    lia.
  - eexists.
    match goal with
    | |- exists c, ?h = Ok ?d /\ _ =>
        assert (Hd : h = Ok d) by (vm_compute; reflexivity);
        destruct (proj1 (proj2 (proj2 (proj2 (proj2
                    (bed_status_bands 0)))))
                    (canteiros cenario) (dash_views d) (dash_cards d)
                    ltac:(vm_compute; reflexivity) eq_refl) as [Hlen Hnth]
    end.
    destruct (Hnth 0%nat [CInt 1; CStr "A"; CInt 10] eq_refl)
      as (c & Hc & _ & _ & _ & Hnone).
    destruct (Hnone eq_refl) as (H0 & Hr & Hl).
    exists c. split; [exact Hd |]. split; [exact Hlen |]. split; [exact Hc |].
    split; [exact H0 |]. split; [exact Hr | exact Hl].
  - do 2 eexists. split; [vm_compute; reflexivity |].
    match goal with
    | |- status_df ?st = _ /\ _ => set (st0 := st)
    end.
    split; [vm_compute; reflexivity |].
    intros s Hs.
    match goal with
    | Hs : s ∈ ?l |- _ =>
        destruct (proj2 (proj2 (proj2 (proj2 (proj2
                    (bed_status_bands 0)))))
                    st0 l eq_refl eq_refl s Hs) as (b & Hb & Ht & _)
    end.
    exists b. split; [exact Hb | exact Ht].
Defined.

(** C8: a search text made of one space is not empty, and it filters
    nothing: a planting is kept whose notes hold no space and which has
    no observation. *)
Lemma busca_notes_or_comments_counterexample :
  let r := [CInt 102; CDate (ymd 2025 1 3); CStr "semregistro"] in
  " " <> EmptyString
  /\ exists pf,
       App2.busca (P := literal_readings) " " observ_busca plantios_busca plantios_busca
       = Ok pf
       /\ r ∈ rows pf
       /\ is_substring " " (text (cell_of plantios_busca "notas" r)) = false
       /\ forall o, o ∈ rows observ_busca ->
            key_match (cell_of plantios_busca "plantio_id" r)
                      (cell_of observ_busca "plantio_id" o) = false.
Proof.
  intros r. split; [discriminate |].
  eexists. split; [vm_compute; reflexivity |].
  split; [do 2 right; left |]. split; [reflexivity |].
  intros o Ho. apply list_elem_of_singleton in Ho as ->. reflexivity.
Qed.

Lemma busca_notes_or_comments_witness :
  App2.busca (P := literal_readings) "  " observ_busca plantios_busca plantios_busca
  = Ok plantios_busca
  /\ (exists pf,
        App2.busca (P := literal_readings) " Pulgao " observ_busca plantios_busca
          plantios_busca = Ok pf
        /\ columns pf = columns plantios_busca
        /\ rows pf `sublist_of` rows plantios_busca
        /\ forall r, r ∈ rows pf <->
             r ∈ rows plantios_busca
             /\ (is_substring "pulgao"
                   (lower (Pandas := literal_readings)
                      (text (cell_of plantios_busca "notas" r))) = true
                 \/ exists o, o ∈ rows observ_busca
                      /\ is_substring "pulgao"
                           (lower (Pandas := literal_readings)
                              (text (cell_of observ_busca "comentarios" o))) = true
                      /\ key_match (cell_of plantios_busca "plantio_id" r)
                                   (cell_of observ_busca "plantio_id" o) = true))
  /\ App2.busca (P := literal_readings) "adubo" observ_busca plantios_sem_notas
       plantios_sem_notas_vazio = Raise AttributeError.
Proof.
  split; [| split].
  - apply (proj1 (busca_notes_or_comments (P := literal_readings) "  "
                    observ_busca plantios_busca plantios_busca)).
    vm_compute. reflexivity.
  - apply (proj1 (proj2 (busca_notes_or_comments (P := literal_readings) " Pulgao "
                           observ_busca plantios_busca plantios_busca)
                    ltac:(vm_compute; discriminate) eq_refl eq_refl eq_refl eq_refl eq_refl
                    eq_refl (fun r H => H) eq_refl eq_refl)).
    left. discriminate.
  - apply (proj2 (proj2 (busca_notes_or_comments (P := literal_readings) "adubo"
                           observ_busca plantios_sem_notas plantios_sem_notas_vazio)
                    ltac:(vm_compute; discriminate) eq_refl eq_refl eq_refl eq_refl eq_refl
                    eq_refl
                    (fun r (H : r ∈ rows plantios_sem_notas_vazio) =>
                       False_ind _ (not_elem_of_nil r H))
                    eq_refl eq_refl));
      reflexivity.
Defined.

Example busca_pulgao :
  App2.busca (P := literal_readings) " Pulgao " observ_busca plantios_busca plantios_busca
  = Ok (mkDataFrame ["plantio_id"; "data_plantio"; "notas"]
          [[CInt 101; CDate (ymd 2025 1 2); CNaN]]).
Proof. vm_compute. reflexivity. Qed.

(** The search finds "PULGÃO" for the term "pulgão": the lower case is
    that of the letters, not of the ASCII range alone. *)
Example busca_pulgao_til :
  App2.busca (P := literal_readings) pulgao observ_pulgao plantios_busca plantios_busca
  = Ok (mkDataFrame ["plantio_id"; "data_plantio"; "notas"]
          [[CInt 101; CDate (ymd 2025 1 2); CNaN]]).
Proof. vm_compute. reflexivity. Qed.

(** C9: a period whose start is after its end raises nothing, in
    [filter_plantios], in the whole run of [app_enhanced.py] and in the
    selection of [app2.py]: no planting is selected. *)
Lemma filter_plantios_failure_counterexample :
  ymd 2025 1 1 < ymd 2025 12 31
  /\ (exists r, filter_plantios (P := literal_readings) periodo_invertido (plantios cenario)
                = Ok r /\ rows r = [])
  /\ (exists d, dashboard (P := literal_readings) periodo_invertido cenario = Ok d)
  /\ (exists st p,
        App2.join_helpers cenario = Ok st
        /\ App2.seleciona (P := literal_readings)
             (App2.mkCriteria (DateSeq [ymd 2025 12 31; ymd 2025 1 1])
                "Todas" "Todos" "Todos" "Todos" false EmptyString) st = Ok p
        /\ rows p = []).
Proof.
  split; [reflexivity |].
  split; [eexists; split; [vm_compute; reflexivity | reflexivity] |].
  split; [eexists; vm_compute; reflexivity |].
  do 2 eexists. split; [vm_compute; reflexivity |].
  split; [vm_compute; reflexivity | reflexivity].
Qed.

Lemma filter_plantios_failure_witness :
  ymd 2025 1 1 < ymd 2025 12 31
  /\ (exists r, filter_plantios (P := literal_readings) periodo_invertido (plantios cenario)
                = Ok r /\ rows r = [])
  /\ filter_plantios (P := literal_readings)
       (mkCriteria (DateSeq [ymd 2025 1 1]) "Todas" "Todos" "Todos") (plantios cenario)
     = Raise TypeError.
Proof.
  split; [reflexivity |]. split.
  - destruct (proj1 (proj2 (filter_plantios_failure (P := literal_readings)
                              periodo_invertido (plantios cenario)))
                _ _ eq_refl) as (r & Hr & Hrows).
    exists r. split; [exact Hr |]. apply Hrows; reflexivity.
  - apply (proj1 (filter_plantios_failure (P := literal_readings)
                    (mkCriteria (DateSeq [ymd 2025 1 1]) "Todas" "Todos" "Todos")
                    (plantios cenario))).
    split; [reflexivity |]. split; [reflexivity |].
    eexists. split; [reflexivity |]. simpl. lia.
Defined.

(** ** The further properties at concrete inputs *)

Lemma normalize_dataframes_whole_witness :
  exists st',
    normalize_dataframes (P := literal_readings) horta = Ok st'
    /\ normalized st'
    /\ same_shape (plantios st') (plantios horta)
    /\ same_shape (colheitas st') (colheitas horta).
Proof.
  eexists. split; [vm_compute; reflexivity |].
  match goal with
  | |- normalized ?s /\ _ =>
      destruct (normalize_dataframes_whole (P := literal_readings) horta s eq_refl)
        as (H1 & H2 & H3 & _)
  end.
  split; [exact H1 |]. split; [exact H2 | exact H3].
Defined.

Lemma normalize_dataframes_idempotent_witness :
  exists st',
    normalize_dataframes (P := literal_readings) horta = Ok st'
    /\ normalize_dataframes (P := literal_readings) st' = Ok st'.
Proof.
  eexists. split; [vm_compute; reflexivity |].
  exact (normalize_dataframes_idempotent (P := literal_readings) horta _ eq_refl).
Defined.

Lemma normalize_dataframes_fractional_witness :
  to_numeric (P := literal_readings) (CFloat (5 # 2)) = Some (5 # 2)
  /\ fractional (5 # 2)
  /\ (exists e, normalize_dataframes (P := literal_readings) cenario_fracionario = Raise e)
  /\ normalize_dataframes (P := literal_readings) cenario_fracionario = Raise TypeError.
Proof.
  split; [reflexivity |]. split; [discriminate |].
  assert (H : (exists e, normalize_dataframes (P := literal_readings) cenario_fracionario
                         = Raise e)
              /\ (plantios cenario_fracionario = plantios cenario_fracionario ->
                  "plantio_id" = "plantio_id" ->
                  normalize_dataframes (P := literal_readings) cenario_fracionario
                  = Raise TypeError)).
  { refine (normalize_dataframes_fractional (P := literal_readings) cenario_fracionario
              (plantios cenario_fracionario) "plantio_id"
              [CFloat (5 # 2); CInt 1; CInt 1; CDate (ymd 2025 1 1); CNaN; CNaN; CNaN]
              (5 # 2) _ eq_refl eq_refl _ eq_refl _).
    - left.
    - left.
    - discriminate. }
  split; [exact (proj1 H) | exact (proj2 H eq_refl eq_refl)].
Defined.

(** Of the three plantings of [horta], the one planted from 15 January
    2025 by "Ana" is planting 102. *)
Example plantios_desde_15_jan_ana :
  filter_plantios (P := literal_readings) desde_15_jan_ana (plantios horta)
  = Ok (mkDataFrame (columns (plantios horta))
          [[CInt 102; CInt 2; CInt 1; CDate (ymd 2025 3 1); CStr "Ana"; CStr "muda"; CNaN]]).
Proof. vm_compute. reflexivity. Qed.

Lemma filter_plantios_conjunction_witness :
  exists pf,
    filter_plantios (P := literal_readings) desde_15_jan_ana (plantios horta) = Ok pf
    /\ length (rows pf) = 1%nat
    /\ columns pf = columns (plantios horta)
    /\ rows pf `sublist_of` rows (plantios horta)
    /\ forall r, r ∈ rows pf <->
         r ∈ rows (plantios horta)
         /\ passes desde_15_jan_ana (ymd 2025 1 15) (ymd 2025 12 31) (P := literal_readings)
              (plantios horta) r.
Proof.
  destruct (proj1 (filter_plantios_conjunction (P := literal_readings) desde_15_jan_ana
                     (plantios horta) (ymd 2025 1 15) (ymd 2025 12 31) eq_refl eq_refl)
              eq_refl eq_refl) as (pf & Hpf & H).
  exists pf. split; [exact Hpf |]. split; [| exact H].
  vm_compute in Hpf. by injection Hpf as <-.
Defined.

Lemma filter_plantios_idempotent_witness :
  exists pf,
    filter_plantios (P := literal_readings) desde_15_jan_ana (plantios horta) = Ok pf
    /\ length (rows pf) = 1%nat
    /\ filter_plantios (P := literal_readings) desde_15_jan_ana pf = Ok pf
    /\ date_column "data_plantio" pf = true.
Proof.
  eexists. split; [vm_compute; reflexivity |]. split; [reflexivity |].
  apply (filter_plantios_idempotent (P := literal_readings) desde_15_jan_ana
           (plantios horta)).
  - vm_compute. reflexivity.
  - vm_compute. reflexivity.
Defined.

Lemma dashboard_colhidos_le_plantios_witness :
  exists d,
    dashboard (P := literal_readings) sem_filtro horta = Ok d
    /\ (plantios_colhidos (dash_kpis d) <= total_plantios (dash_kpis d))%nat.
Proof.
  eexists. split; [vm_compute; reflexivity |].
  apply (dashboard_colhidos_le_plantios (P := literal_readings) sem_filtro horta).
  vm_compute. reflexivity.
Defined.

Lemma views_refer_to_selection_witness :
  exists v,
    views (P := literal_readings) sem_filtro horta = Ok v
    /\ rows (colheitas_f v) `sublist_of` rows (colheitas horta)
    /\ forall r, r ∈ rows (colheitas_f v) ->
         exists p q, p ∈ rows (plantios_f v)
           /\ to_numeric (P := literal_readings) (cell_of (plantios_f v) "plantio_id" p)
              = Some q
           /\ astype_int q
              = id_read (P := literal_readings) (cell_of (colheitas horta) "plantio_id" r).
Proof.
  eexists. split; [vm_compute; reflexivity |].
  refine (views_refer_to_selection (P := literal_readings) sem_filtro horta _ eq_refl
            (colheitas horta) _ _ eq_refl).
  left.
Defined.

Lemma enrich_keeps_plantings_witness :
  exists st',
    enrich horta = Ok st'
    /\ extends_rows (plantios horta) (plantios st')
    /\ length (rows (plantios st')) = length (rows (plantios horta))
    /\ colheitas st' = colheitas horta.
Proof.
  eexists. split; [vm_compute; reflexivity |].
  match goal with
  | |- extends_rows _ (plantios ?s) /\ _ =>
      destruct (enrich_keeps_plantings horta s eq_refl)
        as (H1 & H2 & _ & _ & H5 & _)
  end.
  split; [exact H1 |]. split; [| exact H5].
  apply H2; apply unique_key_NoDup; apply (bool_decide_unpack _); vm_compute; exact I.
Defined.

Lemma pages_on_empty_selection_witness :
  pagina_colheitas plantios_sem_linhas (colheitas horta) = colheitas horta
  /\ pagina_manejo plantios_sem_linhas (eventos horta) = eventos horta
  /\ rows (pagina_observacoes plantios_sem_linhas (observ horta)) = []
  /\ rows (filter_by_plantios_table (P := literal_readings)
             (plantio_ids_of (P := literal_readings) plantios_sem_linhas)
             (Some (colheitas horta))) = [].
Proof.
  destruct (pages_on_empty_selection (P := literal_readings) plantios_sem_linhas
              (colheitas horta) eq_refl eq_refl eq_refl eq_refl) as (H1 & _ & _ & H4).
  destruct (pages_on_empty_selection (P := literal_readings) plantios_sem_linhas
              (eventos horta) eq_refl eq_refl eq_refl eq_refl) as (_ & H2 & _ & _).
  destruct (pages_on_empty_selection (P := literal_readings) plantios_sem_linhas
              (observ horta) eq_refl eq_refl eq_refl eq_refl) as (_ & _ & H3 & _).
  split; [exact H1 |]. split; [exact H2 |]. split; [exact H3 | exact H4].
Defined.

Lemma pages_agree_with_views_witness :
  rows (pagina_colheitas (plantios horta) (colheitas horta))
  = rows (filter_by_plantios_table (P := literal_readings)
            (plantio_ids_of (P := literal_readings) (plantios horta))
            (Some (colheitas horta)))
  /\ rows (pagina_manejo (plantios horta) (colheitas horta))
     = rows (filter_by_plantios_table (P := literal_readings)
               (plantio_ids_of (P := literal_readings) (plantios horta))
               (Some (colheitas horta)))
  /\ rows (pagina_observacoes (plantios horta) (colheitas horta))
     = rows (filter_by_plantios_table (P := literal_readings)
               (plantio_ids_of (P := literal_readings) (plantios horta))
               (Some (colheitas horta))).
Proof.
  apply (pages_agree_with_views (P := literal_readings) (plantios horta) (colheitas horta)).
  - intros r Hr. simpl in Hr.
    repeat (apply elem_of_cons in Hr as [-> | Hr]; [reflexivity |]). inversion Hr.
  - intros r Hr. simpl in Hr.
    repeat (apply elem_of_cons in Hr as [-> | Hr]; [reflexivity |]). inversion Hr.
  - reflexivity.
  - reflexivity.
  - reflexivity.
  - reflexivity.
  - intros Hin. vm_compute in Hin.
    repeat (apply elem_of_cons in Hin as [Hin | Hin]; [discriminate |]). inversion Hin.
  - intros Hin. vm_compute in Hin.
    repeat (apply elem_of_cons in Hin as [Hin | Hin]; [discriminate |]). inversion Hin.
Defined.

Lemma grouped_sum_dropna_False_witness :
  exists g,
    grouped_sum false "nome_comum" "quantidade_colhida" producao = Ok g
    /\ Sorted sum_ge g
    /\ (sumQ (map snd g) == 11)%Q
    /\ None ∈ map fst g.
Proof.
  destruct (grouped_sum_dropna_False "nome_comum" "quantidade_colhida" producao
              [Some 5%Q; Some 3%Q; Some 2%Q; Some 1%Q] eq_refl eq_refl eq_refl eq_refl)
    as (g & Hg & Hs & Hsum & Hkeys).
  exists g. split; [exact Hg |]. split; [exact Hs |]. split.
  - rewrite Hsum. reflexivity.
  - apply (Hkeys [CNaN; CInt 3]). right. left.
Defined.

Lemma grouped_sum_dropna_True_witness :
  exists g,
    grouped_sum true "nome_comum" "quantidade_colhida" producao = Ok g
    /\ Sorted sum_ge g
    /\ (None ∉ map fst g)
    /\ (sumQ (map snd g) == 8)%Q.
Proof.
  destruct (grouped_sum_dropna_True "nome_comum" "quantidade_colhida" producao
              [Some 5%Q; Some 3%Q; Some 2%Q; Some 1%Q] eq_refl eq_refl eq_refl eq_refl)
    as (g & Hg & Hs & Hnone & _ & Hsum).
  exists g. split; [exact Hg |]. split; [exact Hs |]. split; [exact Hnone |].
  rewrite Hsum. reflexivity.
Defined.

Lemma load_enhanced_reports_witness :
  Arquivo_ausente "colheitas.csv" ∈ (load_enhanced dir_com_falhas).2
  /\ Falha_ao_carregar "eventos_manejo.csv" ∈ (load_enhanced dir_com_falhas).2
  /\ source_table (load_enhanced dir_com_falhas).1 "colheitas.csv" = pd_DataFrame
  /\ source_table (load_enhanced dir_com_falhas).1 "eventos_manejo.csv" = pd_DataFrame
  /\ source_table (load_enhanced dir_com_falhas).1 "observacoes.csv" = observ horta
  /\ (load_enhanced dir_com_falhas).2 <> [].
Proof.
  destruct (load_enhanced_reports dir_com_falhas) as (Haus & Hfal & Hvazio & Hlido & Hnada).
  assert (Hc : "colheitas.csv" ∈ sources) by (do 4 right; left).
  assert (He : "eventos_manejo.csv" ∈ sources) by (do 5 right; left).
  assert (Ho : "observacoes.csv" ∈ sources) by (do 3 right; left).
  assert (H1 : Arquivo_ausente "colheitas.csv" ∈ (load_enhanced dir_com_falhas).2).
  { apply Haus. split; [exact Hc | reflexivity]. }
  assert (H2 : Falha_ao_carregar "eventos_manejo.csv" ∈ (load_enhanced dir_com_falhas).2).
  { apply Hfal. split; [exact He |].
    exists (mkCsv (Raise ValueError) (Raise ValueError)), ValueError, ValueError.
    split; [reflexivity |]. split; reflexivity. }
  split; [exact H1 |]. split; [exact H2 |].
  split; [apply (Hvazio _ Hc); by left |].
  split; [apply (Hvazio _ He); by right |].
  split.
  - apply (Hlido _ (mkCsv (Raise ValueError) (Ok (observ horta))) _ Ho eq_refl).
    right. split; [by exists ValueError | reflexivity].
  - intros Hnil. rewrite Hnil in H1. inversion H1.
Defined.

Lemma app2_filtra_selection_witness :
  exists st p,
    App2.join_helpers horta = Ok st
    /\ App2.filtra (P := literal_readings) ativos_da_ana st = Ok p
    /\ length (rows p) = 1%nat
    /\ exists s e,
         App2.unpack (App2.period ativos_da_ana) = Ok (s, e)
         /\ columns p = columns (plantios st)
         /\ rows p `sublist_of` rows (plantios st)
         /\ forall r, r ∈ rows p <->
              r ∈ rows (plantios st)
              /\ passes_app2 (P := literal_readings) ativos_da_ana s e st r.
Proof.
  do 2 eexists. split; [vm_compute; reflexivity |].
  split; [vm_compute; reflexivity |]. split; [reflexivity |].
  apply (app2_filtra_selection (P := literal_readings)). vm_compute. reflexivity.
Defined.

Lemma app2_status_ignores_harvests_witness :
  exists st l,
    App2.join_helpers horta = Ok st
    /\ status_df st = Ok l
    /\ map status_total l = [2; 1]%nat
    /\ map status_colh l = [2; 1]%nat
    /\ nunique (series "plantio_id" (colheitas st)) = 1%nat
    /\ forall s, s ∈ l ->
         status_colh s = status_total s
         /\ (status_total s <> O ->
             exists q, status_taxa s = PyFloat q /\ (q == 1)%Q
                       /\ color_app2 (status_taxa s) = "#2ECC71").
Proof.
  do 2 eexists. split; [vm_compute; reflexivity |].
  match goal with
  | |- status_df ?st = _ /\ _ => set (st0 := st)
  end.
  split; [vm_compute; reflexivity |].
  split; [reflexivity |]. split; [reflexivity |]. split; [reflexivity |].
  intros s Hs.
  match goal with
  | Hs : s ∈ ?l |- _ =>
      destruct (app2_status_ignores_harvests st0 l s eq_refl eq_refl Hs)
        as (c & _ & _ & _ & Hd)
  end.
  apply Hd. split.
  - apply (bool_decide_unpack _). vm_compute. exact I.
  - intros r Hr. simpl in Hr.
    repeat (apply elem_of_cons in Hr as [-> | Hr]; [discriminate |]). inversion Hr.
Defined.

Lemma top_sp_never_drawn_witness :
  exists st v m,
    enrich horta = Ok st
    /\ views (P := literal_readings) sem_filtro st = Ok v
    /\ total_colhido (dashboard_kpis (P := literal_readings) v) = 8%Q
    /\ merged_at_charts (P := literal_readings) (canteiros st) v = Ok m
    /\ df_empty m = false
    /\ top_sp m = None.
Proof.
  do 3 eexists. split; [vm_compute; reflexivity |].
  split; [vm_compute; reflexivity |]. split; [reflexivity |].
  match goal with
  | |- merged_at_charts ?b ?v = _ /\ _ => set (b0 := b); set (v0 := v)
  end.
  split; [vm_compute; reflexivity |]. split; [reflexivity |].
  match goal with
  | |- top_sp ?m = None =>
      exact (top_sp_never_drawn (P := literal_readings) b0 v0 m eq_refl eq_refl eq_refl)
  end.
Defined.

Lemma prod_area_never_drawn_witness :
  exists st v m,
    enrich horta = Ok st
    /\ views (P := literal_readings) sem_filtro st = Ok v
    /\ merged_at_charts (P := literal_readings) (canteiros st) v = Ok m
    /\ df_empty m = false
    /\ has_column "area_m2" (canteiros st) = true
    /\ prod_area (P := literal_readings) (canteiros st) m = None.
Proof.
  do 3 eexists. split; [vm_compute; reflexivity |].
  split; [vm_compute; reflexivity |].
  match goal with
  | |- merged_at_charts ?b ?v = _ /\ _ => set (b0 := b); set (v0 := v)
  end.
  split; [vm_compute; reflexivity |]. split; [reflexivity |]. split; [reflexivity |].
  match goal with
  | |- prod_area _ ?m = None =>
      exact (prod_area_never_drawn (P := literal_readings) b0 v0 m eq_refl eq_refl)
  end.
Defined.

Lemma bed_cards_harvested_le_total_witness :
  exists st v cards,
    enrich horta = Ok st
    /\ views (P := literal_readings) sem_filtro st = Ok v
    /\ bed_cards (canteiros st) v = Ok cards
    /\ map card_total cards = [2; 1]
    /\ map card_harvested cards = [1; 0]
    /\ forall c, c ∈ cards ->
         0 <= card_harvested c <= card_total c
         /\ (card_total c = 0 -> card_rate c = PyInt 0)
         /\ (0 < card_total c ->
             exists q, card_rate c = PyFloat q /\ (0 <= q)%Q /\ (q <= 1)%Q).
Proof.
  do 3 eexists. split; [vm_compute; reflexivity |].
  split; [vm_compute; reflexivity |].
  match goal with
  | |- bed_cards ?b ?v = _ /\ _ => set (b0 := b); set (v0 := v)
  end.
  split; [vm_compute; reflexivity |].
  split; [reflexivity |]. split; [reflexivity |].
  intros c Hc.
  match goal with
  | Hc : c ∈ ?l |- _ =>
      exact (bed_cards_harvested_le_total b0 v0 l c eq_refl eq_refl Hc)
  end.
Defined.

(** The name [../fotos/a b.png ] of an upload loses its separators and
    its final space; its dots stay. *)
Example safe_name_exemplo :
  safe_name (U := so_ascii) (codes "../fotos/a b.png ") = codes "..fotosa b.png".
Proof. vm_compute. reflexivity. Qed.
